(** * ph-weather: the sun-phase cache-aside service

    A shallow embedding of [main.go]: configuration loading
    ([collectConfig]), the Weather Underground client ([getWUApiRepose],
    [getWUAstronomy]), the request handler ([handleSunPhase]) and the error
    envelope builder ([makeErrorResponse]).

    Go values are modelled as follows.
    - [string] is Go's byte string (a Rocq [string] is a list of 8-bit
      characters); [int] is a 64-bit integer held in [Z].
    - A Go [error] is a value of the inductive type [error]; a nil error is
      [None].
    - [log.Fatal] ends the process: code that may call it returns an
      [Outcome], either [Ret] or [Fatal] with the logged line.
    - The Redis server, the upstream HTTP endpoint and the clock are the
      fields of an [Extern] record; the handler threads a [World] (the Redis
      store, the log, the upstream requests made) and the [ResponseWriter].
    - The packages the program imports ([strconv], [fmt], [encoding/json],
      [net/http], [go-redis], [jsonapi]) are modelled in modules of the same
      name, as far as the program uses them. *)

From Stdlib Require Import ZArith Lia Bool Strings.String Strings.Ascii
  Numbers.DecimalString.
From stdpp Require Import base option list strings gmap.

Local Open Scope string_scope.
Local Open Scope list_scope.
Local Open Scope Z_scope.

(** ** Bytes and strings *)

Definition code (c : ascii) : Z := Z.of_N (N_of_ascii c).
Definition chr (n : Z) : ascii := ascii_of_N (Z.to_N n).

Definition dquote : ascii := "034"%char.
Definition backslash : ascii := "092"%char.
Definition newline : ascii := "010"%char.

Definition str1 (c : ascii) : string := String c "".

Fixpoint join (sep : string) (l : list string) : string :=
  match l with
  | [] => ""
  | [s] => s
  | s :: l' => s +:+ sep +:+ join sep l'
  end.

Definition hexdigit (n : Z) : ascii :=
  if n <? 10 then chr (48 + n) else chr (87 + n).

(** ** Errors and process exit *)

Inductive numErr := ErrSyntax | ErrRange.

Inductive error :=
| errorString (msg : string)
| NumError (Func Num : string) (Err : numErr)
| RedisError (msg : string).

Global Instance numErr_eq_dec : EqDecision numErr.
Proof. solve_decision. Defined.
Global Instance error_eq_dec : EqDecision error.
Proof. solve_decision. Defined.

(** A computation that may end the process through [log.Fatal]
    ([os.Exit(1)] after printing the line). *)
Inductive Outcome (A : Type) :=
| Ret (a : A)
| Fatal (line : string).
Arguments Ret {A} a.
Arguments Fatal {A} line.

Global Instance Outcome_ret : MRet Outcome := fun A a => Ret a.
Global Instance Outcome_bind : MBind Outcome := fun A B k m =>
  match m with
  | Ret a => k a
  | Fatal l => Fatal l
  end.

(** ** strconv *)

Module strconv.

Definition intSize : Z := 64.
Definition maxUint64 : Z := 2 ^ 64 - 1.

Definition Itoa (i : Z) : string := NilZero.string_of_int (Z.to_int i).

(** [Quote]: printable ASCII is copied, the two characters that need a
    backslash get one, the named control characters use their letter and
    every other byte is written [\xhh].  (Go copies a printable
    multi-byte rune instead of escaping its bytes; the program only
    quotes the value of REDIS_DB inside a fatal message.) *)
Definition quoteByte (c : ascii) : string :=
  let n := code c in
  if n =? 34 then String backslash (str1 dquote)
  else if n =? 92 then String backslash (str1 backslash)
  else if (32 <=? n) && (n <? 127) then str1 c
  else if n =? 7 then String backslash "a"
  else if n =? 8 then String backslash "b"
  else if n =? 12 then String backslash "f"
  else if n =? 10 then String backslash "n"
  else if n =? 13 then String backslash "r"
  else if n =? 9 then String backslash "t"
  else if n =? 11 then String backslash "v"
  else String backslash (String "x" (String (hexdigit (n / 16)) (str1 (hexdigit (n mod 16))))).

Fixpoint quoteBody (s : string) : string :=
  match s with
  | "" => ""
  | String c s' => quoteByte c +:+ quoteBody s'
  end.

Definition Quote (s : string) : string :=
  String dquote (quoteBody s +:+ str1 dquote).

Definition syntaxError (fn str : string) : error := NumError fn str ErrSyntax.
Definition rangeError (fn str : string) : error := NumError fn str ErrRange.

(** The digit loop of [ParseUint] for base 10 and 64 bits: [n] is the
    value read so far. *)
Fixpoint parseUintLoop (s : string) (n : Z) : Z * option numErr :=
  match s with
  | "" => (n, None)
  | String c s' =>
      let d := code c - 48 in
      if (0 <=? d) && (d <=? 9) then
        if maxUint64 / 10 + 1 <=? n then (maxUint64, Some ErrRange)
        else
          let n1 := n * 10 + d in
          if maxUint64 <? n1 then (maxUint64, Some ErrRange)
          else parseUintLoop s' n1
      else (0, Some ErrSyntax)
  end.

Definition ParseUint (s : string) : Z * option numErr :=
  match s with
  | "" => (0, Some ErrSyntax)
  | _ => parseUintLoop s 0
  end.

Definition stripSign (s : string) : bool * string :=
  match s with
  | String "+" s' => (false, s')
  | String "-" s' => (true, s')
  | _ => (false, s)
  end.

(** [ParseInt(s, 10, 0)]. *)
Definition ParseInt (s : string) : Z * option numErr :=
  match s with
  | "" => (0, Some ErrSyntax)
  | _ =>
      let '(neg, s1) := stripSign s in
      let '(un, err) := ParseUint s1 in
      match err with
      | Some ErrSyntax => (0, Some ErrSyntax)
      | _ =>
          let cutoff := 2 ^ (intSize - 1) in
          if negb neg && (cutoff <=? un) then (cutoff - 1, Some ErrRange)
          else if neg && (cutoff <? un) then (- cutoff, Some ErrRange)
          else (if neg then - un else un, None)
      end
  end.

Fixpoint atoiFast (s : string) (n : Z) : option Z :=
  match s with
  | "" => Some n
  | String c s' =>
      let ch := code c - 48 in
      if (0 <=? ch) && (ch <=? 9) then atoiFast s' (n * 10 + ch) else None
  end.

Definition Atoi (s : string) : Z * option error :=
  let sLen := Z.of_nat (String.length s) in
  if (0 <? sLen) && (sLen <? 19) then
    let '(neg, s1) := stripSign s in
    match s1 with
    | "" => (0, Some (syntaxError "Atoi" s))
    | _ =>
        match atoiFast s1 0 with
        | None => (0, Some (syntaxError "Atoi" s))
        | Some n => (if neg then - n else n, None)
        end
    end
  else
    let '(i64, err) := ParseInt s in
    (i64, NumError "Atoi" s <$> err).

End strconv.

(** The text of an error, its [Error()] method. *)
Definition numErr_text (e : numErr) : string :=
  match e with
  | ErrSyntax => "invalid syntax"
  | ErrRange => "value out of range"
  end.

Definition Error (e : error) : string :=
  match e with
  | errorString msg => msg
  | NumError fn num err =>
      "strconv." +:+ fn +:+ ": parsing " +:+ strconv.Quote num +:+ ": " +:+ numErr_text err
  | RedisError msg => msg
  end.

(** ** time *)

Module time.

Inductive Month :=
| January | February | March | April | May | June
| July | August | September | October | November | December.

Definition Month_number (m : Month) : Z :=
  match m with
  | January => 1 | February => 2 | March => 3 | April => 4
  | May => 5 | June => 6 | July => 7 | August => 8
  | September => 9 | October => 10 | November => 11 | December => 12
  end.

(** [Month.String]: the English name. *)
Definition Month_String (m : Month) : string :=
  match m with
  | January => "January" | February => "February" | March => "March"
  | April => "April" | May => "May" | June => "June" | July => "July"
  | August => "August" | September => "September" | October => "October"
  | November => "November" | December => "December"
  end.

(** What the handler reads off [time.Now()]: the local calendar date. *)
Record Time := { Year : Z; Month_ : Month; Day : Z }.

(** [time.Duration] counts nanoseconds. *)
Definition Nanosecond : Z := 1.
Definition Second : Z := 1000000000 * Nanosecond.
Definition Hour : Z := 3600 * Second.

End time.

(** ** fmt

    [Sprintf] for the verbs the program uses ([%s], [%d], [%v]) and the
    operand types it passes.  The formats of the program have no flags,
    width or precision, so the byte after a percent sign is the verb.  An
    error operand is passed as its [Error()] text and a [Month] keeps its
    type, since [%d] prints its number and [%s] its name.  A verb that does
    not fit its operand is rendered the way fmt reports it,
    [%!verb(type=value)]. *)

Module fmt.

Inductive operand :=
| OString (s : string)
| OInt (i : Z)
| OMonth (m : time.Month)
| OStrings (l : list string).

Definition typeName (o : operand) : string :=
  match o with
  | OString _ => "string"
  | OInt _ => "int"
  | OMonth _ => "time.Month"
  | OStrings _ => "[]string"
  end.

Definition badVerb (verb : ascii) (ty val : string) : string :=
  "%!" +:+ str1 verb +:+ "(" +:+ ty +:+ "=" +:+ val +:+ ")".

Definition formatV (o : operand) : string :=
  match o with
  | OString s => s
  | OInt i => strconv.Itoa i
  | OMonth m => time.Month_String m
  | OStrings l => "[" +:+ join " " l +:+ "]"
  end.

Definition format (verb : ascii) (o : operand) : string :=
  match verb, o with
  | "v"%char, _ => formatV o
  | "s"%char, OInt i => badVerb verb "int" (strconv.Itoa i)
  | "s"%char, _ => formatV o
  | "d"%char, OInt i => strconv.Itoa i
  | "d"%char, OMonth m => strconv.Itoa (time.Month_number m)
  | "d"%char, OString s => badVerb verb "string" s
  | "d"%char, OStrings l =>
      "[" +:+ join " " (map (badVerb verb "string") l) +:+ "]"
  | _, _ => badVerb verb (typeName o) (formatV o)
  end.

Definition extra (ops : list operand) : string :=
  match ops with
  | [] => ""
  | _ => "%!(EXTRA " +:+
         join ", " (map (fun o => typeName o +:+ "=" +:+ formatV o) ops) +:+ ")"
  end.

Fixpoint Sprintf (f : string) (ops : list operand) : string :=
  match f with
  | "" => extra ops
  | String "%" "" => "%!(NOVERB)" +:+ extra ops
  | String "%" (String "%" f') => String "%" (Sprintf f' ops)
  | String "%" (String verb f') =>
      match ops with
      | [] => "%!" +:+ str1 verb +:+ "(MISSING)" +:+ Sprintf f' []
      | o :: ops' => format verb o +:+ Sprintf f' ops'
      end
  | String c f' => String c (Sprintf f' ops)
  end.

Definition Sprintln (ops : list operand) : string :=
  join " " (map formatV ops) +:+ str1 newline.

End fmt.

(** ** encoding/json

    [Unmarshal] first checks that the whole input is one well-formed JSON
    text ([checkValid]) and only then decodes it.  The model reads the input
    into tokens with a byte-by-byte scanner, builds the value with a stack of
    open arrays and objects, and decodes that value into the target struct
    (after the declarations of the structs, below). *)

Module json.

Unset Elimination Schemes.
Inductive value :=
| Null
| Bool (b : bool)
| Number (lit : string)
| Str (s : string)
| Array (elems : list value)
| Object (members : list (string * value)).
Set Elimination Schemes.

Inductive token :=
| TLBrace | TRBrace | TLBrack | TRBrack | TColon | TComma
| TString (s : string) | TNumber (lit : string)
| TTrue | TFalse | TNull.

(** *** Strings: [unquote] *)

Definition isHex (c : ascii) : bool :=
  let n := code c in
  ((48 <=? n) && (n <=? 57)) || ((97 <=? n) && (n <=? 102)) || ((65 <=? n) && (n <=? 70)).

Definition hexval (c : ascii) : Z :=
  let n := code c in
  if n <=? 57 then n - 48 else if 97 <=? n then n - 87 else n - 55.

Definition getu4 (a b c d : ascii) : option Z :=
  if isHex a && isHex b && isHex c && isHex d
  then Some (((hexval a * 16 + hexval b) * 16 + hexval c) * 16 + hexval d)
  else None.

Definition RuneError : Z := 65533.

(** [utf8.EncodeRune] *)
Definition encodeRune (r : Z) : string :=
  if (0 <=? r) && (r <? 128) then str1 (chr r)
  else if (0 <=? r) && (r <? 2048) then
    String (chr (192 + r / 64)) (str1 (chr (128 + r mod 64)))
  else if (r <? 0) || (1114111 <? r) || ((55296 <=? r) && (r <=? 57343)) then
    String (chr 239) (String (chr 191) (str1 (chr 189)))
  else if r <? 65536 then
    String (chr (224 + r / 4096))
      (String (chr (128 + (r / 64) mod 64)) (str1 (chr (128 + r mod 64))))
  else
    String (chr (240 + r / 262144))
      (String (chr (128 + (r / 4096) mod 64))
         (String (chr (128 + (r / 64) mod 64)) (str1 (chr (128 + r mod 64))))).

(** [utf16.IsSurrogate] and [utf16.DecodeRune] *)
Definition isSurrogate (r : Z) : bool := (55296 <=? r) && (r <? 57344).

Definition decodeSurrogates (r1 r2 : Z) : Z :=
  if (55296 <=? r1) && (r1 <? 56320) && (56320 <=? r2) && (r2 <? 57344)
  then (r1 - 55296) * 1024 + (r2 - 56320) + 65536
  else RuneError.

Definition between (lo hi : Z) (c : ascii) : bool :=
  (lo <=? code c) && (code c <=? hi).

(** The length of the UTF-8 sequence that starts with byte [c] and goes
    on with [r], as [utf8.DecodeRune] accepts it; [0] when it accepts
    none. *)
Definition utf8Len (c : ascii) (r : string) : nat :=
  let n := code c in
  let cont := between 128 191 in
  if n <? 128 then 1%nat
  else match r with
  | String c2 r2 =>
      if (194 <=? n) && (n <=? 223) then (if cont c2 then 2%nat else 0%nat)
      else match r2 with
      | String c3 r3 =>
          let second3 :=
            if n =? 224 then between 160 191 c2
            else if n =? 237 then between 128 159 c2
            else cont c2 in
          if (224 <=? n) && (n <=? 239) then
            (if second3 && cont c3 then 3%nat else 0%nat)
          else match r3 with
          | String c4 _ =>
              let second4 :=
                if n =? 240 then between 144 191 c2
                else if n =? 244 then between 128 143 c2
                else cont c2 in
              if (240 <=? n) && (n <=? 244) && second4 && cont c3 && cont c4
              then 4%nat else 0%nat
          | "" => 0%nat
          end
      | "" => 0%nat
      end
  | "" => 0%nat
  end.

Definition unescape (c : ascii) : ascii :=
  match c with
  | "b"%char => chr 8
  | "f"%char => chr 12
  | "n"%char => chr 10
  | "r"%char => chr 13
  | "t"%char => chr 9
  | _ => c
  end.

(** [unquote]: the text between the quotes of a string literal that the
    scanner has accepted, decoded.  An escaped surrogate half that is not
    followed by its other half, and every byte that is not part of a
    valid UTF-8 sequence, becomes U+FFFD. *)
Fixpoint unquote (s : string) : string :=
  match s with
  | "" => ""
  | String "\" (String "u" (String a (String b (String c (String d r))))) =>
      let rr := default RuneError (getu4 a b c d) in
      if isSurrogate rr then
        match r with
        | String "\" (String "u" (String a' (String b' (String c' (String d' r'))))) =>
            match getu4 a' b' c' d' with
            | Some rr1 =>
                let dec := decodeSurrogates rr rr1 in
                if dec =? RuneError then encodeRune RuneError +:+ unquote r
                else encodeRune dec +:+ unquote r'
            | None => encodeRune RuneError +:+ unquote r
            end
        | _ => encodeRune RuneError +:+ unquote r
        end
      else encodeRune rr +:+ unquote r
  | String "\" (String c r) => String (unescape c) (unquote r)
  | String c r =>
      match utf8Len c r, r with
      | 1%nat, _ => String c (unquote r)
      | 2%nat, String c2 r2 => String c (String c2 (unquote r2))
      | 3%nat, String c2 (String c3 r3) =>
          String c (String c2 (String c3 (unquote r3)))
      | 4%nat, String c2 (String c3 (String c4 r4)) =>
          String c (String c2 (String c3 (String c4 (unquote r4))))
      | _, _ => encodeRune RuneError +:+ unquote r
      end
  end.

(** *** The scanner *)

Inductive numState :=
| NMinus | NZero | NInt | NDot | NFrac | NE | NESign | NExp.

Definition isDigit (c : ascii) : bool := between 48 57 c.

Definition numStep (st : numState) (c : ascii) : option numState :=
  match st with
  | NMinus =>
      if code c =? 48 then Some NZero
      else if between 49 57 c then Some NInt else None
  | NZero =>
      match c with
      | "."%char => Some NDot
      | "e"%char | "E"%char => Some NE
      | _ => None
      end
  | NInt =>
      if isDigit c then Some NInt
      else match c with
      | "."%char => Some NDot
      | "e"%char | "E"%char => Some NE
      | _ => None
      end
  | NDot => if isDigit c then Some NFrac else None
  | NFrac =>
      if isDigit c then Some NFrac
      else match c with
      | "e"%char | "E"%char => Some NE
      | _ => None
      end
  | NE =>
      if isDigit c then Some NExp
      else match c with
      | "+"%char | "-"%char => Some NESign
      | _ => None
      end
  | NESign => if isDigit c then Some NExp else None
  | NExp => if isDigit c then Some NExp else None
  end.

Definition numDone (st : numState) : bool :=
  match st with
  | NZero | NInt | NFrac | NExp => true
  | _ => false
  end.

(** Where the scanner is: between tokens, inside a string literal (after
    a backslash, or with [n] hex digits of a [\u] escape to come), inside
    a number, or inside one of [true], [false], [null] with [rest] still
    to come.  [raw] is the text of the literal read so far, last byte
    first. *)
Inductive mode :=
| MTok
| MStr (raw : list ascii)
| MEsc (raw : list ascii)
| MHex (raw : list ascii) (n : nat)
| MNum (st : numState) (raw : list ascii)
| MLit (rest : string) (t : token).

Definition text (raw : list ascii) : string :=
  string_of_list_ascii (rev raw).

Definition isSpace (c : ascii) : bool :=
  let n := code c in (n =? 32) || (n =? 9) || (n =? 13) || (n =? 10).

(** A byte met between tokens: the new mode and the token it completes. *)
Definition beginToken (c : ascii) : option (mode * list token) :=
  if isSpace c then Some (MTok, [])
  else if code c =? 34 then Some (MStr [], [])
  else if between 49 57 c then Some (MNum NInt [c], [])
  else match c with
  | "{"%char => Some (MTok, [TLBrace])
  | "}"%char => Some (MTok, [TRBrace])
  | "["%char => Some (MTok, [TLBrack])
  | "]"%char => Some (MTok, [TRBrack])
  | ":"%char => Some (MTok, [TColon])
  | ","%char => Some (MTok, [TComma])
  | "-"%char => Some (MNum NMinus [c], [])
  | "0"%char => Some (MNum NZero [c], [])
  | "t"%char => Some (MLit "rue" TTrue, [])
  | "f"%char => Some (MLit "alse" TFalse, [])
  | "n"%char => Some (MLit "ull" TNull, [])
  | _ => None
  end.

(** One byte; the tokens completed by it are returned last first. *)
Definition scanByte (m : mode) (c : ascii) : option (mode * list token) :=
  match m with
  | MTok => beginToken c
  | MStr raw =>
      if code c =? 34 then Some (MTok, [TString (unquote (text raw))])
      else if code c =? 92 then Some (MEsc (c :: raw), [])
      else if code c <? 32 then None
      else Some (MStr (c :: raw), [])
  | MEsc raw =>
      if (code c =? 34) || (code c =? 92) then Some (MStr (c :: raw), [])
      else match c with
      | "/"%char | "b"%char | "f"%char | "n"%char | "r"%char | "t"%char =>
          Some (MStr (c :: raw), [])
      | "u"%char => Some (MHex (c :: raw) 4, [])
      | _ => None
      end
  | MHex raw n =>
      if isHex c then
        match n with
        | 1%nat | 0%nat => Some (MStr (c :: raw), [])
        | S n' => Some (MHex (c :: raw) n', [])
        end
      else None
  | MNum st raw =>
      match numStep st c with
      | Some st' => Some (MNum st' (c :: raw), [])
      | None =>
          if numDone st then
            '(m', toks) ← beginToken c;
            Some (m', toks ++ [TNumber (text raw)])
          else None
      end
  | MLit rest t =>
      match rest with
      | String e "" => if decide (c = e) then Some (MTok, [t]) else None
      | String e rest' => if decide (c = e) then Some (MLit rest' t, []) else None
      | "" => None
      end
  end.

Fixpoint scan (data : string) (m : mode) (out : list token) : option (list token) :=
  match data with
  | "" =>
      match m with
      | MTok => Some (rev out)
      | MNum st raw =>
          if numDone st then Some (rev (TNumber (text raw) :: out)) else None
      | _ => None
      end
  | String c data' =>
      '(m', toks) ← scanByte m c;
      scan data' m' (toks ++ out)
  end.

(** *** Building the value *)

Definition maxNestingDepth : Z := 10000.

(** An array or object that is still open, with what it holds so far,
    last first; an open object also holds the key whose value is being
    read. *)
Inductive frame :=
| FArray (elems : list value)
| FObject (members : list (string * value)) (key : option string).

Inductive expect :=
| EValue        (* a value: at the start, after a colon, after a comma in an array *)
| EArrayFirst   (* after an opening bracket: a value or the closing bracket *)
| EObjectFirst  (* after an opening brace: a key or the closing brace *)
| EKey          (* after a comma in an object *)
| EColon        (* after a key *)
| EAfter        (* after a value inside an array or object *)
| EDone (v : value).

(** A complete value goes into the innermost open array or object, or is
    the result. *)
Definition complete (v : value) (stack : list frame) : option (expect * list frame) :=
  match stack with
  | [] => Some (EDone v, [])
  | FArray es :: st => Some (EAfter, FArray (v :: es) :: st)
  | FObject ms (Some k) :: st => Some (EAfter, FObject ((k, v) :: ms) None :: st)
  | FObject _ None :: _ => None
  end.

Definition push (f : frame) (e : expect) (stack : list frame)
  : option (expect * list frame) :=
  if Z.of_nat (length (f :: stack)) <=? maxNestingDepth
  then Some (e, f :: stack) else None.

Definition beginValue (t : token) (stack : list frame) : option (expect * list frame) :=
  match t with
  | TLBrace => push (FObject [] None) EObjectFirst stack
  | TLBrack => push (FArray []) EArrayFirst stack
  | TString s => complete (Str s) stack
  | TNumber lit => complete (Number lit) stack
  | TTrue => complete (Bool true) stack
  | TFalse => complete (Bool false) stack
  | TNull => complete Null stack
  | TRBrace | TRBrack | TColon | TComma => None
  end.

Definition setKey (k : string) (stack : list frame) : option (expect * list frame) :=
  match stack with
  | FObject ms None :: st => Some (EColon, FObject ms (Some k) :: st)
  | _ => None
  end.

Definition closeArray (stack : list frame) : option (expect * list frame) :=
  match stack with
  | FArray es :: st => complete (Array (rev es)) st
  | _ => None
  end.

Definition closeObject (stack : list frame) : option (expect * list frame) :=
  match stack with
  | FObject ms None :: st => complete (Object (rev ms)) st
  | _ => None
  end.

Definition parseToken (e : expect) (stack : list frame) (t : token)
  : option (expect * list frame) :=
  match e, t with
  | EValue, _ => beginValue t stack
  | EArrayFirst, TRBrack => closeArray stack
  | EArrayFirst, _ => beginValue t stack
  | EObjectFirst, TRBrace => closeObject stack
  | EObjectFirst, TString k => setKey k stack
  | EKey, TString k => setKey k stack
  | EColon, TColon => Some (EValue, stack)
  | EAfter, TComma =>
      match stack with
      | FArray _ :: _ => Some (EValue, stack)
      | FObject _ _ :: _ => Some (EKey, stack)
      | [] => None
      end
  | EAfter, TRBrack => closeArray stack
  | EAfter, TRBrace => closeObject stack
  | _, _ => None
  end.

Fixpoint parseTokens (ts : list token) (e : expect) (stack : list frame)
  : option value :=
  match ts with
  | [] => match e with EDone v => Some v | _ => None end
  | t :: ts' =>
      '(e', stack') ← parseToken e stack t;
      parseTokens ts' e' stack'
  end.

Definition parse (data : string) : option value :=
  ts ← scan data MTok [];
  parseTokens ts EValue [].

Definition checkValid (data : string) : bool := bool_decide (is_Some (parse data)).

(** *** Storing into struct fields *)

Inductive UnmarshalError :=
| SyntaxError
| UnmarshalTypeError (Value : string).

(** The first error is the one [Unmarshal] returns. *)
Definition saveError (saved e : option UnmarshalError) : option UnmarshalError :=
  match saved with
  | Some _ => saved
  | None => e
  end.

Definition kind (v : value) : string :=
  match v with
  | Null => "null"
  | Bool _ => "bool"
  | Number _ => "number"
  | Str _ => "string"
  | Array _ => "array"
  | Object _ => "object"
  end.

(** A value stored into a field of type [string]: a JSON string is
    stored, [null] leaves the field as it is, anything else is a type
    error and leaves the field as it is. *)
Definition storeString (v : value) (cur : string) : string * option UnmarshalError :=
  match v with
  | Str s => (s, None)
  | Null => (cur, None)
  | _ => (cur, Some (UnmarshalTypeError (kind v)))
  end.

(** Field names are matched without regard to case, under Unicode simple
    folding: besides the ASCII letters, U+017F folds to S and U+212A to
    K. *)
Fixpoint foldName (s : string) : string :=
  match s with
  | "" => ""
  | String c r =>
      let n := code c in
      match r with
      | String c2 r2 =>
          if (n =? 197) && (code c2 =? 191) then String "S" (foldName r2)
          else match r2 with
          | String c3 r3 =>
              if (n =? 226) && (code c2 =? 132) && (code c3 =? 170)
              then String "K" (foldName r3)
              else String (if between 97 122 c then chr (n - 32) else c) (foldName r)
          | "" => String (if between 97 122 c then chr (n - 32) else c) (foldName r)
          end
      | "" => str1 (if between 97 122 c then chr (n - 32) else c)
      end
  end.

Definition fieldMatches (key name : string) : bool :=
  bool_decide (foldName key = foldName name).

(** A value stored into a struct: the members of a JSON object go to
    the fields in the order they are written ([field] stores one of them,
    and leaves the struct as it is when no field has that name), [null]
    leaves the struct as it is and anything else is a type error. *)
Definition storeStruct {T : Type}
    (field : string -> value -> T -> T * option UnmarshalError)
    (v : value) (cur : T) : T * option UnmarshalError :=
  match v with
  | Object ms =>
      foldl (fun acc m =>
               let '(t, e) := field m.1 m.2 acc.1 in (t, saveError acc.2 e))
            (cur, None) ms
  | Null => (cur, None)
  | _ => (cur, Some (UnmarshalTypeError (kind v)))
  end.

(** A [RawMessage] field takes the member whatever it is.  The model
    keeps the value the bytes denote, not the bytes; [None] is the nil
    slice. *)
Definition RawMessage : Type := option value.

(** *** Writing strings: the encoder's quoting, with its HTML escaping *)

Definition u00 (n : Z) : string :=
  String backslash (String "u" (String "0" (String "0"
    (String (hexdigit (n / 16)) (str1 (hexdigit (n mod 16))))))).

Definition encodeByte (c : ascii) : string :=
  let n := code c in
  if (n =? 34) || (n =? 92) then String backslash (str1 c)
  else if (n =? 60) || (n =? 62) || (n =? 38) then u00 n
  else if 32 <=? n then str1 c
  else if n =? 8 then String backslash "b"
  else if n =? 12 then String backslash "f"
  else if n =? 10 then String backslash "n"
  else if n =? 13 then String backslash "r"
  else if n =? 9 then String backslash "t"
  else u00 n.

Fixpoint encodeBody (s : string) : string :=
  match s with
  | "" => ""
  | String c r =>
      match utf8Len c r, r with
      | 1%nat, _ => encodeByte c +:+ encodeBody r
      | 2%nat, String c2 r2 => String c (String c2 (encodeBody r2))
      | 3%nat, String c2 (String c3 r3) =>
          if (code c =? 226) && (code c2 =? 128) && ((code c3 =? 168) || (code c3 =? 169))
          then String backslash ("u202" +:+ str1 (hexdigit (code c3 - 160))) +:+ encodeBody r3
          else String c (String c2 (String c3 (encodeBody r3)))
      | 4%nat, String c2 (String c3 (String c4 r4)) =>
          String c (String c2 (String c3 (String c4 (encodeBody r4))))
      | _, _ => String backslash "ufffd" +:+ encodeBody r
      end
  end.

Definition encodeString (s : string) : string :=
  String dquote (encodeBody s +:+ str1 dquote).

Definition encodeMember (m : string * string) : string :=
  encodeString m.1 +:+ ":" +:+ m.2.

Definition encodeObject (ms : list (string * string)) : string :=
  "{" +:+ join "," (map encodeMember ms) +:+ "}".

End json.

(** ** The structs of main.go *)

Record Config := {
  HTTPPort : string;
  RedisAddr : string;
  RedisDB : Z;
  RedisPassword : string;
  RedisPrefix : string;
  WUndergroundKey : string;
  WUndergroundLocation : string
}.

Record SunPhaseRespose := {
  ResponseID : string;
  SunriseM : Z;
  SunriseH : Z;
  SunsetM : Z;
  SunsetH : Z
}.

Record WUTime := { Hour : string; Minute : string }.

Record WUSunPhase := { Sunrise : WUTime; Sunset : WUTime }.

Record WUAstronomy := {
  Response : json.RawMessage;
  MoonPhase : json.RawMessage;
  SunPhase : WUSunPhase
}.

(** Zero values. *)
Definition WUTime_zero : WUTime := {| Hour := ""; Minute := "" |}.
Definition WUSunPhase_zero : WUSunPhase :=
  {| Sunrise := WUTime_zero; Sunset := WUTime_zero |}.
Definition WUAstronomy_zero : WUAstronomy :=
  {| Response := None; MoonPhase := None; SunPhase := WUSunPhase_zero |}.

(** [json.Unmarshal] into these structs, by their [json] tags. *)
Definition WUTime_field (key : string) (v : json.value) (t : WUTime)
  : WUTime * option json.UnmarshalError :=
  if json.fieldMatches key "hour" then
    let '(s, e) := json.storeString v (Hour t) in
    ({| Hour := s; Minute := Minute t |}, e)
  else if json.fieldMatches key "minute" then
    let '(s, e) := json.storeString v (Minute t) in
    ({| Hour := Hour t; Minute := s |}, e)
  else (t, None).

Definition WUSunPhase_field (key : string) (v : json.value) (p : WUSunPhase)
  : WUSunPhase * option json.UnmarshalError :=
  if json.fieldMatches key "sunrise" then
    let '(t, e) := json.storeStruct WUTime_field v (Sunrise p) in
    ({| Sunrise := t; Sunset := Sunset p |}, e)
  else if json.fieldMatches key "sunset" then
    let '(t, e) := json.storeStruct WUTime_field v (Sunset p) in
    ({| Sunrise := Sunrise p; Sunset := t |}, e)
  else (p, None).

Definition WUAstronomy_field (key : string) (v : json.value) (a : WUAstronomy)
  : WUAstronomy * option json.UnmarshalError :=
  if json.fieldMatches key "response" then
    ({| Response := Some v; MoonPhase := MoonPhase a; SunPhase := SunPhase a |}, None)
  else if json.fieldMatches key "moon_phase" then
    ({| Response := Response a; MoonPhase := Some v; SunPhase := SunPhase a |}, None)
  else if json.fieldMatches key "sun_phase" then
    let '(p, e) := json.storeStruct WUSunPhase_field v (SunPhase a) in
    ({| Response := Response a; MoonPhase := MoonPhase a; SunPhase := p |}, e)
  else (a, None).

(** [json.Unmarshal(data, &response)]: input that is not well-formed JSON
    is refused before anything is stored. *)
Definition json_Unmarshal (data : string) (response : WUAstronomy)
  : WUAstronomy * option json.UnmarshalError :=
  match json.parse data with
  | None => (response, Some json.SyntaxError)
  | Some v => json.storeStruct WUAstronomy_field v response
  end.

(** ** jsonapi *)

Module jsonapi.

Definition MediaType : string := "application/vnd.api+json".

(** [ErrorObject], without its [Meta] field (a nil pointer here). *)
Record ErrorObject := {
  ID : string;
  Title : string;
  Detail : string;
  Status : string;
  Code : string
}.

(** The members of the JSON form of an error object: every field is
    tagged [omitempty], so an empty one is left out. *)
Definition members (e : ErrorObject) : list (string * string) :=
  filter (fun m => m.2 <> "")
    [("id", ID e); ("title", Title e); ("detail", Detail e);
     ("status", Status e); ("code", Code e)].

(** The two serializers the program calls.  [MarshalPayload] gives the
    bytes it wrote to the buffer and its error; [MarshalErrors] gives the
    bytes it wrote to the response. *)
Class Codec := {
  MarshalPayload : SunPhaseRespose -> string * option error;
  MarshalErrors : list ErrorObject -> string
}.

Definition encodeError (e : ErrorObject) : string :=
  json.encodeObject (map (fun m => (m.1, json.encodeString m.2)) (members e)).

Definition encodePayload (r : SunPhaseRespose) : string :=
  let attributes :=
    json.encodeObject
      [("sunrise_h", strconv.Itoa (SunriseH r)); ("sunrise_m", strconv.Itoa (SunriseM r));
       ("sunset_h", strconv.Itoa (SunsetH r)); ("sunset_m", strconv.Itoa (SunsetM r))] in
  let node :=
    json.encodeObject
      (("type", json.encodeString "sun_phase") ::
       (if decide (ResponseID r = "") then [] else [("id", json.encodeString (ResponseID r))]) ++
       [("attributes", attributes)]) in
  json.encodeObject [("data", node)] +:+ str1 newline.

(** The library itself: JSON written by [encoding/json]. *)
Definition library : Codec := {|
  MarshalPayload r := (encodePayload r, None);
  MarshalErrors es :=
    json.encodeObject [("errors", "[" +:+ join "," (map encodeError es) +:+ "]")]
    +:+ str1 newline
|}.

End jsonapi.

(** ** log *)

Module log.

Fixpoint endsWithNewline (s : string) : bool :=
  match s with
  | "" => false
  | String c "" => bool_decide (c = newline)
  | String _ s' => endsWithNewline s'
  end.

(** A logged line, without the date and time the logger puts in front:
    the text, and a newline when the text does not end in one. *)
Definition line (s : string) : string :=
  if endsWithNewline s then s else s +:+ str1 newline.

End log.

(** ** The outside of the process *)

Module redis.

(** The value the client returns for a key that does not exist. *)
Definition Nil : error := RedisError "redis: nil".

Record entry := { val : string; expiration : Z }.

Inductive command :=
| GET (key : string)
| SET (key value : string) (expiration : Z).

End redis.

Module http.

Record Request := { Method : string }.

(** What [http.Get] followed by reading the body comes to. *)
Inductive result :=
| Body (data : string)
| GetError (e : error)
| ReadError (e : error).

(** The [ResponseWriter] the server hands to a handler: the header map the
    handler edits, and what the server has made of the calls so far.
    [sentHeader] is the copy of the handler's map the server keeps when
    the status line is fixed, by the first [WriteHeader] with a final
    status or the first [Write]: a later change of the map is not sent.
    The headers the server adds on its own (Date, Content-Length, and the
    Content-Type of [ContentType] below) are not in it.  [interim] lists
    the informational status codes sent before the final one, and
    [panicked] tells that a call has panicked: the handler is then
    abandoned, the calls that would have followed are not made, and the
    client gets no answer.  [body] is what the writer has accepted; to a
    HEAD request the server sends the status line and the headers
    without it. *)
Record ResponseWriter := {
  header : gmap string (list string);
  wroteHeader : bool;
  status : Z;
  sentHeader : gmap string (list string);
  body : string;
  interim : list Z;
  panicked : bool
}.

Definition newResponse : ResponseWriter :=
  {| header := ∅; wroteHeader := false; status := 0; sentHeader := ∅; body := "";
     interim := []; panicked := false |}.

Definition StatusOK : Z := 200.
Definition StatusSwitchingProtocols : Z := 101.

(** [response.Header().Set(key, value)], for a key in canonical form. *)
Definition Header_Set (rw : ResponseWriter) (key value : string) : ResponseWriter :=
  if panicked rw then rw
  else {| header := <[key := [value]]> (header rw); wroteHeader := wroteHeader rw;
          status := status rw; sentHeader := sentHeader rw; body := body rw;
          interim := interim rw; panicked := false |}.

(** [Header.Get]: the first value of the key, or the empty string. *)
Definition Header_Get (h : gmap string (list string)) (key : string) : string :=
  match h !! key with
  | Some (v :: _) => v
  | _ => ""
  end.

(** [WriteHeader]: a call after the header is written is only logged by
    the server; a code that is not of three digits panics
    ([checkWriteHeaderCode]); an informational code other than 101 goes out
    at once as an interim response and leaves the final status open; any
    other code fixes the status line and the headers. *)
Definition WriteHeader (rw : ResponseWriter) (code : Z) : ResponseWriter :=
  if panicked rw then rw
  else if wroteHeader rw then rw
  else if (code <? 100) || (999 <? code) then
    {| header := header rw; wroteHeader := false; status := status rw;
       sentHeader := sentHeader rw; body := body rw;
       interim := interim rw; panicked := true |}
  else if (100 <=? code) && (code <=? 199)
          && negb (code =? StatusSwitchingProtocols) then
    {| header := header rw; wroteHeader := false; status := status rw;
       sentHeader := sentHeader rw; body := body rw;
       interim := interim rw ++ [code]; panicked := false |}
  else
    {| header := header rw; wroteHeader := true; status := code;
       sentHeader := header rw; body := body rw;
       interim := interim rw; panicked := false |}.

Definition bodyAllowedForStatus (status : Z) : bool :=
  if (100 <=? status) && (status <=? 199) then false
  else if status =? 204 then false
  else if status =? 304 then false
  else true.

(** [Write]: status 200 when no status has been fixed; the data are
    refused ([ErrBodyNotAllowed], which the callers in main.go drop) under
    a status that has no body.  The handler declares no Content-Length, so
    the check against one is left out. *)
Definition Write (rw : ResponseWriter) (data : string) : ResponseWriter :=
  if panicked rw then rw
  else
    let rw := WriteHeader rw StatusOK in
    if bodyAllowedForStatus (status rw) then
      {| header := header rw; wroteHeader := wroteHeader rw; status := status rw;
         sentHeader := sentHeader rw; body := body rw +:+ data;
         interim := interim rw; panicked := false |}
    else rw.

(** The Content-Type line of a response that has been written.  Under
    a status that allows a body, the values of the key in the handler's
    map as the headers were fixed are sent; when the map had no such key,
    and no Content-Encoding and no Transfer-Encoding either, and the body
    is not empty, the server sends what [DetectContentType] makes of the
    first 512 bytes of the body.  The sniffing itself is not computed
    here: the bytes it is applied to are kept.  Under 304 the line is
    suppressed. *)
Inductive contentType :=
| Declared (values : list string)
| Sniffed (data : string)
| NoType.

Definition sniffLen : nat := 512.

Fixpoint firstBytes (n : nat) (s : string) : string :=
  match n, s with
  | S n', String c s' => String c (firstBytes n' s')
  | _, _ => ""
  end.

Definition sniffedType (data : string) : contentType :=
  if bool_decide (data = "") then NoType
  else Sniffed (firstBytes sniffLen data).

Definition ContentType (rw : ResponseWriter) : contentType :=
  if bodyAllowedForStatus (status rw) then
    match sentHeader rw !! "Content-Type" with
    | Some values => Declared values
    | None =>
        if bool_decide (Header_Get (sentHeader rw) "Content-Encoding" = "")
           && bool_decide (Header_Get (sentHeader rw) "Transfer-Encoding" = "")
        then sniffedType (body rw)
        else NoType
    end
  else if status rw =? 304 then NoType
  else
    match sentHeader rw !! "Content-Type" with
    | Some values => Declared values
    | None => NoType
    end.

End http.

(** What one request meets outside the process: the clock, whether the
    Redis server answers reads and writes (or the error the client
    returns), and what the upstream endpoint gives for a URL. *)
Record Extern := {
  now : time.Time;
  readFault : option error;
  writeFault : option error;
  upstream : string -> http.result
}.

(** What the process changes: the keys in Redis, the commands sent to it,
    the lines logged and the URLs requested, each oldest first. *)
Record World := {
  store : gmap string redis.entry;
  commands : list redis.command;
  logged : list string;
  requested : list string
}.

Definition logging (w : World) (line : string) : World :=
  {| store := store w; commands := commands w;
     logged := logged w ++ [line]; requested := requested w |}.

Definition commanding (w : World) (c : redis.command) : World :=
  {| store := store w; commands := commands w ++ [c];
     logged := logged w; requested := requested w |}.

Definition requesting (w : World) (url : string) : World :=
  {| store := store w; commands := commands w;
     logged := logged w; requested := requested w ++ [url] |}.

Definition storing (w : World) (key : string) (en : redis.entry) : World :=
  {| store := <[key := en]> (store w); commands := commands w;
     logged := logged w; requested := requested w |}.

Definition log_Println (w : World) (ops : list fmt.operand) : World :=
  logging w (log.line (fmt.Sprintln ops)).

Definition log_Printf (w : World) (f : string) (ops : list fmt.operand) : World :=
  logging w (log.line (fmt.Sprintf f ops)).

(** [log.Fatal(v)]: the line, then [os.Exit(1)]. *)
Definition log_Fatal {A} (o : fmt.operand) : Outcome A :=
  Fatal (log.line (fmt.formatV o)).

Definition log_Fatalf {A} (f : string) (ops : list fmt.operand) : Outcome A :=
  Fatal (log.line (fmt.Sprintf f ops)).

(** [env.redis.Get(key).Result()].  Entries are read back as long as they
    are in the store: the model does not let them expire. *)
Definition redis_Get (x : Extern) (w : World) (key : string)
  : World * (string * option error) :=
  let w' := commanding w (redis.GET key) in
  match readFault x with
  | Some e => (w', ("", Some e))
  | None =>
      match store w !! key with
      | Some en => (w', (redis.val en, None))
      | None => (w', ("", Some redis.Nil))
      end
  end.

(** [env.redis.Set(key, value, expiration).Err()] *)
Definition redis_Set (x : Extern) (w : World) (key value : string) (expiration : Z)
  : World * option error :=
  let w := commanding w (redis.SET key value expiration) in
  match writeFault x with
  | Some e => (w, Some e)
  | None => (storing w key {| redis.val := value; redis.expiration := expiration |}, None)
  end.

(** ** main.go *)

Definition os_Getenv (environ : gmap string string) (key : string) : string :=
  default "" (environ !! key).

Definition panicOnError (err : option error) (msg : string) : Outcome unit :=
  match err with
  | Some e => log_Fatalf "%s: %s" [fmt.OString msg; fmt.OString (Error e)]
  | None => Ret ()
  end.

Definition collectConfig (environ : gmap string string) : Outcome Config :=
  let missingEnv : list string := [] in
  (* HTTP_PORT *)
  let envHTTPPort := os_Getenv environ "HTTP_PORT" in
  let config_HTTPPort := if decide (envHTTPPort = "") then ":8080" else ":" +:+ envHTTPPort in
  (* REDIS_ADDR *)
  let config_RedisAddr := os_Getenv environ "REDIS_ADDR" in
  let missingEnv :=
    if decide (config_RedisAddr = "") then missingEnv ++ ["REDIS_ADDR"] else missingEnv in
  (* REDIS_PASSWORD *)
  let config_RedisPassword := os_Getenv environ "REDIS_PASSWORD" in
  (* REDIS_DB *)
  let envRedisDB := os_Getenv environ "REDIS_DB" in
  config_RedisDB ←
    (if decide (envRedisDB = "") then Ret 0
     else
       let '(i, err) := strconv.Atoi envRedisDB in
       _ ← panicOnError err "Error parsing REDIS_DB";
       Ret i);
  (* REDIS_PREFIX *)
  let envRedisPrefix := os_Getenv environ "REDIS_PREFIX" in
  let config_RedisPrefix := if decide (envRedisPrefix = "") then "ph:" else envRedisPrefix in
  (* WU_KEY *)
  let config_WUndergroundKey := os_Getenv environ "WU_KEY" in
  let missingEnv :=
    if decide (config_WUndergroundKey = "") then missingEnv ++ ["WU_KEY"] else missingEnv in
  (* WU_LOCATION *)
  let config_WUndergroundLocation := os_Getenv environ "WU_LOCATION" in
  let missingEnv :=
    if decide (config_WUndergroundLocation = "") then missingEnv ++ ["WU_LOCATION"]
    else missingEnv in
  (* Validation *)
  if decide (0 < length missingEnv)%nat then
    let msg := fmt.Sprintf "Environment variables missing: %v" [fmt.OStrings missingEnv] in
    log_Fatal (fmt.OString msg)
  else
    Ret {| HTTPPort := config_HTTPPort; RedisAddr := config_RedisAddr;
           RedisDB := config_RedisDB; RedisPassword := config_RedisPassword;
           RedisPrefix := config_RedisPrefix;
           WUndergroundKey := config_WUndergroundKey;
           WUndergroundLocation := config_WUndergroundLocation |}.

(** The [url] of [getWUApiRepose]. *)
Definition apiURL (key feature location : string) : string :=
  "https://api.wunderground.com/api/" +:+ key +:+ "/" +:+ feature +:+
  "/q/" +:+ location +:+ ".json".

Definition getWUApiRepose (x : Extern) (w : World) (key feature location : string)
  : Outcome (World * (string * option error)) :=
  let url := apiURL key feature location in
  let w := requesting w url in
  match upstream x url with
  | http.GetError err => log_Fatal (fmt.OString (Error err))
  | http.ReadError err => log_Fatal (fmt.OString (Error err))
  | http.Body responseData => Ret (w, (responseData, None))
  end.

Definition getWUAstronomy (x : Extern) (w : World) (key feature location : string)
  : Outcome (World * (WUAstronomy * option error)) :=
  '(w, (astronomy, err)) ← getWUApiRepose x w key feature location;
  match err with
  | Some e => Ret (w, (WUAstronomy_zero, Some e))
  | None => Ret (w, ((json_Unmarshal astronomy WUAstronomy_zero).1, None))
  end.

Record Env := { config : Config }.

Section Handlers.

Context {codec : jsonapi.Codec}.

(** The two title tables of [makeErrorResponse], filled as the source
    fills them.  Reading a Go map at a key it does not hold gives the empty
    string. *)
Definition codeTitle : gmap Z string :=
  <[2202 := "Requested Relationship Not Found"]>
    (<[2201 := "Missing Required Attribute"]>
       (<[1 := "Malformed JSON Body"]> ∅)).

Definition statusTitle : gmap Z string :=
  <[500 := "Internal Server Error"]>
    (<[422 := "Unprocessable Entity"]>
       (<[415 := "Unsupported Media Type"]>
          (<[409 := "Conflict"]>
             (<[406 := "Not Acceptable"]>
                (<[405 := "Method Not Allowed"]>
                   (<[404 := "Not Found"]>
                      (<[401 := "Unauthorized"]>
                         (<[400 := "Bad Request"]> ∅)))))))).

(** The error object [makeErrorResponse] builds (lines 224-234 and
    239-244). *)
Definition errorObject (status : Z) (detail : string) (code : Z) : jsonapi.ErrorObject :=
  let statusStr := strconv.Itoa status in
  let '(title, codeStr) :=
    if decide (code = 0) (* code 0 means no code *)
    then (default "" (statusTitle !! status), "")
    else (default "" (codeTitle !! code), strconv.Itoa code) in
  {| jsonapi.ID := ""; jsonapi.Title := title; jsonapi.Detail := detail;
     jsonapi.Status := statusStr; jsonapi.Code := codeStr |}.

Definition makeErrorResponse (response : http.ResponseWriter)
    (status : Z) (detail : string) (code : Z) : http.ResponseWriter :=
  let response := http.WriteHeader response status in
  let response := http.Header_Set response "Content-Type" jsonapi.MediaType in
  http.Write response (jsonapi.MarshalErrors [errorObject status detail code]).

Definition cacheKey (prefix : string) (today : time.Time) : string :=
  fmt.Sprintf "%sweather:sun_phase:%d-%s-%d"
    [fmt.OString prefix; fmt.OInt (time.Year today);
     fmt.OMonth (time.Month_ today); fmt.OInt (time.Day today)].

(** The [responseObj] of [handleSunPhase] (lines 173-179); the errors of
    [Atoi] are dropped. *)
Definition responseObj (cacheKey : string) (astronomy : WUAstronomy) : SunPhaseRespose :=
  let SunriseH := (strconv.Atoi (Hour (Sunrise (SunPhase astronomy)))).1 in
  let SunriseM := (strconv.Atoi (Minute (Sunrise (SunPhase astronomy)))).1 in
  let SunsetH := (strconv.Atoi (Hour (Sunset (SunPhase astronomy)))).1 in
  let SunsetM := (strconv.Atoi (Minute (Sunset (SunPhase astronomy)))).1 in
  {| ResponseID := cacheKey; SunriseH := SunriseH; SunriseM := SunriseM;
     SunsetH := SunsetH; SunsetM := SunsetM |}.

(** [handleSunPhase] from the return of [getWUAstronomy] on (lines
    169-198). *)
Definition handleSunPhase_fetched (x : Extern) (cacheKey : string)
    (w : World) (response : http.ResponseWriter)
    (astronomy : WUAstronomy) (err : option error)
  : World * http.ResponseWriter :=
  let response :=
    match err with
    | Some e => makeErrorResponse response 500 (Error e) 0
    | None => response
    end in
  let responseObj := responseObj cacheKey astronomy in
  (* Build Response *)
  let '(eventPayload, err) := jsonapi.MarshalPayload responseObj in
  match err with
  | Some e => (w, makeErrorResponse response 500 (Error e) 0)
  | None =>
      (* Cache event for Pollers *)
      let ttl := 168 * time.Hour in
      let '(w, cacheErr) := redis_Set x w cacheKey eventPayload ttl in
      let w :=
        match cacheErr with
        | Some e =>
            log_Println w [fmt.OString "Error commiting to cache: %s"; fmt.OString (Error e)]
        | None => w
        end in
      (* Send response *)
      let response := http.Header_Set response "Content-Type" jsonapi.MediaType in
      (w, http.Write response eventPayload)
  end.

Definition handleSunPhase (env : Env) (x : Extern) (w : World)
    (response : http.ResponseWriter) (request : http.Request)
  : Outcome (World * http.ResponseWriter) :=
  if decide (http.Method request = "GET") then
    let today := now x in
    let cacheKey := cacheKey (RedisPrefix (config env)) today in
    let '(w, (cacheVal, err)) := redis_Get x w cacheKey in
    match err with
    | None =>
        (* Send response *)
        let response := http.Header_Set response "Content-Type" jsonapi.MediaType in
        Ret (w, http.Write response cacheVal)
    | Some e =>
        let w :=
          if decide (e = redis.Nil) then w
          else log_Println w [fmt.OString "Error reading cache: %s"; fmt.OString (Error e)] in
        '(w, (astronomy, err)) ←
          getWUAstronomy x w (WUndergroundKey (config env)) "astronomy"
            (WUndergroundLocation (config env));
        Ret (handleSunPhase_fetched x cacheKey w response astronomy err)
    end
  else
    Ret (w, makeErrorResponse response 405 (http.Method request) 0).

(** The server: each request gets a fresh [ResponseWriter]; a fatal log in
    one of them ends the process and with it the requests that follow. *)
Fixpoint serve (env : Env) (reqs : list (Extern * http.Request)) (w : World)
  : Outcome (World * list http.ResponseWriter) :=
  match reqs with
  | [] => Ret (w, [])
  | (x, request) :: reqs' =>
      '(w, response) ← handleSunPhase env x w http.newResponse request;
      '(w, responses) ← serve env reqs' w;
      Ret (w, response :: responses)
  end.

(** [main]: [ping] is what [client.Ping().Result()] gives. *)
Definition main (environ : gmap string string) (ping : string * option error)
    (reqs : list (Extern * http.Request)) (w : World)
  : Outcome (World * list http.ResponseWriter) :=
  config ← collectConfig environ;
  let '(pong, err) := ping in
  let w := log_Printf w "redis ping: %s" [fmt.OString pong] in
  _ ← panicOnError err "Failed to connect to Redis";
  let w := log_Println w [fmt.OString "Connected to Redis"] in
  (* Build Environment *)
  let env := {| config := config |} in
  serve env reqs w.

End Handlers.

(** ** Reference points for the statements *)

(** The title tables as the specification lists them (section 4.3). *)
Definition spec_statusTitles : list (Z * string) :=
  [(400, "Bad Request"); (401, "Unauthorized"); (404, "Not Found");
   (405, "Method Not Allowed"); (406, "Not Acceptable"); (409, "Conflict");
   (415, "Unsupported Media Type"); (422, "Unprocessable Entity");
   (500, "Internal Server Error")].

Definition spec_codeTitles : list (Z * string) :=
  [(1, "Malformed JSON Body"); (2201, "Missing Required Attribute");
   (2202, "Requested Relationship Not Found")].

(** Looking a number up in a listed table; a number that is not listed has
    no title. *)
Fixpoint titleOf (table : list (Z * string)) (n : Z) : string :=
  match table with
  | [] => ""
  | (k, t) :: table' => if k =? n then t else titleOf table' n
  end.

Section Cases.

Context {codec : jsonapi.Codec}.

(** What the handler does once the cache read has come back with the
    error [e]: it logs [e] unless it is [redis.Nil], fetches, and goes on. *)
Definition afterMiss (env : Env) (x : Extern) (w : World)
    (rw : http.ResponseWriter) (e : error) : Outcome (World * http.ResponseWriter) :=
  let key := cacheKey (RedisPrefix (config env)) (now x) in
  let w1 := commanding w (redis.GET key) in
  let w2 :=
    if decide (e = redis.Nil) then w1
    else log_Println w1 [fmt.OString "Error reading cache: %s"; fmt.OString (Error e)] in
  match upstream x (apiURL (WUndergroundKey (config env)) "astronomy"
                      (WUndergroundLocation (config env))) with
  | http.Body data =>
      Ret (handleSunPhase_fetched x key
             (requesting w2 (apiURL (WUndergroundKey (config env)) "astronomy"
                               (WUndergroundLocation (config env))))
             rw (json_Unmarshal data WUAstronomy_zero).1 None)
  | http.GetError err | http.ReadError err => Fatal (log.line (Error err))
  end.

End Cases.

(** ** Sample inputs *)

Definition sampleEnv : Env :=
  {| config :=
       {| HTTPPort := ":8080"; RedisAddr := "localhost:6379"; RedisDB := 0;
          RedisPassword := ""; RedisPrefix := "ph:";
          WUndergroundKey := "key"; WUndergroundLocation := "CA/San_Francisco" |} |}.

Definition sampleDay : time.Time :=
  {| time.Year := 2024; time.Month_ := time.March; time.Day := 15 |}.

Definition emptyWorld : World :=
  {| store := ∅; commands := []; logged := []; requested := [] |}.

Definition GET : http.Request := {| http.Method := "GET" |}.
Definition POST : http.Request := {| http.Method := "POST" |}.

(** A string between double quotes. *)
Definition quoted (s : string) : string := String dquote (s +:+ str1 dquote).

(** An upstream body of the expected shape: sunrise 7:30, sunset 19:45. *)
Definition sampleBody : string :=
  "{" +:+ quoted "sun_phase" +:+ ":{" +:+
    quoted "sunrise" +:+ ":{" +:+ quoted "hour" +:+ ":" +:+ quoted "7" +:+ "," +:+
                                  quoted "minute" +:+ ":" +:+ quoted "30" +:+ "}," +:+
    quoted "sunset" +:+ ":{" +:+ quoted "hour" +:+ ":" +:+ quoted "19" +:+ "," +:+
                                 quoted "minute" +:+ ":" +:+ quoted "45" +:+ "}}}".

(** The same request met by a cache that answers the read with
    [redis.Nil], the sign that the key does not exist. *)
Definition answeringNil (x : Extern) : Extern :=
  {| now := now x; readFault := Some redis.Nil; writeFault := writeFault x;
     upstream := upstream x |}.

(** The expected shape of the upstream body, in the words of the
    specification (section 6): a JSON body with nested [sun_phase.sunrise]
    and [sun_phase.sunset] objects, each carrying string [hour] and
    [minute]. *)
Fixpoint lookupMember (name : string) (ms : list (string * json.value))
  : option json.value :=
  match ms with
  | [] => None
  | (k, v) :: ms' => if decide (k = name) then Some v else lookupMember name ms'
  end.

Definition member (name : string) (v : json.value) : option json.value :=
  match v with
  | json.Object ms => lookupMember name ms
  | _ => None
  end.

Definition isString (v : option json.value) : bool :=
  match v with
  | Some (json.Str _) => true
  | _ => false
  end.

Definition carriesTime (v : option json.value) : bool :=
  match v with
  | Some (json.Object ms) =>
      isString (member "hour" (json.Object ms))
      && isString (member "minute" (json.Object ms))
  | _ => false
  end.

Definition expectedShape (body : string) : bool :=
  match json.parse body with
  | Some v =>
      match member "sun_phase" v with
      | Some p => carriesTime (member "sunrise" p) && carriesTime (member "sunset" p)
      | None => false
      end
  | None => false
  end.

(** A well-formed body in which one field has another type: the sunrise
    hour is the number 7, not the string. *)
Definition numericHourBody : string :=
  "{" +:+ quoted "sun_phase" +:+ ":{" +:+
    quoted "sunrise" +:+ ":{" +:+ quoted "hour" +:+ ":7," +:+
                                  quoted "minute" +:+ ":" +:+ quoted "30" +:+ "}," +:+
    quoted "sunset" +:+ ":{" +:+ quoted "hour" +:+ ":" +:+ quoted "19" +:+ "," +:+
                                 quoted "minute" +:+ ":" +:+ quoted "45" +:+ "}}}".

(** A body that is not JSON. *)
Definition htmlBody : string := "<html>Service Unavailable</html>".

(** The settings that [collectConfig] requires, in the order it checks
    them, and those of them that the environment leaves unset or empty. *)
Definition required : list string := ["REDIS_ADDR"; "WU_KEY"; "WU_LOCATION"].

Definition missingFrom (environ : gmap string string) : list string :=
  filter (fun name => os_Getenv environ name = "") required.

Definition missingMessage (names : list string) : string :=
  "Environment variables missing: [" +:+ join " " names +:+ "]".

(** An environment with every required setting, and one whose REDIS_DB
    is not a number and that sets none of the required ones. *)
Definition completeEnviron : gmap string string :=
  <["REDIS_ADDR" := "localhost:6379"]>
    (<["WU_KEY" := "key"]> (<["WU_LOCATION" := "CA/San_Francisco"]> ∅)).

Definition badDBEnviron : gmap string string := <["REDIS_DB" := "abc"]> ∅.

(** Redis and the upstream endpoint both answer. *)
Definition allUp : Extern :=
  {| now := sampleDay; readFault := None; writeFault := None;
     upstream := fun _ => http.Body sampleBody |}.

(** Redis refuses reads. *)
Definition readsFail : Extern :=
  {| now := sampleDay; readFault := Some (errorString "EOF"); writeFault := None;
     upstream := fun _ => http.Body sampleBody |}.

(** The upstream endpoint cannot be reached. *)
Definition upstreamDown : Extern :=
  {| now := sampleDay; readFault := None; writeFault := None;
     upstream := fun _ => http.GetError (errorString "dial tcp: connection refused") |}.

(** The upstream endpoint answers with the body given. *)
Definition answering (body : string) : Extern :=
  {| now := sampleDay; readFault := None; writeFault := None;
     upstream := fun _ => http.Body body |}.

(** A world whose cache holds today's key. *)
Definition cachedWorld : World :=
  storing emptyWorld "ph:weather:sun_phase:2024-March-15"
    {| redis.val := "cached document"; redis.expiration := 168 * time.Hour |}.

From Stdlib Require DecimalZ DecimalPos.

(** ** More sample inputs *)

(** The same request met by a Redis that takes the write. *)
Definition writesTaken (x : Extern) : Extern :=
  {| now := now x; readFault := readFault x; writeFault := None;
     upstream := upstream x |}.

(** Redis answers reads and refuses writes. *)
Definition writesFail : Extern :=
  {| now := sampleDay; readFault := None; writeFault := Some (errorString "EOF");
     upstream := fun _ => http.Body sampleBody |}.

(** A serializer that refuses every record. *)
Definition refusingCodec : jsonapi.Codec :=
  {| jsonapi.MarshalPayload := fun _ => ("", Some (errorString "json: unsupported value"));
     jsonapi.MarshalErrors := jsonapi.MarshalErrors (Codec := jsonapi.library) |}.

(** Strings of decimal digits. *)
Fixpoint allDigits (s : string) : bool :=
  match s with
  | "" => true
  | String c s' => json.isDigit c && allDigits s'
  end.

(** The number a string of decimal digits denotes, read left to right from
    [acc]. *)
Fixpoint uintValue (d : Decimal.uint) (acc : Z) : Z :=
  match d with
  | Decimal.Nil => acc
  | Decimal.D0 d' => uintValue d' (acc * 10 + 0)
  | Decimal.D1 d' => uintValue d' (acc * 10 + 1)
  | Decimal.D2 d' => uintValue d' (acc * 10 + 2)
  | Decimal.D3 d' => uintValue d' (acc * 10 + 3)
  | Decimal.D4 d' => uintValue d' (acc * 10 + 4)
  | Decimal.D5 d' => uintValue d' (acc * 10 + 5)
  | Decimal.D6 d' => uintValue d' (acc * 10 + 6)
  | Decimal.D7 d' => uintValue d' (acc * 10 + 7)
  | Decimal.D8 d' => uintValue d' (acc * 10 + 8)
  | Decimal.D9 d' => uintValue d' (acc * 10 + 9)
  end.

(** The bytes a JSON string literal holds as they are: ASCII from the
    space on, but for the double quote and the backslash. *)
Definition plainByte (c : ascii) : bool :=
  (32 <=? code c) && (code c <? 128) && negb (code c =? 34) && negb (code c =? 92).

Fixpoint allPlain (s : string) : bool :=
  match s with
  | "" => true
  | String c s' => plainByte c && allPlain s'
  end.

(** The scanner on a part of the input: the mode and the tokens it has got
    to when the part ends. *)
Fixpoint scanChunk (data : string) (m : json.mode) (out : list json.token)
  : option (json.mode * list json.token) :=
  match data with
  | "" => Some (m, out)
  | String c data' =>
      '(m', toks) ← json.scanByte m c;
      scanChunk data' m' (toks ++ out)
  end.

(** The text of an upstream answer of the expected shape: the four fields
    as JSON strings in their places. *)
Definition bodyToHour : string :=
  "{" +:+ quoted "sun_phase" +:+ ":{" +:+ quoted "sunrise" +:+ ":{" +:+
  quoted "hour" +:+ ":" +:+ str1 dquote.

Definition hourToMinute : string :=
  str1 dquote +:+ "," +:+ quoted "minute" +:+ ":" +:+ str1 dquote.

Definition sunriseToSunset : string :=
  str1 dquote +:+ "}," +:+ quoted "sunset" +:+ ":{" +:+ quoted "hour" +:+ ":" +:+
  str1 dquote.

Definition bodyEnd : string := str1 dquote +:+ "}}}".

Definition astronomyBody (sunrise sunset : WUTime) : string :=
  bodyToHour +:+ Hour sunrise +:+ hourToMinute +:+ Minute sunrise +:+
  sunriseToSunset +:+ Hour sunset +:+ hourToMinute +:+ Minute sunset +:+ bodyEnd.

(** Reading the sun phase off a parsed body, by the rules of the decoder:
    a field takes every member whose key is its name up to case, in the
    order they are written; objects stored into the same struct add up,
    and of the strings stored into the same field the last one stays. *)
Fixpoint valuesAt (name : string) (ms : list (string * json.value)) : list json.value :=
  match ms with
  | [] => []
  | (k, v) :: ms' =>
      if json.fieldMatches k name then v :: valuesAt name ms' else valuesAt name ms'
  end.

(** The strings a list of values holds, when every one of them is a
    string. *)
Fixpoint strings (vs : list json.value) : option (list string) :=
  match vs with
  | [] => Some []
  | json.Str s :: vs' => ss ← strings vs'; Some (s :: ss)
  | _ => None
  end.

(** The members of a list of objects, one after the other, when every one
    of the values is an object. *)
Fixpoint objects (vs : list json.value) : option (list (string * json.value)) :=
  match vs with
  | [] => Some []
  | json.Object ms :: vs' => rest ← objects vs'; Some (ms ++ rest)
  | _ => None
  end.

Definition timeIn (ms : list (string * json.value)) : option WUTime :=
  hours ← strings (valuesAt "hour" ms);
  minutes ← strings (valuesAt "minute" ms);
  Some {| Hour := default "" (last hours); Minute := default "" (last minutes) |}.

Definition sunPhaseIn (top : list (string * json.value)) : option WUSunPhase :=
  phase ← objects (valuesAt "sun_phase" top);
  rise ← objects (valuesAt "sunrise" phase);
  set ← objects (valuesAt "sunset" phase);
  sunrise ← timeIn rise;
  sunset ← timeIn set;
  Some {| Sunrise := sunrise; Sunset := sunset |}.

(** An upstream answer as the service writes it: indented, with the
    members the program does not use, and with a minute of two digits. *)
Definition stationBody : string :=
  "{" +:+ str1 newline +:+
  "  " +:+ quoted "response" +:+ ": {" +:+ quoted "version" +:+ ": " +:+ quoted "0.1" +:+
    ", " +:+ quoted "features" +:+ ": {" +:+ quoted "astronomy" +:+ ": 1}}," +:+
    str1 newline +:+
  "  " +:+ quoted "moon_phase" +:+ ": {" +:+ quoted "ageOfMoon" +:+ ": " +:+ quoted "10" +:+
    ", " +:+ quoted "sunrise" +:+ ": {" +:+ quoted "hour" +:+ ": " +:+ quoted "1" +:+ "}}," +:+
    str1 newline +:+
  "  " +:+ quoted "sun_phase" +:+ ": {" +:+ str1 newline +:+
  "    " +:+ quoted "sunrise" +:+ ": {" +:+ quoted "hour" +:+ ": " +:+ quoted "7" +:+
    ", " +:+ quoted "minute" +:+ ": " +:+ quoted "05" +:+ "}," +:+ str1 newline +:+
  "    " +:+ quoted "sunset" +:+ ": {" +:+ quoted "hour" +:+ ": " +:+ quoted "19" +:+
    ", " +:+ quoted "minute" +:+ ": " +:+ quoted "45" +:+ "}" +:+ str1 newline +:+
  "  }" +:+ str1 newline +:+
  "}" +:+ str1 newline.

(** * Properties *)

Lemma append_nil_r (s : string) : s +:+ "" = s.
Proof.
  induction s as [|c s IH]; [reflexivity |].
  change (String c (s +:+ "") = String c s). now rewrite IH.
Qed.

Lemma append_assoc (a b c : string) : (a +:+ b) +:+ c = a +:+ (b +:+ c).
Proof.
  induction a as [|x a IH]; [reflexivity |].
  change (String x ((a +:+ b) +:+ c) = String x (a +:+ (b +:+ c))). now rewrite IH.
Qed.

Section Properties.

Context {codec : jsonapi.Codec}.

(** ** The cache key *)

Lemma Sprintf_s_string (f : string) (s : string) (ops : list fmt.operand) :
  fmt.Sprintf (String "%" (String "s" f)) (fmt.OString s :: ops)
  = s +:+ fmt.Sprintf f ops.
Proof. reflexivity. Qed.

Lemma cacheKey_eq (prefix : string) (today : time.Time) :
  cacheKey prefix today
  = prefix +:+ "weather:sun_phase:" +:+ strconv.Itoa (time.Year today) +:+ "-"
    +:+ time.Month_String (time.Month_ today) +:+ "-" +:+ strconv.Itoa (time.Day today).
Proof.
  unfold cacheKey. rewrite Sprintf_s_string. f_equal.
  transitivity
    ("weather:sun_phase:" +:+ strconv.Itoa (time.Year today) +:+ "-"
     +:+ time.Month_String (time.Month_ today) +:+ "-"
     +:+ (strconv.Itoa (time.Day today) +:+ "")); [reflexivity |].
  now rewrite append_nil_r.
Qed.

(** ** The client *)

Lemma getWUApiRepose_cases (x : Extern) (w : World) (key feature location : string) :
  getWUApiRepose x w key feature location =
  match upstream x (apiURL key feature location) with
  | http.Body data => Ret (requesting w (apiURL key feature location), (data, None))
  | http.GetError e | http.ReadError e => Fatal (log.line (Error e))
  end.
Proof. unfold getWUApiRepose. now destruct (upstream x _). Qed.

Lemma getWUAstronomy_cases (x : Extern) (w : World) (key feature location : string) :
  getWUAstronomy x w key feature location =
  match upstream x (apiURL key feature location) with
  | http.Body data =>
      Ret (requesting w (apiURL key feature location),
           ((json_Unmarshal data WUAstronomy_zero).1, None))
  | http.GetError e | http.ReadError e => Fatal (log.line (Error e))
  end.
Proof.
  unfold getWUAstronomy. rewrite getWUApiRepose_cases.
  now destruct (upstream x _).
Qed.

(** ** The handler, case by case *)

Lemma handleSunPhase_hit (env : Env) (x : Extern) (w : World)
    (rw : http.ResponseWriter) (req : http.Request) (en : redis.entry) :
  http.Method req = "GET" ->
  readFault x = None ->
  store w !! cacheKey (RedisPrefix (config env)) (now x) = Some en ->
  handleSunPhase env x w rw req =
  Ret (commanding w (redis.GET (cacheKey (RedisPrefix (config env)) (now x))),
       http.Write (http.Header_Set rw "Content-Type" jsonapi.MediaType) (redis.val en)).
Proof.
  intros Hget Hread Hkey. unfold handleSunPhase, redis_Get.
  destruct (decide _) as [_|Hne]; [|contradiction].
  now rewrite Hread, Hkey.
Qed.

Lemma handleSunPhase_miss (env : Env) (x : Extern) (w : World)
    (rw : http.ResponseWriter) (req : http.Request) (e : error) :
  http.Method req = "GET" ->
  (redis_Get x w (cacheKey (RedisPrefix (config env)) (now x))).2.2 = Some e ->
  handleSunPhase env x w rw req = afterMiss env x w rw e.
Proof.
  intros Hget Hread. unfold handleSunPhase, afterMiss.
  destruct (decide _) as [_|Hne]; [|contradiction].
  unfold redis_Get in *.
  destruct (readFault x) as [e'|].
  - simpl in Hread. injection Hread as ->.
    rewrite getWUAstronomy_cases. now destruct (upstream x _).
  - destruct (store w !! _); simpl in Hread; [discriminate|].
    injection Hread as <-.
    rewrite getWUAstronomy_cases. now destruct (upstream x _).
Qed.

Lemma handleSunPhase_other (env : Env) (x : Extern) (w : World)
    (rw : http.ResponseWriter) (req : http.Request) :
  http.Method req <> "GET" ->
  handleSunPhase env x w rw req =
  Ret (w, makeErrorResponse rw 405 (http.Method req) 0).
Proof.
  intros Hne. unfold handleSunPhase.
  now destruct (decide _) as [Heq|_].
Qed.

(** Every cache read ends in a value or in an error. *)
Lemma redis_Get_cases (x : Extern) (w : World) (key : string) :
  (readFault x = None /\ exists en, store w !! key = Some en) \/
  (exists e, (redis_Get x w key).2.2 = Some e).
Proof.
  unfold redis_Get. destruct (readFault x) as [e|]; [right; now exists e|].
  destruct (store w !! key) as [en|]; [left; eauto | right; now eexists].
Qed.

Lemma fetched_commands (x : Extern) (key : string) (w : World)
    (rw : http.ResponseWriter) (a : WUAstronomy) (err : option error) :
  exists rest,
    commands (handleSunPhase_fetched x key w rw a err).1 = commands w ++ rest.
Proof.
  unfold handleSunPhase_fetched.
  destruct (jsonapi.MarshalPayload _) as [doc [e|]]; simpl.
  - exists []. now rewrite app_nil_r.
  - unfold redis_Set. destruct (writeFault x); simpl; now eexists.
Qed.

(** C2. The key under which the handler reads the cache is the prefix, then
    [weather:sun_phase:], then the year, the month and the day joined by a
    dash.  It depends on the prefix and the date only, whatever the request
    and the state of the cache; the month is written by name, so with prefix
    [ph:] on 15 March 2024 the key is [ph:weather:sun_phase:2024-March-15]. *)
Theorem cacheKey_is_prefix_and_date :
  (forall (prefix : string) (today : time.Time),
     cacheKey prefix today =
     prefix +:+ "weather:sun_phase:" +:+
     join "-" [strconv.Itoa (time.Year today);
               time.Month_String (time.Month_ today);
               strconv.Itoa (time.Day today)])
  /\ cacheKey "ph:" {| time.Year := 2024; time.Month_ := time.March; time.Day := 15 |}
     = "ph:weather:sun_phase:2024-March-15"
  /\ (forall (env : Env) (x : Extern) (w w' : World)
        (rw rw' : http.ResponseWriter) (req : http.Request),
        http.Method req = "GET" ->
        handleSunPhase env x w rw req = Ret (w', rw') ->
        exists rest,
          commands w' =
          commands w ++ redis.GET (cacheKey (RedisPrefix (config env)) (now x)) :: rest).
Proof.
  split; [|split].
  - intros prefix today. apply cacheKey_eq.
  - reflexivity.
  - intros env x w w' rw rw' req Hget Hrun.
    destruct (redis_Get_cases x w (cacheKey (RedisPrefix (config env)) (now x)))
      as [[Hread [en Hen]] | [e He]].
    + rewrite (handleSunPhase_hit _ _ _ _ _ en) in Hrun by assumption.
      injection Hrun as <- _. now exists [].
    + rewrite (handleSunPhase_miss _ _ _ _ _ e) in Hrun by assumption.
      unfold afterMiss in Hrun.
      destruct (upstream x _) as [data|err|err]; try discriminate.
      injection Hrun as Hrun.
      destruct (fetched_commands x (cacheKey (RedisPrefix (config env)) (now x))
                  (requesting
                     (if decide (e = redis.Nil)
                      then commanding w (redis.GET (cacheKey (RedisPrefix (config env)) (now x)))
                      else log_Println
                             (commanding w (redis.GET (cacheKey (RedisPrefix (config env)) (now x))))
                             [fmt.OString "Error reading cache: %s"; fmt.OString (Error e)])
                     (apiURL (WUndergroundKey (config env)) "astronomy"
                        (WUndergroundLocation (config env))))
                  rw (json_Unmarshal data WUAstronomy_zero).1 None) as [rest Hrest].
      rewrite Hrun in Hrest. simpl in Hrest. exists rest. rewrite Hrest.
      destruct (decide _); simpl; now rewrite <- app_assoc.
Qed.

(** C3. On a GET request whose cache read succeeds, the response is the
    stored string, byte for byte and whatever it holds, sent with status 200
    and the jsonapi media type; the handler sends Redis the one read and no
    write, requests nothing upstream, logs nothing and leaves the store as it
    was. *)
Theorem cache_hit_is_served_verbatim (env : Env) (x : Extern) (w : World)
    (req : http.Request) (en : redis.entry) :
  http.Method req = "GET" ->
  readFault x = None ->
  store w !! cacheKey (RedisPrefix (config env)) (now x) = Some en ->
  exists (w' : World) (rw' : http.ResponseWriter),
    handleSunPhase env x w http.newResponse req = Ret (w', rw')
    /\ http.body rw' = redis.val en
    /\ http.status rw' = 200
    /\ http.sentHeader rw' !! "Content-Type" = Some [jsonapi.MediaType]
    /\ requested w' = requested w
    /\ commands w' = commands w ++ [redis.GET (cacheKey (RedisPrefix (config env)) (now x))]
    /\ store w' = store w
    /\ logged w' = logged w.
Proof.
  intros Hget Hread Hkey.
  eexists _, _. split; [now apply (handleSunPhase_hit _ _ _ _ _ en)|].
  repeat split; reflexivity.
Qed.

(** ** The error envelope *)

Lemma Itoa_nonempty (i : Z) : strconv.Itoa i <> "".
Proof.
  unfold strconv.Itoa, NilZero.string_of_int.
  destruct (Z.to_int i) as [d|d]; [|discriminate].
  unfold NilZero.string_of_uint. destruct d; discriminate.
Qed.

Lemma statusTitle_lookup (status : Z) :
  default "" (statusTitle !! status) = titleOf spec_statusTitles status.
Proof.
  unfold statusTitle, spec_statusTitles, titleOf.
  repeat (rewrite lookup_insert; destruct (decide _) as [<-|Hn];
          [reflexivity | rewrite (proj2 (Z.eqb_neq _ _) Hn); clear Hn]).
  rewrite lookup_empty.
  repeat match goal with
         | |- context [?k =? status] =>
             destruct (Z.eqb_spec k status); [congruence|]
         end.
  reflexivity.
Qed.

Lemma codeTitle_lookup (code : Z) :
  default "" (codeTitle !! code) = titleOf spec_codeTitles code.
Proof.
  unfold codeTitle, spec_codeTitles, titleOf.
  repeat (rewrite lookup_insert; destruct (decide _) as [<-|Hn];
          [reflexivity | rewrite (proj2 (Z.eqb_neq _ _) Hn); clear Hn]).
  rewrite lookup_empty.
  repeat match goal with
         | |- context [?k =? code] =>
             destruct (Z.eqb_spec k code); [congruence|]
         end.
  reflexivity.
Qed.

(** What [makeErrorResponse] leaves of a fresh response, by the status
    code: a panic in [WriteHeader] before anything is sent, one written
    document after the interim response, a status line without a body, or
    the document under the status given. *)
Lemma makeErrorResponse_new (status : Z) (detail : string) (code : Z) :
  makeErrorResponse http.newResponse status detail code =
  if (status <? 100) || (999 <? status) then
    {| http.header := ∅; http.wroteHeader := false; http.status := 0;
       http.sentHeader := ∅; http.body := ""; http.interim := [];
       http.panicked := true |}
  else if (100 <=? status) && (status <=? 199) && negb (status =? 101) then
    {| http.header := {["Content-Type" := [jsonapi.MediaType]]};
       http.wroteHeader := true; http.status := 200;
       http.sentHeader := {["Content-Type" := [jsonapi.MediaType]]};
       http.body := jsonapi.MarshalErrors [errorObject status detail code];
       http.interim := [status]; http.panicked := false |}
  else
    {| http.header := {["Content-Type" := [jsonapi.MediaType]]};
       http.wroteHeader := true; http.status := status;
       http.sentHeader := ∅;
       http.body := if http.bodyAllowedForStatus status
                    then jsonapi.MarshalErrors [errorObject status detail code]
                    else "";
       http.interim := []; http.panicked := false |}.
Proof.
  unfold makeErrorResponse, http.Write, http.Header_Set, http.WriteHeader.
  cbn [http.panicked http.wroteHeader http.newResponse].
  destruct ((status <? 100) || (999 <? status)); [reflexivity|].
  unfold http.StatusSwitchingProtocols.
  destruct ((100 <=? status) && (status <=? 199) && negb (status =? 101));
    [reflexivity|].
  cbn. now destruct (http.bodyAllowedForStatus status).
Qed.

Lemma bodyAllowedForStatus_from_200 (status : Z) :
  200 <= status -> status <> 204 -> status <> 304 ->
  http.bodyAllowedForStatus status = true.
Proof.
  intros H200 H204 H304. unfold http.bodyAllowedForStatus.
  replace (status <=? 199) with false by (symmetry; apply Z.leb_gt; lia).
  rewrite andb_false_r.
  replace (status =? 204) with false by (symmetry; now apply Z.eqb_neq).
  replace (status =? 304) with false by (symmetry; now apply Z.eqb_neq).
  reflexivity.
Qed.

(** C4, as amended. For every status code, domain code and detail, the
    error object the builder makes has the decimal form of the status code
    as its status; as its title the entry of the domain-code table when the
    domain code is not zero and the entry of the status table otherwise; as
    its code the decimal form of the domain code when that is not zero, and
    none otherwise (the field is empty, and the JSON form has no code
    member); and the detail as given.  The two tables hold exactly the
    entries the specification lists.  For a status code from 200 to 999
    other than 204 and 304, the response carries the encoding of this one
    object under the status given.  For a status code below 100 or above
    999 the call panics in [WriteHeader] and nothing is sent, and under 101,
    204 and 304 the status line goes out and the document is refused. *)
Theorem errorObject_fields (status code : Z) (detail : string) :
  jsonapi.Status (errorObject status detail code) = strconv.Itoa status
  /\ jsonapi.Title (errorObject status detail code)
     = (if decide (code = 0) then titleOf spec_statusTitles status
        else titleOf spec_codeTitles code)
  /\ jsonapi.Code (errorObject status detail code)
     = (if decide (code = 0) then "" else strconv.Itoa code)
  /\ (if decide (code = 0)
      then "code" ∉ (jsonapi.members (errorObject status detail code)).*1
      else ("code", strconv.Itoa code) ∈ jsonapi.members (errorObject status detail code))
  /\ jsonapi.Detail (errorObject status detail code) = detail
  /\ statusTitle = list_to_map spec_statusTitles
  /\ codeTitle = list_to_map spec_codeTitles
  /\ (200 <= status <= 999 -> status <> 204 -> status <> 304 ->
      http.panicked (makeErrorResponse http.newResponse status detail code) = false
      /\ http.body (makeErrorResponse http.newResponse status detail code)
         = jsonapi.MarshalErrors [errorObject status detail code]
      /\ http.status (makeErrorResponse http.newResponse status detail code) = status)
  /\ (status < 100 \/ 999 < status ->
      http.panicked (makeErrorResponse http.newResponse status detail code) = true
      /\ http.wroteHeader (makeErrorResponse http.newResponse status detail code) = false
      /\ http.body (makeErrorResponse http.newResponse status detail code) = "")
  /\ (status = 101 \/ status = 204 \/ status = 304 ->
      http.panicked (makeErrorResponse http.newResponse status detail code) = false
      /\ http.status (makeErrorResponse http.newResponse status detail code) = status
      /\ http.body (makeErrorResponse http.newResponse status detail code) = "").
Proof.
  pose proof (statusTitle_lookup status) as Hs.
  pose proof (codeTitle_lookup code) as Hc.
  pose proof (makeErrorResponse_new status detail code) as Hnew.
  assert (Hobj : errorObject status detail code =
    {| jsonapi.ID := "";
       jsonapi.Title := if decide (code = 0) then titleOf spec_statusTitles status
                        else titleOf spec_codeTitles code;
       jsonapi.Detail := detail;
       jsonapi.Status := strconv.Itoa status;
       jsonapi.Code := if decide (code = 0) then "" else strconv.Itoa code |}).
  { unfold errorObject. destruct (decide (code = 0)); rewrite ?Hs, ?Hc; reflexivity. }
  split; [now rewrite Hobj|]. split; [now rewrite Hobj|]. split; [now rewrite Hobj|].
  split; [|split; [now rewrite Hobj|]; split; [reflexivity|]; split; [reflexivity|];
           clear Hobj Hs Hc; split; [|split]].
  2:{ intros Hrange H204 H304. rewrite Hnew.
      replace ((status <? 100) || (999 <? status)) with false
        by (symmetry; apply orb_false_intro; apply Z.ltb_ge; lia).
      replace (status <=? 199) with false by (symmetry; apply Z.leb_gt; lia).
      rewrite andb_false_r. cbn.
      now rewrite bodyAllowedForStatus_from_200 by lia. }
  2:{ intros Hout. rewrite Hnew.
      replace ((status <? 100) || (999 <? status)) with true; [now cbn|].
      symmetry. apply orb_true_iff.
      destruct Hout; [left | right]; now apply Z.ltb_lt. }
  2:{ intros Hbare. rewrite Hnew. now destruct Hbare as [-> | [-> | ->]]. }
  rewrite Hobj. unfold jsonapi.members.
  destruct (decide (code = 0)) as [->|Hne]; simpl.
  - intros Hin. apply list_elem_of_fmap in Hin as ([k v] & Hk & Hin).
    simpl in Hk. subst k.
    apply list_elem_of_filter in Hin as [Hv Hin]. simpl in *.
    repeat (apply elem_of_cons in Hin as [Heq|Hin]; [congruence|]).
    now apply elem_of_nil in Hin.
  - apply list_elem_of_filter. split; [apply Itoa_nonempty|]. simpl.
    do 4 (apply elem_of_cons; right). apply elem_of_cons. now left.
Qed.

(** C10. A request whose method is not GET is answered with status 405
    and an error document whose detail is the method as received; the world
    is left as it was.  A POST gets status 405 and the detail [POST]. *)
Theorem other_methods_get_405 :
  (forall (env : Env) (x : Extern) (w : World) (req : http.Request),
     http.Method req <> "GET" ->
     exists rw' : http.ResponseWriter,
       handleSunPhase env x w http.newResponse req = Ret (w, rw')
       /\ http.status rw' = 405
       /\ http.body rw' =
          jsonapi.MarshalErrors
            [{| jsonapi.ID := ""; jsonapi.Title := "Method Not Allowed";
                jsonapi.Detail := http.Method req; jsonapi.Status := "405";
                jsonapi.Code := "" |}])
  /\ (forall (env : Env) (x : Extern) (w : World),
        exists rw' : http.ResponseWriter,
          handleSunPhase env x w http.newResponse POST = Ret (w, rw')
          /\ http.status rw' = 405
          /\ http.body rw' =
             jsonapi.MarshalErrors
               [{| jsonapi.ID := ""; jsonapi.Title := "Method Not Allowed";
                   jsonapi.Detail := "POST"; jsonapi.Status := "405";
                   jsonapi.Code := "" |}]).
Proof.
  assert (H : forall (env : Env) (x : Extern) (w : World) (req : http.Request),
     http.Method req <> "GET" ->
     exists rw' : http.ResponseWriter,
       handleSunPhase env x w http.newResponse req = Ret (w, rw')
       /\ http.status rw' = 405
       /\ http.body rw' =
          jsonapi.MarshalErrors
            [{| jsonapi.ID := ""; jsonapi.Title := "Method Not Allowed";
                jsonapi.Detail := http.Method req; jsonapi.Status := "405";
                jsonapi.Code := "" |}]).
  { intros env x w req Hne. eexists. split; [now apply handleSunPhase_other|].
    split; reflexivity. }
  split; [exact H|].
  intros env x w. apply (H env x w POST). discriminate.
Qed.

(** ** Cache misses *)

Lemma fetched_requested (x : Extern) (key : string) (w : World)
    (rw : http.ResponseWriter) (a : WUAstronomy) (err : option error) :
  requested (handleSunPhase_fetched x key w rw a err).1 = requested w.
Proof.
  unfold handleSunPhase_fetched.
  destruct (jsonapi.MarshalPayload _) as [doc [e|]]; simpl; [reflexivity|].
  unfold redis_Set. now destruct (writeFault x).
Qed.

Lemma fetched_logged (x : Extern) (key : string) (w : World)
    (rw : http.ResponseWriter) (a : WUAstronomy) (err : option error) :
  exists rest, logged (handleSunPhase_fetched x key w rw a err).1 = logged w ++ rest.
Proof.
  unfold handleSunPhase_fetched.
  destruct (jsonapi.MarshalPayload _) as [doc [e|]]; simpl.
  - exists []. now rewrite app_nil_r.
  - unfold redis_Set. destruct (writeFault x); simpl; [now eexists|].
    exists []. now rewrite app_nil_r.
Qed.

(** C9. When the cache read fails with an error that is not [redis.Nil],
    the handler logs the error and from there does what it does on a miss:
    the run equals the run in which the same line is already in the log and
    the read is answered with [redis.Nil].  The upstream fetch is made: the
    handler either returns, with the upstream URL requested and the error
    line logged, or the process ends in the fetch. *)
Theorem cache_read_error_is_a_miss (env : Env) (x : Extern) (w : World)
    (rw : http.ResponseWriter) (req : http.Request) (e : error) :
  http.Method req = "GET" ->
  readFault x = Some e ->
  e <> redis.Nil ->
  let line := log.line (fmt.Sprintln [fmt.OString "Error reading cache: %s";
                                       fmt.OString (Error e)]) in
  let url := apiURL (WUndergroundKey (config env)) "astronomy"
               (WUndergroundLocation (config env)) in
  handleSunPhase env x w rw req
  = handleSunPhase env (answeringNil x) (logging w line) rw req
  /\ match handleSunPhase env x w rw req with
     | Ret (w', _) =>
         requested w' = requested w ++ [url]
         /\ exists rest, logged w' = logged w ++ line :: rest
     | Fatal l =>
         exists err, (upstream x url = http.GetError err \/
                      upstream x url = http.ReadError err)
                     /\ l = log.line (Error err)
     end.
Proof.
  intros Hget Hread Hne line url.
  rewrite (handleSunPhase_miss env x w rw req e); [|assumption|].
  2:{ unfold redis_Get. now rewrite Hread. }
  rewrite (handleSunPhase_miss env (answeringNil x) (logging w line) rw req redis.Nil);
    [|assumption|reflexivity].
  unfold afterMiss. fold url. simpl.
  destruct (decide (e = redis.Nil)) as [|_]; [contradiction|].
  destruct (decide (redis.Nil = redis.Nil)) as [_|]; [|contradiction].
  destruct (upstream x url) as [data|err|err].
  - split; [reflexivity|].
    destruct (handleSunPhase_fetched _ _ _ _ _ _) as [w' rw'] eqn:Hrun.
    pose proof (fetched_requested x (cacheKey (RedisPrefix (config env)) (now x))
      (requesting
         (log_Println
            (commanding w (redis.GET (cacheKey (RedisPrefix (config env)) (now x))))
            [fmt.OString "Error reading cache: %s"; fmt.OString (Error e)]) url)
      rw (json_Unmarshal data WUAstronomy_zero).1 None) as Hreq.
    destruct (fetched_logged x (cacheKey (RedisPrefix (config env)) (now x))
      (requesting
         (log_Println
            (commanding w (redis.GET (cacheKey (RedisPrefix (config env)) (now x))))
            [fmt.OString "Error reading cache: %s"; fmt.OString (Error e)]) url)
      rw (json_Unmarshal data WUAstronomy_zero).1 None) as [rest Hlog].
    rewrite Hrun in Hreq, Hlog. simpl in Hreq, Hlog.
    split; [exact Hreq|]. exists rest. rewrite Hlog. now rewrite <- app_assoc.
  - split; [reflexivity|]. exists err. auto.
  - split; [reflexivity|]. exists err. auto.
Qed.

(** ** Failures of the fetch *)

(** C6. When the HTTP GET fails, or reading the body fails,
    [getWUApiRepose] ends the process with the error as its last log line
    and does not return.  So whenever [getWUAstronomy] returns, its error
    is nil; a GET request that misses the cache and meets a transport failure
    ends the process without a response; and whenever the handler returns
    from a miss, it has gone on from the fetch with a nil error, never
    through the branch that answers 500 for a failed fetch. *)
Theorem transport_failure_is_fatal :
  (forall (x : Extern) (w : World) (key feature location : string) (e : error),
     upstream x (apiURL key feature location) = http.GetError e \/
     upstream x (apiURL key feature location) = http.ReadError e ->
     getWUApiRepose x w key feature location = Fatal (log.line (Error e)))
  /\ (forall (x : Extern) (w w' : World) (key feature location : string)
        (a : WUAstronomy) (err : option error),
        getWUAstronomy x w key feature location = Ret (w', (a, err)) -> err = None)
  /\ (forall (env : Env) (x : Extern) (w : World) (rw : http.ResponseWriter)
        (req : http.Request) (e0 e : error),
        http.Method req = "GET" ->
        (redis_Get x w (cacheKey (RedisPrefix (config env)) (now x))).2.2 = Some e0 ->
        upstream x (apiURL (WUndergroundKey (config env)) "astronomy"
                      (WUndergroundLocation (config env))) = http.GetError e \/
        upstream x (apiURL (WUndergroundKey (config env)) "astronomy"
                      (WUndergroundLocation (config env))) = http.ReadError e ->
        handleSunPhase env x w rw req = Fatal (log.line (Error e)))
  /\ (forall (env : Env) (x : Extern) (w : World) (rw : http.ResponseWriter)
        (req : http.Request) (e0 : error) (r : World * http.ResponseWriter),
        http.Method req = "GET" ->
        (redis_Get x w (cacheKey (RedisPrefix (config env)) (now x))).2.2 = Some e0 ->
        handleSunPhase env x w rw req = Ret r ->
        exists (w1 : World) (a : WUAstronomy),
          r = handleSunPhase_fetched x (cacheKey (RedisPrefix (config env)) (now x))
                w1 rw a None).
Proof.
  repeat split.
  - intros x w key feature location e H. rewrite getWUApiRepose_cases.
    now destruct H as [-> | ->].
  - intros x w w' key feature location a err H.
    rewrite getWUAstronomy_cases in H.
    destruct (upstream x _); [|discriminate..]. congruence.
  - intros env x w rw req e0 e Hget Hmiss H.
    rewrite (handleSunPhase_miss env x w rw req e0) by assumption.
    unfold afterMiss. now destruct H as [-> | ->].
  - intros env x w rw req e0 r Hget Hmiss H.
    rewrite (handleSunPhase_miss env x w rw req e0) in H by assumption.
    unfold afterMiss in H.
    destruct (upstream x _); [|discriminate..].
    injection H as <-. now eexists _, _.
Qed.

(** The branch of the handler for a fetch that returned an error (lines
    169-171) has no [return]: entered with an error, the continuation
    answers 500 with the error's text as detail and then goes on, builds
    the record from the zero value, writes its document to the cache under
    the key, for 168 hours, and appends the same document to the response
    after the error document.  No run of [handleSunPhase] enters it so,
    since [getWUAstronomy] returns no error. *)
Lemma fetch_error_falls_through (x : Extern) (key : string) (w : World)
    (e : error) (doc : string) :
  jsonapi.MarshalPayload (responseObj key WUAstronomy_zero) = (doc, None) ->
  responseObj key WUAstronomy_zero
  = {| ResponseID := key; SunriseM := 0; SunriseH := 0; SunsetM := 0; SunsetH := 0 |}
  /\ http.status (handleSunPhase_fetched x key w http.newResponse
                    WUAstronomy_zero (Some e)).2 = 500
  /\ http.body (handleSunPhase_fetched x key w http.newResponse
                  WUAstronomy_zero (Some e)).2
     = jsonapi.MarshalErrors [errorObject 500 (Error e) 0] +:+ doc
  /\ commands (handleSunPhase_fetched x key w http.newResponse
                 WUAstronomy_zero (Some e)).1
     = commands w ++ [redis.SET key doc (168 * time.Hour)].
Proof.
  intros Hdoc. split; [reflexivity|].
  unfold handleSunPhase_fetched. rewrite Hdoc.
  unfold redis_Set. destruct (writeFault x); simpl; repeat split; reflexivity.
Qed.

(** C1 (what the code does instead). On a GET request that does not hit
    the cache and whose fetch fails, in the GET or in the reading of the
    body, the client does not return an error to the handler: the process
    logs the error and exits inside the fetch.  The handler returns no
    response, so no 500 document with the error as detail goes out, and
    the server answers none of the requests that follow. *)
Theorem failed_fetch_is_not_answered (env : Env) (x : Extern) (w : World)
    (rw : http.ResponseWriter) (req : http.Request) (e0 err : error) :
  http.Method req = "GET" ->
  (redis_Get x w (cacheKey (RedisPrefix (config env)) (now x))).2.2 = Some e0 ->
  upstream x (apiURL (WUndergroundKey (config env)) "astronomy"
                (WUndergroundLocation (config env))) = http.GetError err \/
  upstream x (apiURL (WUndergroundKey (config env)) "astronomy"
                (WUndergroundLocation (config env))) = http.ReadError err ->
  (forall w1 : World,
     getWUAstronomy x w1 (WUndergroundKey (config env)) "astronomy"
       (WUndergroundLocation (config env)) = Fatal (log.line (Error err)))
  /\ handleSunPhase env x w rw req = Fatal (log.line (Error err))
  /\ (forall (w' : World) (rw' : http.ResponseWriter),
        handleSunPhase env x w rw req <> Ret (w', rw'))
  /\ (forall reqs : list (Extern * http.Request),
        serve env ((x, req) :: reqs) w = Fatal (log.line (Error err))).
Proof.
  intros Hget Hmiss Hup.
  assert (Hfetch : forall w1 : World,
             getWUAstronomy x w1 (WUndergroundKey (config env)) "astronomy"
               (WUndergroundLocation (config env)) = Fatal (log.line (Error err))).
  { intros w1. rewrite getWUAstronomy_cases. now destruct Hup as [-> | ->]. }
  assert (Hrun : forall rw0 : http.ResponseWriter,
             handleSunPhase env x w rw0 req = Fatal (log.line (Error err))).
  { intros rw0. rewrite (handleSunPhase_miss env x w rw0 req e0) by assumption.
    unfold afterMiss. now destruct Hup as [-> | ->]. }
  split; [exact Hfetch|]. split; [apply Hrun|].
  split; [intros w' rw'; now rewrite Hrun|].
  intros reqs. simpl. now rewrite Hrun.
Qed.

(** ** Bodies that do not parse *)

Lemma checkValid_false (body : string) :
  json.checkValid body = false -> json.parse body = None.
Proof.
  unfold json.checkValid. intros H. apply bool_decide_eq_false in H.
  destruct (json.parse body); [|reflexivity]. exfalso. apply H. eauto.
Qed.

Lemma Unmarshal_invalid (body : string) (response : WUAstronomy) :
  json.checkValid body = false ->
  json_Unmarshal body response = (response, Some json.SyntaxError).
Proof. intros H. unfold json_Unmarshal. now rewrite (checkValid_false body H). Qed.

(** C5, as amended. Whatever the body of the upstream response, the client
    returns a nil error.  When the body is not well-formed JSON, the
    structure it returns is the zero value, with empty sunrise and sunset
    fields, and the handler, going on from the miss, builds a record whose
    four hour and minute integers are zero. *)
Theorem malformed_body_gives_zero_record (env : Env) (x : Extern) (w : World)
    (rw : http.ResponseWriter) (req : http.Request) (e0 : error) (body : string) :
  http.Method req = "GET" ->
  (redis_Get x w (cacheKey (RedisPrefix (config env)) (now x))).2.2 = Some e0 ->
  upstream x (apiURL (WUndergroundKey (config env)) "astronomy"
                (WUndergroundLocation (config env))) = http.Body body ->
  (exists (w' : World) (a : WUAstronomy),
     getWUAstronomy x w (WUndergroundKey (config env)) "astronomy"
       (WUndergroundLocation (config env)) = Ret (w', (a, None)))
  /\ (json.checkValid body = false ->
      (exists w' : World,
         getWUAstronomy x w (WUndergroundKey (config env)) "astronomy"
           (WUndergroundLocation (config env)) = Ret (w', (WUAstronomy_zero, None)))
      /\ SunPhase WUAstronomy_zero
         = {| Sunrise := {| Hour := ""; Minute := "" |};
              Sunset := {| Hour := ""; Minute := "" |} |}
      /\ (exists w1 : World,
            handleSunPhase env x w rw req
            = Ret (handleSunPhase_fetched x (cacheKey (RedisPrefix (config env)) (now x))
                     w1 rw WUAstronomy_zero None))
      /\ responseObj (cacheKey (RedisPrefix (config env)) (now x)) WUAstronomy_zero
         = {| ResponseID := cacheKey (RedisPrefix (config env)) (now x);
              SunriseM := 0; SunriseH := 0; SunsetM := 0; SunsetH := 0 |}).
Proof.
  intros Hget Hmiss Hup. split.
  - rewrite getWUAstronomy_cases, Hup. now eexists _, _.
  - intros Hbad. repeat split.
    + rewrite getWUAstronomy_cases, Hup, (Unmarshal_invalid _ _ Hbad). now eexists.
    + rewrite (handleSunPhase_miss env x w rw req e0) by assumption.
      unfold afterMiss. rewrite Hup, (Unmarshal_invalid _ _ Hbad). now eexists.
Qed.

(** ** The round trip through the cache *)

(** C8. On a GET request that misses the cache and is answered 200, the
    handler sends Redis, after the read, one write: the key, the very
    document it returns as the body, and 168 hours.  When Redis takes the
    write, the store holds that document under the key, and a later request
    for the same day that reads it back gets a body identical to the one
    the miss returned. *)
Theorem miss_writes_what_it_returns (env : Env) (x : Extern) (w w' : World)
    (req : http.Request) (e0 : error) (rw' : http.ResponseWriter) :
  http.Method req = "GET" ->
  (redis_Get x w (cacheKey (RedisPrefix (config env)) (now x))).2.2 = Some e0 ->
  handleSunPhase env x w http.newResponse req = Ret (w', rw') ->
  http.status rw' = 200 ->
  168 * time.Hour = 604800 * time.Second
  /\ (exists a : WUAstronomy,
        jsonapi.MarshalPayload (responseObj (cacheKey (RedisPrefix (config env)) (now x)) a)
        = (http.body rw', None))
  /\ commands w' =
     commands w ++ [redis.GET (cacheKey (RedisPrefix (config env)) (now x));
                    redis.SET (cacheKey (RedisPrefix (config env)) (now x))
                      (http.body rw') (168 * time.Hour)]
  /\ (writeFault x = None ->
      store w' !! cacheKey (RedisPrefix (config env)) (now x)
      = Some {| redis.val := http.body rw'; redis.expiration := 168 * time.Hour |}
      /\ forall x2 : Extern,
           readFault x2 = None ->
           now x2 = now x ->
           exists (w'' : World) (rw'' : http.ResponseWriter),
             handleSunPhase env x2 w' http.newResponse req = Ret (w'', rw'')
             /\ http.body rw'' = http.body rw'
             /\ requested w'' = requested w'
             /\ store w'' = store w').
Proof.
  intros Hget Hmiss Hrun H200. split; [reflexivity|].
  rewrite (handleSunPhase_miss env x w _ req e0) in Hrun by assumption.
  unfold afterMiss in Hrun.
  destruct (upstream x _) as [data|err|err]; [|discriminate..].
  injection Hrun as Hrun. unfold handleSunPhase_fetched in Hrun.
  destruct (jsonapi.MarshalPayload _) as [doc [e|]] eqn:Hdoc.
  { injection Hrun as _ <-. simpl in H200. discriminate. }
  unfold redis_Set in Hrun.
  assert (Hbody : http.body rw' = doc).
  { destruct (writeFault x); injection Hrun as _ <-; reflexivity. }
  rewrite Hbody. split; [eexists; exact Hdoc|]. split.
  - destruct (writeFault x); injection Hrun as <- _; simpl;
      destruct (decide (e0 = redis.Nil)); simpl; now rewrite <- app_assoc.
  - intros Hwrite. rewrite Hwrite in Hrun.
    assert (Hstored :
      store w' !! cacheKey (RedisPrefix (config env)) (now x)
      = Some {| redis.val := doc; redis.expiration := 168 * time.Hour |}).
    { injection Hrun as <- _. simpl. apply lookup_insert_eq. }
    split; [exact Hstored|].
    intros x2 Hread2 Hnow. rewrite <- Hnow in Hstored.
    eexists _, _. split.
    + apply (handleSunPhase_hit env x2 _ http.newResponse req _ Hget Hread2 Hstored).
    + repeat split; reflexivity.
Qed.

(** ** Configuration *)

Lemma main_without_config (environ : gmap string string) (ping : string * option error)
    (reqs : list (Extern * http.Request)) (w : World) (l : string) :
  collectConfig environ = Fatal l -> main environ ping reqs w = Fatal l.
Proof. intros H. unfold main. now rewrite H. Qed.

(** C7, as amended. Provided REDIS_DB is unset, empty, or a decimal
    integer that [Atoi] accepts: when at least one of REDIS_ADDR, WU_KEY and
    WU_LOCATION is unset or empty, [collectConfig] ends the process, and with
    it [main] before it serves any request, with one line that names every
    missing setting, in the order REDIS_ADDR, WU_KEY, WU_LOCATION; when all
    three are set and not empty, it returns the Config filled from the
    environment. *)
Theorem missing_settings_are_reported_together (environ : gmap string string)
    (ping : string * option error) (reqs : list (Extern * http.Request)) (w : World) :
  os_Getenv environ "REDIS_DB" = "" \/
  (strconv.Atoi (os_Getenv environ "REDIS_DB")).2 = None ->
  (missingFrom environ <> [] ->
   collectConfig environ = Fatal (log.line (missingMessage (missingFrom environ)))
   /\ main environ ping reqs w = Fatal (log.line (missingMessage (missingFrom environ))))
  /\ (missingFrom environ = [] ->
      collectConfig environ =
      Ret {| HTTPPort :=
               if decide (os_Getenv environ "HTTP_PORT" = "") then ":8080"
               else ":" +:+ os_Getenv environ "HTTP_PORT";
             RedisAddr := os_Getenv environ "REDIS_ADDR";
             RedisDB :=
               if decide (os_Getenv environ "REDIS_DB" = "") then 0
               else (strconv.Atoi (os_Getenv environ "REDIS_DB")).1;
             RedisPassword := os_Getenv environ "REDIS_PASSWORD";
             RedisPrefix :=
               if decide (os_Getenv environ "REDIS_PREFIX" = "") then "ph:"
               else os_Getenv environ "REDIS_PREFIX";
             WUndergroundKey := os_Getenv environ "WU_KEY";
             WUndergroundLocation := os_Getenv environ "WU_LOCATION" |}).
Proof.
  intros Hdb.
  assert (Hcfg :
    collectConfig environ =
    if decide (missingFrom environ = []) then
      Ret {| HTTPPort :=
               if decide (os_Getenv environ "HTTP_PORT" = "") then ":8080"
               else ":" +:+ os_Getenv environ "HTTP_PORT";
             RedisAddr := os_Getenv environ "REDIS_ADDR";
             RedisDB :=
               if decide (os_Getenv environ "REDIS_DB" = "") then 0
               else (strconv.Atoi (os_Getenv environ "REDIS_DB")).1;
             RedisPassword := os_Getenv environ "REDIS_PASSWORD";
             RedisPrefix :=
               if decide (os_Getenv environ "REDIS_PREFIX" = "") then "ph:"
               else os_Getenv environ "REDIS_PREFIX";
             WUndergroundKey := os_Getenv environ "WU_KEY";
             WUndergroundLocation := os_Getenv environ "WU_LOCATION" |}
    else Fatal (log.line (missingMessage (missingFrom environ)))).
  { unfold collectConfig, missingFrom, required.
    rewrite !filter_cons, filter_nil.
    destruct (decide (os_Getenv environ "REDIS_DB" = "")) as [Hempty|Hset].
    - destruct (decide (os_Getenv environ "REDIS_ADDR" = ""));
        destruct (decide (os_Getenv environ "WU_KEY" = ""));
        destruct (decide (os_Getenv environ "WU_LOCATION" = ""));
        reflexivity.
    - destruct Hdb as [Hdb|Hdb]; [contradiction|].
      destruct (strconv.Atoi (os_Getenv environ "REDIS_DB")) as [i err].
      simpl in Hdb. subst err.
      destruct (decide (os_Getenv environ "REDIS_ADDR" = ""));
        destruct (decide (os_Getenv environ "WU_KEY" = ""));
        destruct (decide (os_Getenv environ "WU_LOCATION" = ""));
        reflexivity. }
  split.
  - intros Hmissing. destruct (decide (missingFrom environ = [])); [contradiction|].
    split; [exact Hcfg|]. now apply main_without_config.
  - intros Hnone. now destruct (decide (missingFrom environ = [])).
Qed.

End Properties.

(** With the library's own encoder the record is always serialized, so
    every miss that returns is answered 200. *)
Lemma library_miss_is_200 (env : Env) (x : Extern) (w w' : World)
    (req : http.Request) (e0 : error) (rw' : http.ResponseWriter) :
  http.Method req = "GET" ->
  (redis_Get x w (cacheKey (RedisPrefix (config env)) (now x))).2.2 = Some e0 ->
  handleSunPhase (codec := jsonapi.library) env x w http.newResponse req = Ret (w', rw') ->
  http.status rw' = 200.
Proof.
  intros Hget Hmiss Hrun.
  rewrite (handleSunPhase_miss env x w _ req e0) in Hrun by assumption.
  unfold afterMiss in Hrun.
  destruct (upstream x _) as [data|err|err]; [|discriminate..].
  injection Hrun as Hrun. unfold handleSunPhase_fetched in Hrun. simpl in Hrun.
  unfold redis_Set in Hrun.
  destruct (writeFault x); injection Hrun as _ <-; reflexivity.
Qed.


(** * The model at sample inputs *)

Example Atoi_samples :
  strconv.Atoi "7" = (7, None)
  /\ strconv.Atoi "-12" = (-12, None)
  /\ strconv.Atoi "" = (0, Some (NumError "Atoi" "" ErrSyntax))
  /\ strconv.Atoi "7pm" = (0, Some (NumError "Atoi" "7pm" ErrSyntax))
  /\ strconv.Atoi "99999999999999999999"
     = (2 ^ 63 - 1, Some (NumError "Atoi" "99999999999999999999" ErrRange)).
Proof. repeat split. Qed.

Example Error_of_NumError :
  Error (NumError "Atoi" "abc" ErrSyntax)
  = "strconv.Atoi: parsing " +:+ quoted "abc" +:+ ": invalid syntax".
Proof. reflexivity. Qed.

Example parse_samples :
  json.parse "[1, 2.5e-3, true, null, {}]"
  = Some (json.Array [json.Number "1"; json.Number "2.5e-3"; json.Bool true;
                      json.Null; json.Object []])
  /\ json.parse "" = None
  /\ json.parse "[1,]" = None
  /\ json.parse "01" = None
  /\ json.parse "nul" = None
  /\ json.parse "{} x" = None
  /\ json.parse htmlBody = None.
Proof. repeat split. Qed.

Example Unmarshal_sampleBody :
  json_Unmarshal sampleBody WUAstronomy_zero
  = ({| Response := None; MoonPhase := None;
        SunPhase := {| Sunrise := {| Hour := "7"; Minute := "30" |};
                       Sunset := {| Hour := "19"; Minute := "45" |} |} |}, None).
Proof. vm_compute. reflexivity. Qed.

Example Unmarshal_numericHourBody :
  json_Unmarshal numericHourBody WUAstronomy_zero
  = ({| Response := None; MoonPhase := None;
        SunPhase := {| Sunrise := {| Hour := ""; Minute := "30" |};
                       Sunset := {| Hour := "19"; Minute := "45" |} |} |},
     Some (json.UnmarshalTypeError "number")).
Proof. vm_compute. reflexivity. Qed.

Example expectedShape_samples :
  expectedShape sampleBody = true
  /\ expectedShape numericHourBody = false
  /\ json.checkValid numericHourBody = true
  /\ expectedShape htmlBody = false
  /\ json.checkValid htmlBody = false.
Proof. vm_compute. repeat split. Qed.

Example encodePayload_sample :
  jsonapi.encodePayload
    {| ResponseID := "ph:weather:sun_phase:2024-March-15";
       SunriseM := 30; SunriseH := 7; SunsetM := 45; SunsetH := 19 |}
  = "{" +:+ quoted "data" +:+ ":{" +:+ quoted "type" +:+ ":" +:+ quoted "sun_phase" +:+ ","
    +:+ quoted "id" +:+ ":" +:+ quoted "ph:weather:sun_phase:2024-March-15" +:+ ","
    +:+ quoted "attributes" +:+ ":{" +:+ quoted "sunrise_h" +:+ ":7,"
    +:+ quoted "sunrise_m" +:+ ":30," +:+ quoted "sunset_h" +:+ ":19,"
    +:+ quoted "sunset_m" +:+ ":45}}}" +:+ str1 newline.
Proof. vm_compute. reflexivity. Qed.

Example MarshalErrors_sample :
  jsonapi.MarshalErrors (Codec := jsonapi.library) [errorObject 405 "POST" 0]
  = "{" +:+ quoted "errors" +:+ ":[{" +:+ quoted "title" +:+ ":"
    +:+ quoted "Method Not Allowed" +:+ "," +:+ quoted "detail" +:+ ":" +:+ quoted "POST"
    +:+ "," +:+ quoted "status" +:+ ":" +:+ quoted "405" +:+ "}]}" +:+ str1 newline.
Proof. vm_compute. reflexivity. Qed.

(** A miss served from upstream: one read, one request, one write, and
    the document of 7:30 and 19:45 both returned and stored. *)
Example miss_sample :
  exists (w' : World) (rw' : http.ResponseWriter),
    handleSunPhase (codec := jsonapi.library) sampleEnv allUp emptyWorld
      http.newResponse GET = Ret (w', rw')
    /\ http.status rw' = 200
    /\ http.body rw'
       = jsonapi.encodePayload
           {| ResponseID := "ph:weather:sun_phase:2024-March-15";
              SunriseM := 30; SunriseH := 7; SunsetM := 45; SunsetH := 19 |}
    /\ requested w' = ["https://api.wunderground.com/api/key/astronomy/q/CA/San_Francisco.json"]
    /\ commands w'
       = [redis.GET "ph:weather:sun_phase:2024-March-15";
          redis.SET "ph:weather:sun_phase:2024-March-15" (http.body rw') (168 * time.Hour)]
    /\ logged w' = [].
Proof. eexists _, _. repeat split. Qed.

(** * The theorems at sample inputs *)

Lemma fetch_error_falls_through_witness :
  jsonapi.MarshalPayload (Codec := jsonapi.library)
    (responseObj "ph:weather:sun_phase:2024-March-15" WUAstronomy_zero)
  = (jsonapi.encodePayload
       {| ResponseID := "ph:weather:sun_phase:2024-March-15";
          SunriseM := 0; SunriseH := 0; SunsetM := 0; SunsetH := 0 |}, None)
  /\ http.status
       (handleSunPhase_fetched (codec := jsonapi.library) allUp
          "ph:weather:sun_phase:2024-March-15" emptyWorld http.newResponse
          WUAstronomy_zero (Some (errorString "dial tcp: connection refused"))).2 = 500
  /\ commands
       (handleSunPhase_fetched (codec := jsonapi.library) allUp
          "ph:weather:sun_phase:2024-March-15" emptyWorld http.newResponse
          WUAstronomy_zero (Some (errorString "dial tcp: connection refused"))).1
     = [redis.SET "ph:weather:sun_phase:2024-March-15"
          (jsonapi.encodePayload
             {| ResponseID := "ph:weather:sun_phase:2024-March-15";
                SunriseM := 0; SunriseH := 0; SunsetM := 0; SunsetH := 0 |})
          (168 * time.Hour)].
Proof.
  split; [reflexivity|].
  pose proof (fetch_error_falls_through (codec := jsonapi.library) allUp
                "ph:weather:sun_phase:2024-March-15" emptyWorld
                (errorString "dial tcp: connection refused") _ eq_refl)
    as (_ & Hstatus & _ & Hcommands).
  split; [exact Hstatus | exact Hcommands].
Defined.

Lemma failed_fetch_is_not_answered_witness :
  upstream upstreamDown (apiURL "key" "astronomy" "CA/San_Francisco")
  = http.GetError (errorString "dial tcp: connection refused")
  /\ handleSunPhase (codec := jsonapi.library) sampleEnv upstreamDown emptyWorld
       http.newResponse GET
     = Fatal (log.line "dial tcp: connection refused")
  /\ serve (codec := jsonapi.library) sampleEnv [(upstreamDown, GET); (allUp, GET)]
       emptyWorld
     = Fatal (log.line "dial tcp: connection refused").
Proof.
  assert (Hget : http.Method GET = "GET") by reflexivity.
  assert (Hmiss : (redis_Get upstreamDown emptyWorld
                     (cacheKey (RedisPrefix (config sampleEnv)) (now upstreamDown))).2.2
                  = Some redis.Nil) by reflexivity.
  assert (Hup : upstream upstreamDown
                  (apiURL (WUndergroundKey (config sampleEnv)) "astronomy"
                     (WUndergroundLocation (config sampleEnv)))
                = http.GetError (errorString "dial tcp: connection refused"))
    by reflexivity.
  destruct (failed_fetch_is_not_answered (codec := jsonapi.library) sampleEnv
              upstreamDown emptyWorld http.newResponse GET redis.Nil
              (errorString "dial tcp: connection refused") Hget Hmiss (or_introl Hup))
    as (_ & Hrun & _ & Hserve).
  split; [reflexivity|]. split; [exact Hrun|].
  exact (Hserve [(allUp, GET)]).
Defined.

Lemma errorObject_fields_witness :
  200 <= 405 <= 999 /\ 405 <> 204 /\ 405 <> 304
  /\ http.body (makeErrorResponse (codec := jsonapi.library) http.newResponse 405 "POST" 0)
     = jsonapi.MarshalErrors (Codec := jsonapi.library)
         [{| jsonapi.ID := ""; jsonapi.Title := "Method Not Allowed";
             jsonapi.Detail := "POST"; jsonapi.Status := "405"; jsonapi.Code := "" |}]
  /\ http.status (makeErrorResponse (codec := jsonapi.library) http.newResponse 405 "POST" 0)
     = 405.
Proof.
  assert (Hrange : 200 <= 405 <= 999) by lia.
  assert (H204 : 405 <> 204) by lia.
  assert (H304 : 405 <> 304) by lia.
  destruct (errorObject_fields (codec := jsonapi.library) 405 0 "POST")
    as (_ & _ & _ & _ & _ & _ & _ & Hsent & _).
  destruct (Hsent Hrange H204 H304) as (_ & Hbody & Hstatus).
  split; [exact Hrange|]. split; [exact H204|]. split; [exact H304|].
  split; [exact Hbody | exact Hstatus].
Defined.

Lemma cacheKey_is_prefix_and_date_witness :
  http.Method GET = "GET"
  /\ exists (w' : World) (rw' : http.ResponseWriter) (rest : list redis.command),
       handleSunPhase (codec := jsonapi.library) sampleEnv allUp emptyWorld
         http.newResponse GET = Ret (w', rw')
       /\ commands w' =
          commands emptyWorld ++ redis.GET "ph:weather:sun_phase:2024-March-15" :: rest.
Proof.
  split; [reflexivity|].
  destruct (handleSunPhase (codec := jsonapi.library) sampleEnv allUp emptyWorld
              http.newResponse GET) as [[w' rw']|l] eqn:Hrun.
  - destruct (proj2 (proj2 (cacheKey_is_prefix_and_date (codec := jsonapi.library)))
                sampleEnv allUp emptyWorld w' http.newResponse rw' GET eq_refl Hrun)
      as [rest Hrest].
    exists w', rw', rest. split; [reflexivity | exact Hrest].
  - vm_compute in Hrun. discriminate.
Defined.

Lemma cache_hit_is_served_verbatim_witness :
  http.Method GET = "GET"
  /\ readFault allUp = None
  /\ store cachedWorld !! "ph:weather:sun_phase:2024-March-15"
     = Some {| redis.val := "cached document"; redis.expiration := 168 * time.Hour |}
  /\ exists (w' : World) (rw' : http.ResponseWriter),
       handleSunPhase (codec := jsonapi.library) sampleEnv allUp cachedWorld
         http.newResponse GET = Ret (w', rw')
       /\ http.body rw' = "cached document"
       /\ requested w' = []
       /\ commands w' = [redis.GET "ph:weather:sun_phase:2024-March-15"].
Proof.
  assert (Hkey : store cachedWorld !! cacheKey (RedisPrefix (config sampleEnv)) (now allUp)
                 = Some {| redis.val := "cached document";
                           redis.expiration := 168 * time.Hour |})
    by (vm_compute; reflexivity).
  split; [reflexivity|]. split; [reflexivity|]. split; [exact Hkey|].
  destruct (cache_hit_is_served_verbatim (codec := jsonapi.library)
              sampleEnv allUp cachedWorld GET _ eq_refl eq_refl Hkey)
    as (w' & rw' & Hrun & Hbody & _ & _ & Hreq & Hcmd & _).
  exists w', rw'. repeat split; assumption.
Defined.

Lemma other_methods_get_405_witness :
  http.Method POST <> "GET"
  /\ exists rw' : http.ResponseWriter,
       handleSunPhase (codec := jsonapi.library) sampleEnv allUp emptyWorld
         http.newResponse POST = Ret (emptyWorld, rw')
       /\ http.status rw' = 405
       /\ http.body rw' =
          jsonapi.MarshalErrors (Codec := jsonapi.library)
            [{| jsonapi.ID := ""; jsonapi.Title := "Method Not Allowed";
                jsonapi.Detail := "POST"; jsonapi.Status := "405";
                jsonapi.Code := "" |}].
Proof.
  assert (Hne : http.Method POST <> "GET") by discriminate.
  split; [exact Hne|].
  exact (proj1 (other_methods_get_405 (codec := jsonapi.library))
           sampleEnv allUp emptyWorld POST Hne).
Defined.

Lemma cache_read_error_is_a_miss_witness :
  http.Method GET = "GET"
  /\ readFault readsFail = Some (errorString "EOF")
  /\ errorString "EOF" <> redis.Nil
  /\ handleSunPhase (codec := jsonapi.library) sampleEnv readsFail emptyWorld
       http.newResponse GET
     = handleSunPhase (codec := jsonapi.library) sampleEnv (answeringNil readsFail)
         (logging emptyWorld
            (log.line (fmt.Sprintln [fmt.OString "Error reading cache: %s";
                                     fmt.OString "EOF"])))
         http.newResponse GET.
Proof.
  assert (Hne : errorString "EOF" <> redis.Nil) by discriminate.
  split; [reflexivity|]. split; [reflexivity|]. split; [exact Hne|].
  exact (proj1 (cache_read_error_is_a_miss (codec := jsonapi.library)
                  sampleEnv readsFail emptyWorld http.newResponse GET
                  (errorString "EOF") eq_refl eq_refl Hne)).
Defined.

Lemma transport_failure_is_fatal_witness :
  upstream upstreamDown (apiURL "key" "astronomy" "CA/San_Francisco")
  = http.GetError (errorString "dial tcp: connection refused")
  /\ getWUApiRepose upstreamDown emptyWorld "key" "astronomy" "CA/San_Francisco"
     = Fatal (log.line "dial tcp: connection refused")
  /\ handleSunPhase (codec := jsonapi.library) sampleEnv upstreamDown emptyWorld
       http.newResponse GET
     = Fatal (log.line "dial tcp: connection refused")
  /\ (exists (w' : World) (a : WUAstronomy),
        getWUAstronomy allUp emptyWorld "key" "astronomy" "CA/San_Francisco"
        = Ret (w', (a, None)))
  /\ (exists (r : World * http.ResponseWriter) (w1 : World) (a : WUAstronomy),
        handleSunPhase (codec := jsonapi.library) sampleEnv allUp emptyWorld
          http.newResponse GET = Ret r
        /\ r = handleSunPhase_fetched (codec := jsonapi.library) allUp
                 "ph:weather:sun_phase:2024-March-15" w1 http.newResponse a None).
Proof.
  destruct (transport_failure_is_fatal (codec := jsonapi.library))
    as (Hclient & Hnil & Hhandler & Hbranch).
  assert (Hmiss : forall x : Extern, readFault x = None ->
            (redis_Get x emptyWorld
               (cacheKey (RedisPrefix (config sampleEnv)) (now x))).2.2
            = Some redis.Nil).
  { intros x Hx. unfold redis_Get. rewrite Hx. reflexivity. }
  split; [reflexivity|]. split; [|split; [|split]].
  - apply (Hclient upstreamDown emptyWorld "key" "astronomy" "CA/San_Francisco"
             (errorString "dial tcp: connection refused")).
    left. reflexivity.
  - apply (Hhandler sampleEnv upstreamDown emptyWorld http.newResponse GET
             redis.Nil (errorString "dial tcp: connection refused")).
    + reflexivity.
    + apply Hmiss. reflexivity.
    + left. reflexivity.
  - destruct (getWUAstronomy allUp emptyWorld "key" "astronomy" "CA/San_Francisco")
      as [[w' [a err]]|l] eqn:Hrun.
    + rewrite (Hnil allUp emptyWorld w' "key" "astronomy" "CA/San_Francisco" a err Hrun).
      now exists w', a.
    + vm_compute in Hrun. discriminate.
  - destruct (handleSunPhase (codec := jsonapi.library) sampleEnv allUp emptyWorld
                http.newResponse GET) as [r|l] eqn:Hrun.
    + destruct (Hbranch sampleEnv allUp emptyWorld http.newResponse GET redis.Nil r
                  eq_refl (Hmiss allUp eq_refl) Hrun) as (w1 & a & Hr).
      exists r, w1, a. split; [reflexivity | exact Hr].
    + vm_compute in Hrun. discriminate.
Defined.

Lemma malformed_body_gives_zero_record_witness :
  json.checkValid htmlBody = false
  /\ exists w1 : World,
       handleSunPhase (codec := jsonapi.library) sampleEnv (answering htmlBody)
         emptyWorld http.newResponse GET
       = Ret (handleSunPhase_fetched (codec := jsonapi.library) (answering htmlBody)
                "ph:weather:sun_phase:2024-March-15" w1 http.newResponse
                WUAstronomy_zero None).
Proof.
  assert (Hbad : json.checkValid htmlBody = false) by (vm_compute; reflexivity).
  split; [exact Hbad|].
  assert (Hmiss :
    (redis_Get (answering htmlBody) emptyWorld
       (cacheKey (RedisPrefix (config sampleEnv)) (now (answering htmlBody)))).2.2
    = Some redis.Nil) by (vm_compute; reflexivity).
  destruct (malformed_body_gives_zero_record (codec := jsonapi.library)
              sampleEnv (answering htmlBody) emptyWorld http.newResponse GET
              redis.Nil htmlBody eq_refl Hmiss eq_refl)
    as (_ & H).
  destruct (H Hbad) as (_ & _ & Hrun & _). exact Hrun.
Defined.

Lemma miss_writes_what_it_returns_witness :
  exists (w' : World) (rw' : http.ResponseWriter),
    handleSunPhase (codec := jsonapi.library) sampleEnv allUp emptyWorld
      http.newResponse GET = Ret (w', rw')
    /\ http.status rw' = 200
    /\ store w' !! "ph:weather:sun_phase:2024-March-15"
       = Some {| redis.val := http.body rw'; redis.expiration := 168 * time.Hour |}
    /\ exists (w'' : World) (rw'' : http.ResponseWriter),
         handleSunPhase (codec := jsonapi.library) sampleEnv allUp w'
           http.newResponse GET = Ret (w'', rw'')
         /\ http.body rw'' = http.body rw'.
Proof.
  assert (Hmiss :
    (redis_Get allUp emptyWorld
       (cacheKey (RedisPrefix (config sampleEnv)) (now allUp))).2.2
    = Some redis.Nil) by (vm_compute; reflexivity).
  destruct (handleSunPhase (codec := jsonapi.library) sampleEnv allUp emptyWorld
              http.newResponse GET) as [[w' rw']|l] eqn:Hrun.
  - pose proof (library_miss_is_200 sampleEnv allUp emptyWorld w' GET redis.Nil rw'
                  eq_refl Hmiss Hrun) as H200.
    destruct (miss_writes_what_it_returns (codec := jsonapi.library)
                sampleEnv allUp emptyWorld w' GET redis.Nil rw'
                eq_refl Hmiss Hrun H200)
      as (_ & _ & _ & Hround).
    destruct (Hround eq_refl) as (Hstored & Hagain).
    destruct (Hagain allUp eq_refl eq_refl) as (w'' & rw'' & Hrun2 & Hsame & _).
    exists w', rw'. repeat split; [exact H200 | exact Hstored |].
    exists w'', rw''. split; assumption.
  - vm_compute in Hrun. discriminate.
Defined.

Lemma missing_settings_are_reported_together_witness :
  os_Getenv ∅ "REDIS_DB" = ""
  /\ missingFrom ∅ = ["REDIS_ADDR"; "WU_KEY"; "WU_LOCATION"]
  /\ collectConfig ∅
     = Fatal (log.line "Environment variables missing: [REDIS_ADDR WU_KEY WU_LOCATION]")
  /\ main (codec := jsonapi.library) ∅ ("PONG", None) [(allUp, GET)] emptyWorld
     = Fatal (log.line "Environment variables missing: [REDIS_ADDR WU_KEY WU_LOCATION]")
  /\ missingFrom completeEnviron = []
  /\ exists cfg : Config,
       collectConfig completeEnviron = Ret cfg
       /\ RedisAddr cfg = "localhost:6379" /\ RedisPrefix cfg = "ph:"
       /\ HTTPPort cfg = ":8080" /\ RedisDB cfg = 0.
Proof.
  assert (Hmissing : missingFrom ∅ <> []) by (vm_compute; discriminate).
  assert (Hnone : missingFrom completeEnviron = []) by (vm_compute; reflexivity).
  assert (Hdb : os_Getenv ∅ "REDIS_DB" = "") by reflexivity.
  assert (Hdb' : os_Getenv completeEnviron "REDIS_DB" = "") by (vm_compute; reflexivity).
  destruct (missing_settings_are_reported_together (codec := jsonapi.library)
              ∅ ("PONG", None) [(allUp, GET)] emptyWorld (or_introl Hdb))
    as (Hfatal & _).
  destruct (Hfatal Hmissing) as (Hconfig & Hmain).
  destruct (missing_settings_are_reported_together (codec := jsonapi.library)
              completeEnviron ("PONG", None) [] emptyWorld (or_introl Hdb'))
    as (_ & Hret).
  split; [reflexivity|]. split; [vm_compute; reflexivity|].
  split; [exact Hconfig|]. split; [exact Hmain|]. split; [exact Hnone|].
  eexists. split; [exact (Hret Hnone)|]. repeat split.
Defined.

(** * Where the claims fail as stated *)

(** C4 as stated: for every status code the builder would produce a
    document.  With status code 0, [WriteHeader] panics before anything is
    set or written: the response has no status line and no body, while the
    document that was to be sent is not empty.  With status code 204 the
    status line goes out and the server refuses the document. *)
Lemma status_0_gives_no_document :
  http.panicked (makeErrorResponse (codec := jsonapi.library)
                   http.newResponse 0 "detail" 0) = true
  /\ http.wroteHeader (makeErrorResponse (codec := jsonapi.library)
                         http.newResponse 0 "detail" 0) = false
  /\ http.body (makeErrorResponse (codec := jsonapi.library)
                  http.newResponse 0 "detail" 0) = ""
  /\ http.body (makeErrorResponse (codec := jsonapi.library)
                  http.newResponse 204 "detail" 0) = ""
  /\ ~ (forall (status code : Z) (detail : string),
          exists obj : jsonapi.ErrorObject,
            http.body (makeErrorResponse (codec := jsonapi.library)
                         http.newResponse status detail code)
            = jsonapi.MarshalErrors (Codec := jsonapi.library) [obj]
            /\ jsonapi.Status obj = strconv.Itoa status
            /\ jsonapi.Detail obj = detail).
Proof.
  split; [reflexivity|]. split; [reflexivity|]. split; [reflexivity|].
  split; [reflexivity|].
  intros H. destruct (H 0 0 "detail") as (obj & Hbody & _).
  change (http.body (makeErrorResponse (codec := jsonapi.library)
                       http.newResponse 0 "detail" 0)) with "" in Hbody.
  discriminate Hbody.
Qed.

(** C5 as stated: a body that is not well-formed JSON of the expected shape
    would leave every sunrise and sunset field empty.  The body with the
    numeric hour is well-formed but not of that shape ([Unmarshal] itself
    reports a type error for it, which the client drops), and its other
    three fields are stored: the record built from it has sunrise minute
    30 and sunset 19:45. *)
Lemma wrong_shape_fields_are_kept :
  ~ (forall (x : Extern) (w : World) (key location body : string),
       upstream x (apiURL key "astronomy" location) = http.Body body ->
       expectedShape body = false ->
       exists (w' : World) (a : WUAstronomy),
         getWUAstronomy x w key "astronomy" location = Ret (w', (a, None))
         /\ Sunrise (SunPhase a) = {| Hour := ""; Minute := "" |}
         /\ Sunset (SunPhase a) = {| Hour := ""; Minute := "" |}
         /\ forall cacheKey : string,
              responseObj cacheKey a
              = {| ResponseID := cacheKey; SunriseM := 0; SunriseH := 0;
                   SunsetM := 0; SunsetH := 0 |}).
Proof.
  intros H.
  destruct (H (answering numericHourBody) emptyWorld "key" "CA/San_Francisco"
              numericHourBody eq_refl) as (w' & a & Hrun & Hsunrise & _).
  - vm_compute. reflexivity.
  - vm_compute in Hrun. injection Hrun as _ <-. discriminate.
Qed.

(** C7 as stated: with a required setting absent, the process would end
    with the line that lists the missing names.  With REDIS_DB set to [abc]
    and none of the three required settings present, it ends in the check
    of REDIS_DB, with a line about REDIS_DB alone. *)
Lemma bad_REDIS_DB_hides_missing_settings :
  ~ (forall environ : gmap string string,
       (exists name, name ∈ required /\ environ !! name = None) ->
       collectConfig environ = Fatal (log.line (missingMessage (missingFrom environ)))).
Proof.
  intros H.
  assert (Hrun : collectConfig badDBEnviron
                 = Fatal (log.line ("Error parsing REDIS_DB: " +:+
                                    Error (NumError "Atoi" "abc" ErrSyntax))))
    by (vm_compute; reflexivity).
  rewrite (H badDBEnviron) in Hrun.
  - vm_compute in Hrun. discriminate.
  - exists "REDIS_ADDR". split; [|reflexivity].
    apply list_elem_of_here.
Qed.

(** * More of the code *)

Section MoreProperties.

Context {codec : jsonapi.Codec}.

Lemma Sprintf_s_colon_s (a b : string) :
  fmt.Sprintf "%s: %s" [fmt.OString a; fmt.OString b] = a +:+ ": " +:+ b.
Proof.
  transitivity (a +:+ ": " +:+ (b +:+ "")); [reflexivity|].
  now rewrite append_nil_r.
Qed.

Lemma panicOnError_Some (e : error) (msg : string) :
  panicOnError (Some e) msg = Fatal (log.line (msg +:+ ": " +:+ Error e)).
Proof. unfold panicOnError, log_Fatalf. now rewrite Sprintf_s_colon_s. Qed.

(** ** Configuration *)

(** X1. A Config that [collectConfig] returns is complete: the process got
    that far only with REDIS_DB unset, empty or parsed into [RedisDB], with
    none of the required settings missing, and the Config has a Redis
    address, an API key, a location and a key prefix that are not empty and
    a listen address that is a colon and a port. *)
Theorem collectConfig_returns_complete_config
    (environ : gmap string string) (cfg : Config) :
  collectConfig environ = Ret cfg ->
  missingFrom environ = []
  /\ (os_Getenv environ "REDIS_DB" = "" /\ RedisDB cfg = 0 \/
      strconv.Atoi (os_Getenv environ "REDIS_DB") = (RedisDB cfg, None))
  /\ RedisAddr cfg <> ""
  /\ WUndergroundKey cfg <> ""
  /\ WUndergroundLocation cfg <> ""
  /\ RedisPrefix cfg <> ""
  /\ exists port : string, HTTPPort cfg = String ":" port /\ port <> "".
Proof.
  unfold collectConfig, missingFrom, required. intros H.
  rewrite !filter_cons, filter_nil.
  assert (Hdb : exists i : Z,
    (if decide (os_Getenv environ "REDIS_DB" = "") then Ret 0
     else let '(i, err) := strconv.Atoi (os_Getenv environ "REDIS_DB") in
          panicOnError err "Error parsing REDIS_DB" ≫= (fun _ => Ret i)) = Ret i
    /\ (os_Getenv environ "REDIS_DB" = "" /\ i = 0 \/
        strconv.Atoi (os_Getenv environ "REDIS_DB") = (i, None))).
  { destruct (decide (os_Getenv environ "REDIS_DB" = "")) as [Hempty|Hset].
    - exists 0. split; [reflexivity|]. now left.
    - destruct (strconv.Atoi (os_Getenv environ "REDIS_DB")) as [i [e|]].
      + rewrite panicOnError_Some in H. discriminate.
      + exists i. split; [reflexivity|]. now right. }
  destruct Hdb as (i & Hi & Hdb). rewrite Hi in H. simpl in H.
  destruct (decide (os_Getenv environ "REDIS_ADDR" = ""));
    destruct (decide (os_Getenv environ "WU_KEY" = ""));
    destruct (decide (os_Getenv environ "WU_LOCATION" = ""));
    try discriminate.
  injection H as <-. simpl.
  repeat split; try assumption.
  - destruct (decide (os_Getenv environ "REDIS_PREFIX" = "")); [discriminate | assumption].
  - destruct (decide (os_Getenv environ "HTTP_PORT" = "")).
    + exists "8080". split; [reflexivity | discriminate].
    + exists (os_Getenv environ "HTTP_PORT"). split; [reflexivity | assumption].
Qed.

Lemma Atoi_error (s : string) (e : error) :
  (strconv.Atoi s).2 = Some e ->
  e = NumError "Atoi" s ErrSyntax \/ e = NumError "Atoi" s ErrRange.
Proof.
  unfold strconv.Atoi, strconv.syntaxError.
  destruct (_ && _).
  - destruct (strconv.stripSign s) as [neg s1].
    destruct s1; [simpl; intros [= <-]; now left|].
    destruct (strconv.atoiFast _ _); simpl; [discriminate|].
    intros [= <-]. now left.
  - destruct (strconv.ParseInt s) as [i [[]|]]; simpl; [| |discriminate];
      intros [= <-]; auto.
Qed.

(** X2. A REDIS_DB that is set and that [Atoi] refuses ends the process in
    [collectConfig], and with it [main] before any request, with a line
    about REDIS_DB that carries the error of [Atoi] (a syntax or a range
    error on the value), whatever the other settings are. *)
Theorem unparsable_REDIS_DB_is_fatal (environ : gmap string string) (e : error)
    (ping : string * option error) (reqs : list (Extern * http.Request)) (w : World) :
  os_Getenv environ "REDIS_DB" <> "" ->
  (strconv.Atoi (os_Getenv environ "REDIS_DB")).2 = Some e ->
  collectConfig environ = Fatal (log.line ("Error parsing REDIS_DB: " +:+ Error e))
  /\ main environ ping reqs w = Fatal (log.line ("Error parsing REDIS_DB: " +:+ Error e))
  /\ (e = NumError "Atoi" (os_Getenv environ "REDIS_DB") ErrSyntax \/
      e = NumError "Atoi" (os_Getenv environ "REDIS_DB") ErrRange).
Proof.
  intros Hset Herr.
  assert (Hcfg : collectConfig environ
                 = Fatal (log.line ("Error parsing REDIS_DB: " +:+ Error e))).
  { unfold collectConfig.
    destruct (decide (os_Getenv environ "REDIS_DB" = "")); [contradiction|].
    destruct (strconv.Atoi (os_Getenv environ "REDIS_DB")) as [i err].
    simpl in Herr. subst err. now rewrite panicOnError_Some. }
  split; [exact Hcfg|]. split; [now apply main_without_config|].
  now apply Atoi_error.
Qed.


(** ** The handler *)

(** The continuation after a fetch that returned a nil error, by what the
    serializer and Redis answer. *)
Lemma fetched_cases (x : Extern) (key : string) (w : World)
    (rw : http.ResponseWriter) (a : WUAstronomy) :
  handleSunPhase_fetched x key w rw a None =
  match jsonapi.MarshalPayload (responseObj key a) with
  | (_, Some e) => (w, makeErrorResponse rw 500 (Error e) 0)
  | (doc, None) =>
      (match writeFault x with
       | Some e =>
           log_Println (commanding w (redis.SET key doc (168 * time.Hour)))
             [fmt.OString "Error commiting to cache: %s"; fmt.OString (Error e)]
       | None =>
           storing (commanding w (redis.SET key doc (168 * time.Hour))) key
             {| redis.val := doc; redis.expiration := 168 * time.Hour |}
       end,
       http.Write (http.Header_Set rw "Content-Type" jsonapi.MediaType) doc)
  end.
Proof.
  unfold handleSunPhase_fetched.
  destruct (jsonapi.MarshalPayload _) as [doc [e|]]; [reflexivity|].
  unfold redis_Set. now destruct (writeFault x).
Qed.

(** X4. The only way a request ends the process is a GET that does not
    hit the cache and whose fetch fails in transport; the last line logged
    is then the transport error.  Every other request is answered. *)
Theorem handler_is_fatal_only_in_the_fetch (env : Env) (x : Extern) (w : World)
    (rw : http.ResponseWriter) (req : http.Request) (l : string) :
  handleSunPhase env x w rw req = Fatal l <->
  http.Method req = "GET"
  /\ (redis_Get x w (cacheKey (RedisPrefix (config env)) (now x))).2.2 <> None
  /\ exists err : error,
       (upstream x (apiURL (WUndergroundKey (config env)) "astronomy"
                      (WUndergroundLocation (config env))) = http.GetError err \/
        upstream x (apiURL (WUndergroundKey (config env)) "astronomy"
                      (WUndergroundLocation (config env))) = http.ReadError err)
       /\ l = log.line (Error err).
Proof.
  split.
  - intros H.
    destruct (decide (http.Method req = "GET")) as [Hget|Hne].
    2:{ rewrite handleSunPhase_other in H by assumption. discriminate. }
    split; [assumption|].
    destruct (redis_Get_cases x w (cacheKey (RedisPrefix (config env)) (now x)))
      as [[Hread [en Hen]] | [e He]].
    + rewrite (handleSunPhase_hit _ _ _ _ _ en) in H by assumption. discriminate.
    + rewrite He. split; [discriminate|].
      rewrite (handleSunPhase_miss _ _ _ _ _ e) in H by assumption.
      unfold afterMiss in H.
      destruct (upstream x _) as [data|err|err]; [discriminate| |];
        injection H as <-; exists err; auto.
  - intros (Hget & Hmiss & err & Hup & ->).
    destruct (redis_Get x w _).2.2 as [e|] eqn:He; [|contradiction].
    rewrite (handleSunPhase_miss _ _ _ _ _ e) by assumption.
    unfold afterMiss. now destruct Hup as [-> | ->].
Qed.

(** A request that is answered is answered in one of three ways. *)
Lemma handler_returns_cases (env : Env) (x : Extern) (w w' : World)
    (rw rw' : http.ResponseWriter) (req : http.Request) :
  handleSunPhase env x w rw req = Ret (w', rw') ->
  (http.Method req <> "GET" /\ w' = w
   /\ rw' = makeErrorResponse rw 405 (http.Method req) 0)
  \/ (http.Method req = "GET" /\ readFault x = None
      /\ exists en : redis.entry,
           store w !! cacheKey (RedisPrefix (config env)) (now x) = Some en
           /\ w' = commanding w (redis.GET (cacheKey (RedisPrefix (config env)) (now x)))
           /\ rw' = http.Write (http.Header_Set rw "Content-Type" jsonapi.MediaType)
                      (redis.val en))
  \/ (http.Method req = "GET"
      /\ exists (e : error) (data : string),
           (redis_Get x w (cacheKey (RedisPrefix (config env)) (now x))).2.2 = Some e
           /\ upstream x (apiURL (WUndergroundKey (config env)) "astronomy"
                            (WUndergroundLocation (config env))) = http.Body data
           /\ (w', rw') =
              handleSunPhase_fetched x (cacheKey (RedisPrefix (config env)) (now x))
                (requesting
                   (if decide (e = redis.Nil)
                    then commanding w
                           (redis.GET (cacheKey (RedisPrefix (config env)) (now x)))
                    else log_Println
                           (commanding w
                              (redis.GET (cacheKey (RedisPrefix (config env)) (now x))))
                           [fmt.OString "Error reading cache: %s"; fmt.OString (Error e)])
                   (apiURL (WUndergroundKey (config env)) "astronomy"
                      (WUndergroundLocation (config env))))
                rw (json_Unmarshal data WUAstronomy_zero).1 None).
Proof.
  intros H.
  destruct (decide (http.Method req = "GET")) as [Hget|Hne].
  2:{ rewrite handleSunPhase_other in H by assumption.
      injection H as <- <-. now left. }
  right.
  destruct (redis_Get_cases x w (cacheKey (RedisPrefix (config env)) (now x)))
    as [[Hread [en Hen]] | [e He]].
  - rewrite (handleSunPhase_hit _ _ _ _ _ en) in H by assumption.
    injection H as <- <-. left. eauto 10.
  - rewrite (handleSunPhase_miss _ _ _ _ _ e) in H by assumption.
    unfold afterMiss in H.
    destruct (upstream x _) as [data|err|err] eqn:Hup; [|discriminate..].
    injection H as H. right. split; [assumption|]. exists e, data. auto.
Qed.

(** X5. A request that is answered costs at most one cache read, one
    upstream request and one cache write: a request that is not a GET
    sends Redis nothing, a GET sends the read of the key and, after it, at
    most one write of the key for 168 hours; at most the one upstream URL is
    requested, and only after the read did not hit; at most two lines are
    logged. *)
Theorem handler_effects_are_bounded (env : Env) (x : Extern) (w w' : World)
    (rw rw' : http.ResponseWriter) (req : http.Request) :
  handleSunPhase env x w rw req = Ret (w', rw') ->
  let key := cacheKey (RedisPrefix (config env)) (now x) in
  let url := apiURL (WUndergroundKey (config env)) "astronomy"
               (WUndergroundLocation (config env)) in
  (http.Method req <> "GET" /\ commands w' = commands w /\ requested w' = requested w
   \/ http.Method req = "GET"
      /\ (commands w' = commands w ++ [redis.GET key]
          \/ exists doc : string,
               commands w' = commands w ++ [redis.GET key;
                                            redis.SET key doc (168 * time.Hour)])
      /\ (requested w' = requested w
          /\ (redis_Get x w key).2.2 = None
          \/ requested w' = requested w ++ [url]
             /\ (redis_Get x w key).2.2 <> None))
  /\ exists lines : list string,
       logged w' = logged w ++ lines /\ (length lines <= 2)%nat.
Proof.
  intros H. cbv zeta.
  apply handler_returns_cases in H
    as [(Hne & -> & _) | [(Hget & Hread & en & Hen & -> & _)
                         | (Hget & e & data & He & Hup & H)]].
  - split; [left; auto|]. exists []. split; [now rewrite app_nil_r | simpl; lia].
  - split.
    + right. split; [assumption|]. split; [now left|]. left. split; [reflexivity|].
      unfold redis_Get. now rewrite Hread, Hen.
    + exists []. split; [now rewrite app_nil_r | simpl; lia].
  - rewrite fetched_cases in H.
    assert (Hmiss : (redis_Get x w (cacheKey (RedisPrefix (config env)) (now x))).2.2
                    <> None) by (rewrite He; discriminate).
    destruct (jsonapi.MarshalPayload _) as [doc [em|]].
    + injection H as -> _. split.
      * right. split; [assumption|]. split; [left|right; split; [|assumption]];
          destruct (decide (e = redis.Nil)); reflexivity.
      * destruct (decide (e = redis.Nil)); simpl.
        -- exists []. split; [now rewrite app_nil_r | simpl; lia].
        -- eexists [_]. split; [reflexivity | simpl; lia].
    + injection H as -> _. split.
      * right. split; [assumption|].
        split; [right; exists doc|right; split; [|assumption]];
          destruct (writeFault x); destruct (decide (e = redis.Nil)); simpl;
          rewrite <- ?app_assoc; reflexivity.
      * destruct (writeFault x); destruct (decide (e = redis.Nil)); simpl.
        -- eexists [_]. split; [reflexivity | simpl; lia].
        -- eexists [_; _]. split; [now rewrite <- app_assoc | simpl; lia].
        -- exists []. split; [now rewrite app_nil_r | simpl; lia].
        -- eexists [_]. split; [reflexivity | simpl; lia].
Qed.

(** X6. A request changes the store at most at its own cache key: every
    other key reads as before, no key is removed, and the key itself either
    reads as before or holds a serialized record with an expiration of 168
    hours. *)
Theorem handler_writes_only_its_key (env : Env) (x : Extern) (w w' : World)
    (rw rw' : http.ResponseWriter) (req : http.Request) :
  handleSunPhase env x w rw req = Ret (w', rw') ->
  let key := cacheKey (RedisPrefix (config env)) (now x) in
  (forall k : string, k <> key -> store w' !! k = store w !! k)
  /\ (forall k : string, is_Some (store w !! k) -> is_Some (store w' !! k))
  /\ (store w' = store w
      \/ exists (a : WUAstronomy) (doc : string),
           jsonapi.MarshalPayload (responseObj key a) = (doc, None)
           /\ store w' = <[key := {| redis.val := doc;
                                     redis.expiration := 168 * time.Hour |}]> (store w)).
Proof.
  intros H key.
  assert (Hstore :
    store w' = store w
    \/ exists (a : WUAstronomy) (doc : string),
         jsonapi.MarshalPayload (responseObj key a) = (doc, None)
         /\ store w' = <[key := {| redis.val := doc;
                                   redis.expiration := 168 * time.Hour |}]> (store w)).
  { apply handler_returns_cases in H
      as [(Hne & -> & _) | [(Hget & Hread & en & Hen & -> & _)
                           | (Hget & e & data & He & Hup & H)]];
      [now left | now left |].
    rewrite fetched_cases in H. unfold key.
    destruct (jsonapi.MarshalPayload _) as [doc [em|]] eqn:Hdoc.
    - injection H as -> _. left. now destruct (decide (e = redis.Nil)).
    - injection H as -> _. destruct (writeFault x).
      + left. now destruct (decide (e = redis.Nil)).
      + right. eexists _, doc. split; [exact Hdoc|].
        now destruct (decide (e = redis.Nil)). }
  split; [|split; [|exact Hstore]].
  - intros k Hk. destruct Hstore as [-> | (a & doc & _ & ->)]; [reflexivity|].
    now apply lookup_insert_ne.
  - intros k Hsome. destruct Hstore as [-> | (a & doc & _ & ->)]; [assumption|].
    rewrite lookup_insert. destruct (decide (key = k)); [eauto | assumption].
Qed.

Lemma append_cons (c : ascii) (s t : string) : String c s +:+ t = String c (s +:+ t).
Proof. reflexivity. Qed.

Lemma endsWithNewline_snoc (s : string) :
  log.endsWithNewline (s +:+ str1 newline) = true.
Proof.
  induction s as [|c s IH]; [reflexivity|].
  rewrite append_cons. destruct s as [|c' s]; [reflexivity|].
  rewrite append_cons in *. exact IH.
Qed.

Lemma log_line_Sprintln (ops : list fmt.operand) :
  log.line (fmt.Sprintln ops) = fmt.Sprintln ops.
Proof. unfold log.line, fmt.Sprintln. now rewrite endsWithNewline_snoc. Qed.

Lemma Sprintln_two (a b : string) :
  fmt.Sprintln [fmt.OString a; fmt.OString b] = a +:+ " " +:+ b +:+ str1 newline.
Proof.
  unfold fmt.Sprintln. simpl map. unfold join.
  now rewrite !append_assoc.
Qed.

(** X7. A cache write that fails is logged and nothing more: the store is
    left as it was, and the response is the very response the request gets
    when Redis takes the write; the two runs send the same commands and
    request the same URL, and differ by the one log line when a write was
    attempted. *)
Theorem cache_write_failure_is_only_logged (env : Env) (x : Extern) (w w' : World)
    (rw rw' : http.ResponseWriter) (req : http.Request) (e : error) :
  writeFault x = Some e ->
  handleSunPhase env x w rw req = Ret (w', rw') ->
  store w' = store w
  /\ exists w2 : World,
       handleSunPhase env (writesTaken x) w rw req = Ret (w2, rw')
       /\ commands w' = commands w2
       /\ requested w' = requested w2
       /\ (logged w' = logged w2 /\ store w2 = store w
           \/ logged w' =
              logged w2 ++ ["Error commiting to cache: %s " +:+ Error e +:+ str1 newline]
              /\ exists doc : string,
                   commands w' =
                   commands w ++ [redis.GET (cacheKey (RedisPrefix (config env)) (now x));
                                  redis.SET (cacheKey (RedisPrefix (config env)) (now x))
                                    doc (168 * time.Hour)]
                   /\ store w2 =
                      <[cacheKey (RedisPrefix (config env)) (now x) :=
                          {| redis.val := doc; redis.expiration := 168 * time.Hour |}]>
                        (store w)).
Proof.
  intros Hfault H.
  apply handler_returns_cases in H
    as [(Hne & -> & ->) | [(Hget & Hread & en & Hen & -> & ->)
                          | (Hget & e0 & data & He & Hup & H)]].
  - split; [reflexivity|]. exists w.
    split; [now apply handleSunPhase_other|]. auto.
  - split; [reflexivity|]. eexists. split.
    + apply (handleSunPhase_hit env (writesTaken x) w rw req en Hget Hread Hen).
    + auto.
  - rewrite fetched_cases in H.
    rewrite (handleSunPhase_miss env (writesTaken x) w rw req e0 Hget He).
    unfold afterMiss. change (upstream (writesTaken x)) with (upstream x).
    rewrite Hup, fetched_cases. change (now (writesTaken x)) with (now x).
    destruct (jsonapi.MarshalPayload _) as [doc [em|]].
    + injection H as -> ->. split; [now destruct (decide (e0 = redis.Nil))|].
      eexists. split; [reflexivity|].
      split; [reflexivity|]. split; [reflexivity|]. left.
      split; [reflexivity|]. now destruct (decide (e0 = redis.Nil)).
    + rewrite Hfault in H. injection H as -> ->.
      split; [now destruct (decide (e0 = redis.Nil))|].
      eexists. split; [reflexivity|]. simpl.
      split; [reflexivity|]. split; [reflexivity|]. right.
      rewrite log_line_Sprintln, Sprintln_two. split; [reflexivity|].
      exists doc. split; destruct (decide (e0 = redis.Nil)); simpl;
        rewrite <- ?app_assoc; reflexivity.
Qed.

(** X8. When the record cannot be serialized, the request is answered 500
    with one error document whose detail is the text of the serializer's
    error; nothing is written to the cache, and the store is as before. *)
Theorem serialization_error_is_a_500 (env : Env) (x : Extern) (w : World)
    (req : http.Request) (e0 e : error) (data doc : string) :
  http.Method req = "GET" ->
  (redis_Get x w (cacheKey (RedisPrefix (config env)) (now x))).2.2 = Some e0 ->
  upstream x (apiURL (WUndergroundKey (config env)) "astronomy"
                (WUndergroundLocation (config env))) = http.Body data ->
  jsonapi.MarshalPayload
    (responseObj (cacheKey (RedisPrefix (config env)) (now x))
       (json_Unmarshal data WUAstronomy_zero).1) = (doc, Some e) ->
  exists (w' : World) (rw' : http.ResponseWriter),
    handleSunPhase env x w http.newResponse req = Ret (w', rw')
    /\ http.status rw' = 500
    /\ http.body rw' = jsonapi.MarshalErrors [errorObject 500 (Error e) 0]
    /\ jsonapi.Detail (errorObject 500 (Error e) 0) = Error e
    /\ commands w' = commands w ++ [redis.GET (cacheKey (RedisPrefix (config env)) (now x))]
    /\ store w' = store w.
Proof.
  intros Hget He Hup Hdoc.
  rewrite (handleSunPhase_miss env x w _ req e0 Hget He).
  unfold afterMiss. rewrite Hup, fetched_cases, Hdoc.
  eexists _, _. split; [reflexivity|].
  repeat split; now destruct (decide (e0 = redis.Nil)).
Qed.

(** X9. [makeErrorResponse] fixes the status line and the headers before
    it sets the content type.  On a fresh response and for a status from
    200 to 999 other than 204 and 304, the error document goes out under
    the status given with none of the handler's headers: the jsonapi media
    type is in the header map afterwards, too late to be sent, and the
    Content-Type of the response is the one the server sniffs from the
    document.  So every answer of the handler is either a 200 that
    declares the jsonapi media type, or a 405 or 500 that declares no type
    and is sent under the sniffed one. *)
Theorem media_type_is_declared_only_on_200 :
  (forall (status : Z) (detail : string) (code : Z),
     200 <= status <= 999 -> status <> 204 -> status <> 304 ->
     http.status (makeErrorResponse http.newResponse status detail code) = status
     /\ http.sentHeader (makeErrorResponse http.newResponse status detail code) = ∅
     /\ http.header (makeErrorResponse http.newResponse status detail code)
          !! "Content-Type" = Some [jsonapi.MediaType]
     /\ http.ContentType (makeErrorResponse http.newResponse status detail code)
        = http.sniffedType (jsonapi.MarshalErrors [errorObject status detail code]))
  /\ (forall (env : Env) (x : Extern) (w w' : World) (rw' : http.ResponseWriter)
        (req : http.Request),
        handleSunPhase env x w http.newResponse req = Ret (w', rw') ->
        http.panicked rw' = false
        /\ http.wroteHeader rw' = true
        /\ (http.status rw' = 200
            /\ http.sentHeader rw' !! "Content-Type" = Some [jsonapi.MediaType]
            /\ http.ContentType rw' = http.Declared [jsonapi.MediaType]
            \/ (http.status rw' = 405 \/ http.status rw' = 500)
               /\ http.sentHeader rw' = ∅
               /\ http.ContentType rw' = http.sniffedType (http.body rw'))).
Proof.
  split.
  - intros status detail code Hrange H204 H304.
    rewrite makeErrorResponse_new.
    replace ((status <? 100) || (999 <? status)) with false
      by (symmetry; apply orb_false_intro; apply Z.ltb_ge; lia).
    replace (status <=? 199) with false by (symmetry; apply Z.leb_gt; lia).
    rewrite andb_false_r. cbn [negb andb].
    unfold http.ContentType.
    cbn [http.status http.sentHeader http.header http.body].
    rewrite bodyAllowedForStatus_from_200 by lia.
    repeat split.
  - intros env x w w' rw' req H.
    apply handler_returns_cases in H
      as [(Hne & -> & ->) | [(Hget & Hread & en & Hen & -> & ->)
                            | (Hget & e0 & data & He & Hup & H)]].
    + split; [reflexivity|]. split; [reflexivity|]. right.
      split; [now left|]. split; reflexivity.
    + split; [reflexivity|]. split; [reflexivity|]. left.
      split; [reflexivity|]. split; reflexivity.
    + rewrite fetched_cases in H.
      destruct (jsonapi.MarshalPayload _) as [doc [em|]];
        injection H as _ ->; split; [reflexivity| |reflexivity|];
        (split; [reflexivity|]).
      * right. split; [now right|]. split; reflexivity.
      * left. split; [reflexivity|]. split; reflexivity.
Qed.

(** ** The server *)

Lemma serve_app (env : Env) (reqs1 reqs2 : list (Extern * http.Request)) (w : World) :
  serve env (reqs1 ++ reqs2) w =
  match serve env reqs1 w with
  | Ret (w1, rs1) =>
      match serve env reqs2 w1 with
      | Ret (w2, rs2) => Ret (w2, rs1 ++ rs2)
      | Fatal l => Fatal l
      end
  | Fatal l => Fatal l
  end.
Proof.
  revert w. induction reqs1 as [|[x req] reqs1 IH]; intros w; simpl.
  - now destruct (serve env reqs2 w) as [[w2 rs2]|l].
  - destruct (handleSunPhase env x w http.newResponse req) as [[w1 r]|l]; simpl;
      [|reflexivity].
    rewrite IH. destruct (serve env reqs1 w1) as [[w2 rs]|l]; simpl; [|reflexivity].
    now destruct (serve env reqs2 w2) as [[w3 rs3]|l].
Qed.

(** X10. One failed fetch ends the service: when, after some requests have
    been answered, a GET misses the cache and its fetch fails in transport,
    the server ends with the transport error as its last line, and neither
    that request nor any request after it is answered. *)
Theorem failed_fetch_ends_the_service (env : Env)
    (reqs1 reqs2 : list (Extern * http.Request)) (x : Extern) (req : http.Request)
    (w w1 : World) (rs1 : list http.ResponseWriter) (e0 err : error) :
  serve env reqs1 w = Ret (w1, rs1) ->
  http.Method req = "GET" ->
  (redis_Get x w1 (cacheKey (RedisPrefix (config env)) (now x))).2.2 = Some e0 ->
  upstream x (apiURL (WUndergroundKey (config env)) "astronomy"
                (WUndergroundLocation (config env))) = http.GetError err \/
  upstream x (apiURL (WUndergroundKey (config env)) "astronomy"
                (WUndergroundLocation (config env))) = http.ReadError err ->
  serve env (reqs1 ++ (x, req) :: reqs2) w = Fatal (log.line (Error err)).
Proof.
  intros H1 Hget He Hup.
  assert (Hfatal : handleSunPhase env x w1 http.newResponse req
                   = Fatal (log.line (Error err))).
  { rewrite (handleSunPhase_miss env x w1 _ req e0 Hget He).
    unfold afterMiss. now destruct Hup as [-> | ->]. }
  rewrite serve_app, H1. simpl. now rewrite Hfatal.
Qed.

Lemma serve_hits (env : Env) (en : redis.entry) (key : string) (xs : list Extern) :
  forall w : World,
    store w !! key = Some en ->
    Forall (fun x' => cacheKey (RedisPrefix (config env)) (now x') = key
                      /\ readFault x' = None) xs ->
    exists w' : World,
      serve env (map (fun x' => (x', GET)) xs) w
      = Ret (w', map (fun _ => http.Write
                                 (http.Header_Set http.newResponse "Content-Type"
                                    jsonapi.MediaType) (redis.val en)) xs)
      /\ store w' = store w /\ requested w' = requested w /\ logged w' = logged w.
Proof.
  induction xs as [|x' xs IH]; intros w Hkey Hall.
  - exists w. now repeat split.
  - apply Forall_cons in Hall as [[Hk Hread] Hall]. simpl.
    rewrite (handleSunPhase_hit env x' w http.newResponse GET en eq_refl Hread)
      by now rewrite Hk.
    simpl.
    destruct (IH (commanding w (redis.GET (cacheKey (RedisPrefix (config env)) (now x'))))
                Hkey Hall) as (w' & -> & Hs & Hr & Hl).
    exists w'. now repeat split.
Qed.

(** X11. One fetch serves the day: when a GET misses the cache, the fetch
    and the write succeed, and the requests that follow come on the same
    day and read the cache, then every one of them is answered 200 with the
    body of the first, and the upstream URL is requested once in all. *)
Theorem one_fetch_serves_the_day (env : Env) (x : Extern) (xs : list Extern)
    (w : World) (data doc : string) :
  readFault x = None ->
  writeFault x = None ->
  store w !! cacheKey (RedisPrefix (config env)) (now x) = None ->
  upstream x (apiURL (WUndergroundKey (config env)) "astronomy"
                (WUndergroundLocation (config env))) = http.Body data ->
  jsonapi.MarshalPayload
    (responseObj (cacheKey (RedisPrefix (config env)) (now x))
       (json_Unmarshal data WUAstronomy_zero).1) = (doc, None) ->
  Forall (fun x' => now x' = now x /\ readFault x' = None) xs ->
  exists (w' : World) (rs : list http.ResponseWriter),
    serve env ((x, GET) :: map (fun x' => (x', GET)) xs) w = Ret (w', rs)
    /\ requested w' = requested w ++
         [apiURL (WUndergroundKey (config env)) "astronomy"
            (WUndergroundLocation (config env))]
    /\ length rs = S (length xs)
    /\ Forall (fun rw => http.body rw = doc /\ http.status rw = 200) rs
    /\ store w' !! cacheKey (RedisPrefix (config env)) (now x)
       = Some {| redis.val := doc; redis.expiration := 168 * time.Hour |}.
Proof.
  intros Hread Hwrite Hnone Hup Hdoc Hall.
  assert (Hmiss : (redis_Get x w (cacheKey (RedisPrefix (config env)) (now x))).2.2
                  = Some redis.Nil).
  { unfold redis_Get. now rewrite Hread, Hnone. }
  simpl.
  rewrite (handleSunPhase_miss env x w _ GET redis.Nil eq_refl Hmiss).
  unfold afterMiss. rewrite Hup, fetched_cases, Hdoc, Hwrite.
  destruct (decide (redis.Nil = redis.Nil)) as [_|]; [|contradiction].
  simpl.
  match goal with
  | |- context [serve env _ ?w1] =>
      destruct (serve_hits env
                  {| redis.val := doc; redis.expiration := 168 * time.Hour |}
                  (cacheKey (RedisPrefix (config env)) (now x)) xs w1)
        as (w' & -> & Hs & Hr & Hl)
  end.
  - simpl. apply lookup_insert_eq.
  - eapply Forall_impl; [exact Hall|]. intros x' [-> ?]. auto.
  - eexists _, _. split; [reflexivity|].
    split; [now rewrite Hr|].
    split; [simpl; now rewrite length_map|].
    split.
    + apply Forall_cons. split; [now split|].
      apply Forall_forall. intros rw Hin.
      apply list_elem_of_fmap in Hin as (x' & -> & _). now split.
    + rewrite Hs. simpl. apply lookup_insert_eq.
Qed.

(** ** The cache key, day by day *)

Lemma string_of_uint_digits (d : Decimal.uint) :
  allDigits (NilEmpty.string_of_uint d) = true.
Proof. induction d; simpl; auto. Qed.

(** [Itoa] writes a first character, a digit or the sign, and digits after
    it. *)
Lemma Itoa_shape (i : Z) :
  exists (c : ascii) (ds : string), strconv.Itoa i = String c ds /\ allDigits ds = true.
Proof.
  unfold strconv.Itoa, NilZero.string_of_int, NilZero.string_of_uint.
  destruct (Z.to_int i) as [d|d].
  - destruct d; try (eexists _, _; split; [reflexivity|];
                     first [reflexivity | apply string_of_uint_digits]).
  - eexists _, _. split; [reflexivity|].
    destruct d; first [reflexivity | apply (string_of_uint_digits (_ d))
                      | idtac].
    all: simpl; apply string_of_uint_digits.
Qed.

Lemma Itoa_inj (a b : Z) : strconv.Itoa a = strconv.Itoa b -> a = b.
Proof.
  unfold strconv.Itoa. intros H. apply DecimalZ.to_int_inj.
  assert (Hok : forall n : Z, Z.to_int n <> Decimal.Pos Decimal.Nil
                              /\ Z.to_int n <> Decimal.Neg Decimal.Nil).
  { intros [|p|p]; simpl; split; try discriminate;
      intros [= Hp]; now apply DecimalPos.Unsigned.to_uint_nonnil in Hp. }
  pose proof (NilZero.isi (Z.to_int a) (proj1 (Hok a)) (proj2 (Hok a))) as Ha.
  pose proof (NilZero.isi (Z.to_int b) (proj1 (Hok b)) (proj2 (Hok b))) as Hb.
  rewrite H in Ha. congruence.
Qed.

Lemma digits_cancel (a : string) :
  forall (b r1 r2 : string),
    allDigits a = true -> allDigits b = true ->
    a +:+ String "-" r1 = b +:+ String "-" r2 -> a = b /\ r1 = r2.
Proof.
  induction a as [|c a IH]; intros [|c' b] r1 r2 Ha Hb H.
  - injection H as ->. auto.
  - rewrite append_cons in H. injection H as <- _. discriminate.
  - rewrite append_cons in H. injection H as -> _. discriminate.
  - rewrite !append_cons in H. injection H as -> H.
    simpl in Ha, Hb. apply andb_true_iff in Ha as [_ Ha], Hb as [_ Hb].
    destruct (IH b r1 r2 Ha Hb H) as [-> ->]. auto.
Qed.

(** X12. For one prefix, different dates have different cache keys: a
    document found under today's key was written on a request of the same
    year, month and day. *)
Theorem cacheKey_tells_dates_apart (prefix : string) (d1 d2 : time.Time) :
  cacheKey prefix d1 = cacheKey prefix d2 -> d1 = d2.
Proof.
  rewrite !cacheKey_eq. intros H.
  apply (inj (String.append prefix)) in H.
  apply (inj (String.append "weather:sun_phase:")) in H.
  unfold join in H.
  destruct (Itoa_shape (time.Year d1)) as (c1 & y1 & Hy1 & Hd1).
  destruct (Itoa_shape (time.Year d2)) as (c2 & y2 & Hy2 & Hd2).
  rewrite Hy1, Hy2, !append_cons in H. injection H as -> H.
  change ("-" +:+ ?r) with (String "-" r) in H.
  apply digits_cancel in H as [-> H]; [|assumption..].
  assert (Hyear : time.Year d1 = time.Year d2) by (apply Itoa_inj; congruence).
  assert (Hrest : time.Month_ d1 = time.Month_ d2
                  /\ strconv.Itoa (time.Day d1) = strconv.Itoa (time.Day d2)).
  { destruct (time.Month_ d1), (time.Month_ d2);
      cbv [time.Month_String String.append] in H;
      first [discriminate H | split; [reflexivity | congruence]]. }
  destruct Hrest as [Hmonth Hday]. apply Itoa_inj in Hday.
  destruct d1, d2. simpl in *. congruence.
Qed.

(** ** Numbers written and read back *)

Lemma uintValue_ge (d : Decimal.uint) : forall acc : Z, 0 <= acc -> acc <= uintValue d acc.
Proof.
  induction d; intros acc Hacc; simpl; [lia|..];
    (etransitivity; [|apply IHd; lia]); lia.
Qed.

Lemma uintValue_pos (d : Decimal.uint) :
  forall p : positive, uintValue d (Z.pos p) = Z.pos (Pos.of_uint_acc d p).
Proof.
  induction d; intros p; simpl; [reflexivity|..];
    match goal with
    | |- uintValue _ ?a = Z.pos (Pos.of_uint_acc _ ?q) =>
        replace a with (Z.pos q) by lia; apply IHd
    end.
Qed.

Lemma uintValue_of_uint (d : Decimal.uint) : uintValue d 0 = Z.of_N (Pos.of_uint d).
Proof.
  induction d; simpl; [reflexivity | exact IHd | apply uintValue_pos ..].
Qed.

Lemma atoiFast_digits (d : Decimal.uint) :
  forall acc : Z,
    strconv.atoiFast (NilEmpty.string_of_uint d) acc = Some (uintValue d acc).
Proof. induction d; intros acc; simpl; [reflexivity | apply IHd ..]. Qed.

Lemma parseUintLoop_digits (d : Decimal.uint) :
  forall acc : Z,
    0 <= acc -> uintValue d acc <= strconv.maxUint64 ->
    strconv.parseUintLoop (NilEmpty.string_of_uint d) acc = (uintValue d acc, None).
Proof.
  pose proof (eq_refl : strconv.maxUint64 = 18446744073709551615) as Hm.
  pose proof (eq_refl : strconv.maxUint64 / 10 + 1 = 1844674407370955162) as Hc.
  induction d; intros acc Hacc Hmax; [reflexivity|..];
    simpl in Hmax;
    match type of Hmax with
    | uintValue _ ?a <= _ =>
        pose proof (uintValue_ge d a ltac:(lia)) as Hge;
        simpl NilEmpty.string_of_uint; cbn [strconv.parseUintLoop];
        match goal with
        | |- context [code ?c - 48] =>
            let v := eval vm_compute in (code c - 48) in
            change (code c - 48) with v
        end;
        match goal with
        | |- context [(0 <=? ?k) && (?k <=? 9)] =>
            change ((0 <=? k) && (k <=? 9)) with true
        end;
        cbv iota zeta;
        (destruct (Z.leb_spec (strconv.maxUint64 / 10 + 1) acc) as [Hbig|_];
         [exfalso; rewrite Hc in Hbig; lia|]);
        (destruct (Z.ltb_spec strconv.maxUint64 a) as [Hover|_]; [exfalso; lia|]);
        simpl uintValue; apply IHd; [lia | exact Hmax]
    end.
Qed.

(** [Atoi] on a string that holds digits after its sign, within the range
    of an int. *)
Lemma Atoi_of_digits (s s1 : string) (neg : bool) (v : Z) :
  strconv.stripSign s = (neg, s1) ->
  s1 <> "" ->
  strconv.atoiFast s1 0 = Some v ->
  strconv.parseUintLoop s1 0 = (v, None) ->
  (if neg then v <= 2 ^ 63 else v < 2 ^ 63) ->
  strconv.Atoi s = (if neg then - v else v, None).
Proof.
  intros Hstrip Hs1 Hfast Hloop Hrange. unfold strconv.Atoi.
  destruct (_ && _).
  - rewrite Hstrip. destruct s1; [contradiction|]. now rewrite Hfast.
  - unfold strconv.ParseInt.
    destruct s as [|c s]; [simpl in Hstrip; congruence|].
    rewrite Hstrip. unfold strconv.ParseUint.
    destruct s1 as [|c1 s1]; [contradiction|]. rewrite Hloop.
    unfold strconv.intSize. change (2 ^ (64 - 1)) with (2 ^ 63). cbv zeta.
    destruct neg; simpl negb; cbn [andb].
    + destruct (Z.ltb_spec (2 ^ 63) v); [lia | reflexivity].
    + destruct (Z.leb_spec (2 ^ 63) v); [lia | reflexivity].
Qed.

Lemma stripSign_digits (d : Decimal.uint) :
  d <> Decimal.Nil ->
  strconv.stripSign (NilEmpty.string_of_uint d) = (false, NilEmpty.string_of_uint d)
  /\ NilEmpty.string_of_uint d <> "".
Proof. destruct d; intros H; [contradiction | split; [reflexivity | discriminate] ..]. Qed.

Lemma Atoi_Itoa (i : Z) :
  - 2 ^ 63 <= i < 2 ^ 63 -> strconv.Atoi (strconv.Itoa i) = (i, None).
Proof.
  intros Hrange. unfold strconv.Itoa.
  destruct i as [|p|p]; [reflexivity|..]; simpl Z.to_int;
    unfold NilZero.string_of_int, NilZero.string_of_uint.
  - pose proof (DecimalPos.Unsigned.to_uint_nonnil p) as Hnil.
    pose proof (DecimalPos.Unsigned.of_to p) as Hval.
    destruct (stripSign_digits _ Hnil) as [Hstrip Hne].
    assert (Hv : uintValue (Pos.to_uint p) 0 = Z.pos p)
      by (rewrite uintValue_of_uint, Hval; reflexivity).
    replace (match Pos.to_uint p with
             | Decimal.Nil => "0"
             | _ => NilEmpty.string_of_uint (Pos.to_uint p)
             end) with (NilEmpty.string_of_uint (Pos.to_uint p))
      by (destruct (Pos.to_uint p); [contradiction | reflexivity ..]).
    rewrite (Atoi_of_digits _ _ false (Z.pos p) Hstrip Hne); [reflexivity | | |lia].
    + now rewrite atoiFast_digits, Hv.
    + rewrite parseUintLoop_digits, Hv; [reflexivity | lia |].
      rewrite Hv. unfold strconv.maxUint64. lia.
  - pose proof (DecimalPos.Unsigned.to_uint_nonnil p) as Hnil.
    pose proof (DecimalPos.Unsigned.of_to p) as Hval.
    destruct (stripSign_digits _ Hnil) as [_ Hne].
    assert (Hv : uintValue (Pos.to_uint p) 0 = Z.pos p)
      by (rewrite uintValue_of_uint, Hval; reflexivity).
    replace (match Pos.to_uint p with
             | Decimal.Nil => "0"
             | _ => NilEmpty.string_of_uint (Pos.to_uint p)
             end) with (NilEmpty.string_of_uint (Pos.to_uint p))
      by (destruct (Pos.to_uint p); [contradiction | reflexivity ..]).
    rewrite (Atoi_of_digits _ (NilEmpty.string_of_uint (Pos.to_uint p)) true (Z.pos p));
      [reflexivity | reflexivity | assumption | | | lia].
    + now rewrite atoiFast_digits, Hv.
    + rewrite parseUintLoop_digits, Hv; [reflexivity | lia |].
      rewrite Hv. unfold strconv.maxUint64. lia.
Qed.

(** X13. The numbers the program writes are read back as they were: for
    every int, [Atoi] of [Itoa] gives the number and no error.  So the
    status of an error document parses back into the status code, its code
    into the domain code, and a structure whose four fields are numbers
    written by [Itoa] gives the record of those numbers. *)
Theorem written_numbers_are_read_back :
  (forall i : Z, - 2 ^ 63 <= i < 2 ^ 63 -> strconv.Atoi (strconv.Itoa i) = (i, None))
  /\ (forall (status code : Z) (detail : string),
        - 2 ^ 63 <= status < 2 ^ 63 -> - 2 ^ 63 <= code < 2 ^ 63 ->
        strconv.Atoi (jsonapi.Status (errorObject status detail code)) = (status, None)
        /\ (code <> 0 ->
            strconv.Atoi (jsonapi.Code (errorObject status detail code)) = (code, None)))
  /\ (forall (key : string) (h m h' m' : Z) (a : WUAstronomy),
        - 2 ^ 63 <= h < 2 ^ 63 -> - 2 ^ 63 <= m < 2 ^ 63 ->
        - 2 ^ 63 <= h' < 2 ^ 63 -> - 2 ^ 63 <= m' < 2 ^ 63 ->
        SunPhase a = {| Sunrise := {| Hour := strconv.Itoa h; Minute := strconv.Itoa m |};
                        Sunset := {| Hour := strconv.Itoa h'; Minute := strconv.Itoa m' |} |} ->
        responseObj key a
        = {| ResponseID := key; SunriseM := m; SunriseH := h;
             SunsetM := m'; SunsetH := h' |}).
Proof.
  split; [exact Atoi_Itoa|]. split.
  - intros status code detail Hs Hc. unfold errorObject.
    destruct (decide (code = 0)); simpl; (split; [now apply Atoi_Itoa|]);
      intros Hne; [contradiction | now apply Atoi_Itoa].
  - intros key h m h' m' a Hh Hm Hh' Hm' Ha. unfold responseObj. rewrite Ha. simpl.
    now rewrite !Atoi_Itoa.
Qed.

(** ** From the upstream body to the record *)

Lemma scan_app (s1 s2 : string) :
  forall (m : json.mode) (out : list json.token),
    json.scan (s1 +:+ s2) m out =
    match scanChunk s1 m out with
    | Some (m', out') => json.scan s2 m' out'
    | None => None
    end.
Proof.
  induction s1 as [|c s1 IH]; intros m out; [reflexivity|].
  rewrite append_cons. simpl.
  destruct (json.scanByte m c) as [[m' toks]|]; simpl; [apply IH | reflexivity].
Qed.

Lemma scanChunk_plain (s : string) :
  forall (raw : list ascii) (out : list json.token),
    allPlain s = true ->
    scanChunk s (json.MStr raw) out
    = Some (json.MStr (rev (list_ascii_of_string s) ++ raw), out).
Proof.
  induction s as [|c s IH]; intros raw out Hplain; [reflexivity|].
  simpl in Hplain. apply andb_true_iff in Hplain as [Hc Hs].
  unfold plainByte in Hc.
  apply andb_true_iff in Hc as [Hc H92]. apply andb_true_iff in Hc as [Hc H34].
  apply andb_true_iff in Hc as [H32 H128].
  apply negb_true_iff in H34, H92. apply Z.leb_le in H32.
  simpl. rewrite H34, H92.
  destruct (Z.ltb_spec (code c) 32) as [|_]; [lia|]. simpl.
  rewrite (IH (c :: raw) out Hs). now rewrite <- app_assoc.
Qed.

Lemma unquote_plain (s : string) : allPlain s = true -> json.unquote s = s.
Proof.
  induction s as [|c s IH]; intros Hplain; [reflexivity|].
  simpl in Hplain. apply andb_true_iff in Hplain as [Hc Hs].
  specialize (IH Hs).
  assert (Hcons : json.unquote (String c s) = String c (json.unquote s)).
  { clear IH Hs. destruct c as [[] [] [] [] [] [] [] []];
      first [discriminate Hc | reflexivity]. }
  now rewrite Hcons, IH.
Qed.

Lemma text_of_plain (s : string) :
  json.text (rev (list_ascii_of_string s) ++ []) = s.
Proof.
  unfold json.text. rewrite app_nil_r, rev_involutive.
  apply string_of_list_ascii_of_string.
Qed.

Lemma parse_astronomyBody (sunrise sunset : WUTime) :
  allPlain (Hour sunrise) = true -> allPlain (Minute sunrise) = true ->
  allPlain (Hour sunset) = true -> allPlain (Minute sunset) = true ->
  json.parse (astronomyBody sunrise sunset)
  = Some (json.Object
            [("sun_phase",
              json.Object
                [("sunrise", json.Object [("hour", json.Str (Hour sunrise));
                                          ("minute", json.Str (Minute sunrise))]);
                 ("sunset", json.Object [("hour", json.Str (Hour sunset));
                                         ("minute", json.Str (Minute sunset))])])]).
Proof.
  intros H1 H2 H3 H4. unfold json.parse, astronomyBody.
  rewrite scan_app.
  change (scanChunk bodyToHour json.MTok [])
    with (Some (json.MStr [],
                [json.TColon; json.TString "hour"; json.TLBrace; json.TColon;
                 json.TString "sunrise"; json.TLBrace; json.TColon;
                 json.TString "sun_phase"; json.TLBrace])).
  cbv iota beta.
  rewrite scan_app, (scanChunk_plain _ _ _ H1), scan_app.
  match goal with
  | |- context [scanChunk hourToMinute (json.MStr ?raw) ?out] =>
      change (scanChunk hourToMinute (json.MStr raw) out)
        with (Some (json.MStr [],
                    json.TColon :: json.TString "minute" :: json.TComma
                    :: json.TString (json.unquote (json.text raw)) :: out))
  end.
  cbv iota beta.
  rewrite scan_app, (scanChunk_plain _ _ _ H2), scan_app.
  match goal with
  | |- context [scanChunk sunriseToSunset (json.MStr ?raw) ?out] =>
      change (scanChunk sunriseToSunset (json.MStr raw) out)
        with (Some (json.MStr [],
                    json.TColon :: json.TString "hour" :: json.TLBrace :: json.TColon
                    :: json.TString "sunset" :: json.TComma :: json.TRBrace
                    :: json.TString (json.unquote (json.text raw)) :: out))
  end.
  cbv iota beta.
  rewrite scan_app, (scanChunk_plain _ _ _ H3), scan_app.
  match goal with
  | |- context [scanChunk hourToMinute (json.MStr ?raw) ?out] =>
      change (scanChunk hourToMinute (json.MStr raw) out)
        with (Some (json.MStr [],
                    json.TColon :: json.TString "minute" :: json.TComma
                    :: json.TString (json.unquote (json.text raw)) :: out))
  end.
  cbv iota beta.
  rewrite scan_app, (scanChunk_plain _ _ _ H4).
  match goal with
  | |- context [json.scan bodyEnd (json.MStr ?raw) ?out] =>
      change (json.scan bodyEnd (json.MStr raw) out)
        with (Some (rev (json.TRBrace :: json.TRBrace :: json.TRBrace
                         :: json.TString (json.unquote (json.text raw)) :: out)))
  end.
  rewrite !text_of_plain, !unquote_plain by assumption.
  reflexivity.
Qed.

Lemma digits_are_plain (s : string) : allDigits s = true -> allPlain s = true.
Proof.
  induction s as [|c s IH]; [reflexivity|]. simpl.
  intros H. apply andb_true_iff in H as [Hc Hs]. rewrite (IH Hs), andb_true_r.
  unfold json.isDigit, json.between in Hc. apply andb_true_iff in Hc as [Hlo Hhi].
  apply Z.leb_le in Hlo, Hhi. unfold plainByte.
  repeat (apply andb_true_iff; split);
    [apply Z.leb_le | apply Z.ltb_lt | apply negb_true_iff, Z.eqb_neq
     | apply negb_true_iff, Z.eqb_neq]; lia.
Qed.

Lemma Itoa_plain (i : Z) : allPlain (strconv.Itoa i) = true.
Proof.
  unfold strconv.Itoa, NilZero.string_of_int, NilZero.string_of_uint.
  destruct (Z.to_int i) as [d|d].
  - destruct d; [reflexivity | apply digits_are_plain, (string_of_uint_digits (_ d)) ..].
  - change (allPlain (match d with
                      | Decimal.Nil => "0"
                      | _ => NilEmpty.string_of_uint d
                      end) = true).
    destruct d; [reflexivity | apply digits_are_plain, (string_of_uint_digits (_ d)) ..].
Qed.

Lemma Unmarshal_astronomyBody (sunrise sunset : WUTime) :
  allPlain (Hour sunrise) = true -> allPlain (Minute sunrise) = true ->
  allPlain (Hour sunset) = true -> allPlain (Minute sunset) = true ->
  json_Unmarshal (astronomyBody sunrise sunset) WUAstronomy_zero
  = ({| Response := None; MoonPhase := None;
        SunPhase := {| Sunrise := sunrise; Sunset := sunset |} |}, None).
Proof.
  intros H1 H2 H3 H4. unfold json_Unmarshal.
  rewrite parse_astronomyBody by assumption.
  destruct sunrise, sunset. reflexivity.
Qed.

(** *** The decoder on a parsed body *)

Lemma valuesAt_app (name : string) (ms1 ms2 : list (string * json.value)) :
  valuesAt name (ms1 ++ ms2) = valuesAt name ms1 ++ valuesAt name ms2.
Proof.
  induction ms1 as [|[k v] ms1 IH]; [reflexivity|]. simpl.
  destruct (json.fieldMatches k name); simpl; now rewrite IH.
Qed.

Lemma strings_app (vs1 vs2 : list json.value) (ss : list string) :
  strings (vs1 ++ vs2) = Some ss ->
  exists ss1 ss2 : list string,
    strings vs1 = Some ss1 /\ strings vs2 = Some ss2 /\ ss = ss1 ++ ss2.
Proof.
  revert ss. induction vs1 as [|v vs1 IH]; intros ss H.
  - exists [], ss. auto.
  - destruct v; try discriminate. simpl in H |- *.
    destruct (strings (vs1 ++ vs2)) as [ss'|]; [|discriminate].
    injection H as <-. destruct (IH ss' eq_refl) as (ss1 & ss2 & -> & H2 & ->).
    exists (s :: ss1), ss2. auto.
Qed.

Lemma objects_app (vs1 vs2 : list json.value) (ms : list (string * json.value)) :
  objects (vs1 ++ vs2) = Some ms ->
  exists ms1 ms2 : list (string * json.value),
    objects vs1 = Some ms1 /\ objects vs2 = Some ms2 /\ ms = ms1 ++ ms2.
Proof.
  revert ms. induction vs1 as [|v vs1 IH]; intros ms H.
  - exists [], ms. auto.
  - destruct v; try discriminate. simpl in H |- *.
    destruct (objects (vs1 ++ vs2)) as [ms'|]; [|discriminate].
    injection H as <-. destruct (IH ms' eq_refl) as (ms1 & ms2 & -> & H2 & ->).
    exists (members ++ ms1), ms2. rewrite app_assoc. auto.
Qed.

Lemma default_last_app {A} (d : A) (l1 l2 : list A) :
  default (default d (last l1)) (last l2) = default d (last (l1 ++ l2)).
Proof. rewrite last_app. now destruct (last l2). Qed.

Lemma default_last_cons {A} (d x : A) (l : list A) :
  default x (last l) = default d (last (x :: l)).
Proof. rewrite last_cons. now destruct (last l). Qed.

(** A key that one field takes is taken by no field of another name. *)
Lemma fieldMatches_other (k name other : string) :
  json.fieldMatches k name = true ->
  json.foldName name <> json.foldName other ->
  json.fieldMatches k other = false.
Proof.
  unfold json.fieldMatches. intros H Hne.
  apply bool_decide_eq_true in H. apply bool_decide_eq_false. congruence.
Qed.

Lemma storeStruct_nil {T : Type}
    (field : string -> json.value -> T -> T * option json.UnmarshalError) (cur : T) :
  json.storeStruct field (json.Object []) cur = (cur, None).
Proof. reflexivity. Qed.

Lemma storeStruct_cons {T : Type}
    (field : string -> json.value -> T -> T * option json.UnmarshalError)
    (k : string) (v : json.value) (ms : list (string * json.value)) (cur next : T) :
  field k v cur = (next, None) ->
  json.storeStruct field (json.Object ((k, v) :: ms)) cur
  = json.storeStruct field (json.Object ms) next.
Proof. intros H. unfold json.storeStruct. simpl. now rewrite H. Qed.

Lemma storeStruct_WUTime (ms : list (string * json.value)) :
  forall (t : WUTime) (hours minutes : list string),
    strings (valuesAt "hour" ms) = Some hours ->
    strings (valuesAt "minute" ms) = Some minutes ->
    json.storeStruct WUTime_field (json.Object ms) t
    = ({| Hour := default (Hour t) (last hours);
          Minute := default (Minute t) (last minutes) |}, None).
Proof.
  induction ms as [|[k v] ms IH]; intros t hours minutes Hh Hm.
  - injection Hh as <-. injection Hm as <-. now destruct t.
  - simpl in Hh, Hm.
    destruct (json.fieldMatches k "hour") eqn:Hkh.
    + rewrite (fieldMatches_other k "hour" "minute" Hkh) in Hm by discriminate.
      destruct v; try discriminate. simpl in Hh.
      destruct (strings (valuesAt "hour" ms)) as [hours'|] eqn:Hh'; [|discriminate].
      injection Hh as <-.
      rewrite (storeStruct_cons _ _ _ _ _ {| Hour := s; Minute := Minute t |})
        by (unfold WUTime_field; now rewrite Hkh).
      rewrite (IH _ hours' minutes eq_refl Hm).
      cbn [Hour Minute]. now rewrite (default_last_cons (Hour t) s hours').
    + destruct (json.fieldMatches k "minute") eqn:Hkm.
      * destruct v; try discriminate. simpl in Hm.
        destruct (strings (valuesAt "minute" ms)) as [minutes'|] eqn:Hm'; [|discriminate].
        injection Hm as <-.
        rewrite (storeStruct_cons _ _ _ _ _ {| Hour := Hour t; Minute := s |})
          by (unfold WUTime_field; now rewrite Hkh, Hkm).
        rewrite (IH _ hours minutes' Hh eq_refl).
        cbn [Hour Minute]. now rewrite (default_last_cons (Minute t) s minutes').
      * rewrite (storeStruct_cons _ _ _ _ _ t)
          by (unfold WUTime_field; now rewrite Hkh, Hkm).
        now apply IH.
Qed.

Lemma storeStruct_WUSunPhase (ps : list (string * json.value)) :
  forall (p : WUSunPhase) (rise set : list (string * json.value))
         (hr mr hs ms : list string),
    objects (valuesAt "sunrise" ps) = Some rise ->
    objects (valuesAt "sunset" ps) = Some set ->
    strings (valuesAt "hour" rise) = Some hr ->
    strings (valuesAt "minute" rise) = Some mr ->
    strings (valuesAt "hour" set) = Some hs ->
    strings (valuesAt "minute" set) = Some ms ->
    json.storeStruct WUSunPhase_field (json.Object ps) p
    = ({| Sunrise := {| Hour := default (Hour (Sunrise p)) (last hr);
                        Minute := default (Minute (Sunrise p)) (last mr) |};
          Sunset := {| Hour := default (Hour (Sunset p)) (last hs);
                       Minute := default (Minute (Sunset p)) (last ms) |} |}, None).
Proof.
  induction ps as [|[k v] ps IH]; intros p rise set hr mr hs ms Hr Hs Hhr Hmr Hhs Hms.
  - injection Hr as <-. injection Hs as <-.
    injection Hhr as <-. injection Hmr as <-. injection Hhs as <-. injection Hms as <-.
    now destruct p as [[] []].
  - simpl in Hr, Hs.
    destruct (json.fieldMatches k "sunrise") eqn:Hkr.
    + rewrite (fieldMatches_other k "sunrise" "sunset" Hkr) in Hs by discriminate.
      destruct v; try discriminate. simpl in Hr.
      destruct (objects (valuesAt "sunrise" ps)) as [rise'|] eqn:Hr'; [|discriminate].
      injection Hr as <-.
      rewrite valuesAt_app in Hhr, Hmr.
      apply strings_app in Hhr as (hr1 & hr2 & Hhr1 & Hhr2 & ->).
      apply strings_app in Hmr as (mr1 & mr2 & Hmr1 & Hmr2 & ->).
      rewrite (storeStruct_cons _ _ _ _ _
                 {| Sunrise := {| Hour := default (Hour (Sunrise p)) (last hr1);
                                  Minute := default (Minute (Sunrise p)) (last mr1) |};
                    Sunset := Sunset p |})
        by (unfold WUSunPhase_field; rewrite Hkr;
            now rewrite (storeStruct_WUTime members _ hr1 mr1 Hhr1 Hmr1)).
      rewrite (IH _ rise' set hr2 mr2 hs ms eq_refl Hs Hhr2 Hmr2 Hhs Hms).
      cbn [Sunrise Sunset Hour Minute]. now rewrite !default_last_app.
    + destruct (json.fieldMatches k "sunset") eqn:Hks.
      * destruct v; try discriminate. simpl in Hs.
        destruct (objects (valuesAt "sunset" ps)) as [set'|] eqn:Hs'; [|discriminate].
        injection Hs as <-.
        rewrite valuesAt_app in Hhs, Hms.
        apply strings_app in Hhs as (hs1 & hs2 & Hhs1 & Hhs2 & ->).
        apply strings_app in Hms as (ms1 & ms2 & Hms1 & Hms2 & ->).
        rewrite (storeStruct_cons _ _ _ _ _
                   {| Sunrise := Sunrise p;
                      Sunset := {| Hour := default (Hour (Sunset p)) (last hs1);
                                   Minute := default (Minute (Sunset p)) (last ms1) |} |})
          by (unfold WUSunPhase_field; rewrite Hkr, Hks;
              now rewrite (storeStruct_WUTime members _ hs1 ms1 Hhs1 Hms1)).
        rewrite (IH _ rise set' hr mr hs2 ms2 Hr eq_refl Hhr Hmr Hhs2 Hms2).
        cbn [Sunrise Sunset Hour Minute]. now rewrite !default_last_app.
      * rewrite (storeStruct_cons _ _ _ _ _ p)
          by (unfold WUSunPhase_field; now rewrite Hkr, Hks).
        now apply (IH p rise set).
Qed.

Lemma storeStruct_WUAstronomy (top : list (string * json.value)) :
  forall (a : WUAstronomy) (phase rise set : list (string * json.value))
         (hr mr hs ms : list string),
    objects (valuesAt "sun_phase" top) = Some phase ->
    objects (valuesAt "sunrise" phase) = Some rise ->
    objects (valuesAt "sunset" phase) = Some set ->
    strings (valuesAt "hour" rise) = Some hr ->
    strings (valuesAt "minute" rise) = Some mr ->
    strings (valuesAt "hour" set) = Some hs ->
    strings (valuesAt "minute" set) = Some ms ->
    json.storeStruct WUAstronomy_field (json.Object top) a
    = ({| Response := match last (valuesAt "response" top) with
                      | Some v => Some v
                      | None => Response a
                      end;
          MoonPhase := match last (valuesAt "moon_phase" top) with
                       | Some v => Some v
                       | None => MoonPhase a
                       end;
          SunPhase :=
            {| Sunrise := {| Hour := default (Hour (Sunrise (SunPhase a))) (last hr);
                             Minute := default (Minute (Sunrise (SunPhase a))) (last mr) |};
               Sunset := {| Hour := default (Hour (Sunset (SunPhase a))) (last hs);
                            Minute := default (Minute (Sunset (SunPhase a))) (last ms) |}
            |} |}, None).
Proof.
  induction top as [|[k v] top IH];
    intros a phase rise set hr mr hs ms Hp Hr Hs Hhr Hmr Hhs Hms.
  - injection Hp as <-. injection Hr as <-. injection Hs as <-.
    injection Hhr as <-. injection Hmr as <-. injection Hhs as <-. injection Hms as <-.
    now destruct a as [? ? [[] []]].
  - simpl in Hp. cbn [valuesAt].
    destruct (json.fieldMatches k "response") eqn:Hk1.
    + rewrite (fieldMatches_other k "response" "sun_phase" Hk1) in Hp by discriminate.
      rewrite (fieldMatches_other k "response" "moon_phase" Hk1) by discriminate.
      rewrite (storeStruct_cons _ _ _ _ _
                 {| Response := Some v; MoonPhase := MoonPhase a; SunPhase := SunPhase a |})
        by (unfold WUAstronomy_field; now rewrite Hk1).
      rewrite (IH _ phase rise set hr mr hs ms Hp Hr Hs Hhr Hmr Hhs Hms).
      cbn [Response MoonPhase SunPhase]. rewrite last_cons.
      now destruct (last (valuesAt "response" top)).
    + destruct (json.fieldMatches k "moon_phase") eqn:Hk2.
      * rewrite (fieldMatches_other k "moon_phase" "sun_phase" Hk2) in Hp by discriminate.
        rewrite (storeStruct_cons _ _ _ _ _
                   {| Response := Response a; MoonPhase := Some v; SunPhase := SunPhase a |})
          by (unfold WUAstronomy_field; now rewrite Hk1, Hk2).
        rewrite (IH _ phase rise set hr mr hs ms Hp Hr Hs Hhr Hmr Hhs Hms).
        cbn [Response MoonPhase SunPhase]. rewrite last_cons.
        now destruct (last (valuesAt "moon_phase" top)).
      * destruct (json.fieldMatches k "sun_phase") eqn:Hk3.
        -- destruct v; try discriminate. simpl in Hp.
           destruct (objects (valuesAt "sun_phase" top)) as [phase'|] eqn:Hp';
             [|discriminate].
           injection Hp as <-.
           rewrite valuesAt_app in Hr, Hs.
           apply objects_app in Hr as (r1 & r2 & Hr1 & Hr2 & ->).
           apply objects_app in Hs as (s1 & s2 & Hs1 & Hs2 & ->).
           rewrite valuesAt_app in Hhr, Hmr, Hhs, Hms.
           apply strings_app in Hhr as (hr1 & hr2 & Hhr1 & Hhr2 & ->).
           apply strings_app in Hmr as (mr1 & mr2 & Hmr1 & Hmr2 & ->).
           apply strings_app in Hhs as (hs1 & hs2 & Hhs1 & Hhs2 & ->).
           apply strings_app in Hms as (ms1 & ms2 & Hms1 & Hms2 & ->).
           rewrite (storeStruct_cons _ _ _ _ _
                      {| Response := Response a; MoonPhase := MoonPhase a;
                         SunPhase :=
                           {| Sunrise :=
                                {| Hour := default (Hour (Sunrise (SunPhase a))) (last hr1);
                                   Minute := default (Minute (Sunrise (SunPhase a)))
                                               (last mr1) |};
                              Sunset :=
                                {| Hour := default (Hour (Sunset (SunPhase a))) (last hs1);
                                   Minute := default (Minute (Sunset (SunPhase a)))
                                               (last ms1) |} |} |})
             by (unfold WUAstronomy_field; rewrite Hk1, Hk2, Hk3;
                 now rewrite (storeStruct_WUSunPhase members _ r1 s1 hr1 mr1 hs1 ms1
                                Hr1 Hs1 Hhr1 Hmr1 Hhs1 Hms1)).
           rewrite (IH _ phase' r2 s2 hr2 mr2 hs2 ms2 eq_refl Hr2 Hs2 Hhr2 Hmr2 Hhs2 Hms2).
           cbn [Response MoonPhase SunPhase Sunrise Sunset Hour Minute].
           now rewrite !default_last_app.
        -- rewrite (storeStruct_cons _ _ _ _ _ a)
             by (unfold WUAstronomy_field; now rewrite Hk1, Hk2, Hk3).
           now apply (IH a phase rise set).
Qed.

(** What the decoder makes of a parsed body in which the direct reading
    finds the sun phase. *)
Lemma Unmarshal_sunPhaseIn (body : string) (top : list (string * json.value))
    (p : WUSunPhase) :
  json.parse body = Some (json.Object top) ->
  sunPhaseIn top = Some p ->
  json_Unmarshal body WUAstronomy_zero
  = ({| Response := last (valuesAt "response" top);
        MoonPhase := last (valuesAt "moon_phase" top);
        SunPhase := p |}, None).
Proof.
  intros Hparse Hin. unfold json_Unmarshal. rewrite Hparse.
  unfold sunPhaseIn, timeIn in Hin.
  destruct (objects (valuesAt "sun_phase" top)) as [phase|] eqn:Hp; [|discriminate].
  simpl in Hin.
  destruct (objects (valuesAt "sunrise" phase)) as [rise|] eqn:Hr; [|discriminate].
  simpl in Hin.
  destruct (objects (valuesAt "sunset" phase)) as [set|] eqn:Hs; [|discriminate].
  simpl in Hin.
  destruct (strings (valuesAt "hour" rise)) as [hr|] eqn:Hhr; [|discriminate].
  simpl in Hin.
  destruct (strings (valuesAt "minute" rise)) as [mr|] eqn:Hmr; [|discriminate].
  simpl in Hin.
  destruct (strings (valuesAt "hour" set)) as [hs|] eqn:Hhs; [|discriminate].
  simpl in Hin.
  destruct (strings (valuesAt "minute" set)) as [ms|] eqn:Hms; [|discriminate].
  simpl in Hin. injection Hin as <-.
  rewrite (storeStruct_WUAstronomy top _ phase rise set hr mr hs ms) by assumption.
  cbn [WUAstronomy_zero Response MoonPhase SunPhase WUSunPhase_zero Sunrise Sunset
       WUTime_zero Hour Minute].
  now destruct (last (valuesAt "response" top)), (last (valuesAt "moon_phase" top)).
Qed.

(** [Atoi] on a string of decimal digits, leading zeros and all. *)
Lemma Atoi_string_of_uint (d : Decimal.uint) :
  d <> Decimal.Nil -> uintValue d 0 < 2 ^ 63 ->
  strconv.Atoi (NilEmpty.string_of_uint d) = (uintValue d 0, None).
Proof.
  intros Hnil Hrange.
  destruct (stripSign_digits d Hnil) as [Hstrip Hne].
  apply (Atoi_of_digits _ _ false _ Hstrip Hne (atoiFast_digits d 0)); [|exact Hrange].
  apply parseUintLoop_digits; [lia|].
  change strconv.maxUint64 with 18446744073709551615. lia.
Qed.

(** X14. From the upstream body to the response.  When the body is a JSON
    object, whatever its layout and its other members, and the direct
    reading finds the sun phase in it (every member named sun_phase,
    sunrise or sunset up to case is an object, and every hour and minute
    in them a string), the decoder returns no error and exactly that sun
    phase, with the last response and moon_phase members kept as they are.
    When the four fields are strings of decimal digits that denote
    numbers below 2^63, leading zeros allowed, a GET that misses the cache
    is answered 200 with the serialized record that has the cache key as
    its identifier and those four numbers.  The compact text of such an
    answer, with fields of plain characters, is read as its four
    fields. *)
Theorem expected_body_reaches_the_response :
  (forall (body : string) (top : list (string * json.value)) (p : WUSunPhase),
     json.parse body = Some (json.Object top) ->
     sunPhaseIn top = Some p ->
     json_Unmarshal body WUAstronomy_zero
     = ({| Response := last (valuesAt "response" top);
           MoonPhase := last (valuesAt "moon_phase" top);
           SunPhase := p |}, None))
  /\ (forall (env : Env) (x : Extern) (w : World) (req : http.Request) (e0 : error)
        (body : string) (top : list (string * json.value))
        (h m h' m' : Decimal.uint) (doc : string),
        http.Method req = "GET" ->
        (redis_Get x w (cacheKey (RedisPrefix (config env)) (now x))).2.2 = Some e0 ->
        upstream x (apiURL (WUndergroundKey (config env)) "astronomy"
                      (WUndergroundLocation (config env))) = http.Body body ->
        json.parse body = Some (json.Object top) ->
        sunPhaseIn top
        = Some {| Sunrise := {| Hour := NilEmpty.string_of_uint h;
                                Minute := NilEmpty.string_of_uint m |};
                  Sunset := {| Hour := NilEmpty.string_of_uint h';
                               Minute := NilEmpty.string_of_uint m' |} |} ->
        h <> Decimal.Nil /\ uintValue h 0 < 2 ^ 63 ->
        m <> Decimal.Nil /\ uintValue m 0 < 2 ^ 63 ->
        h' <> Decimal.Nil /\ uintValue h' 0 < 2 ^ 63 ->
        m' <> Decimal.Nil /\ uintValue m' 0 < 2 ^ 63 ->
        jsonapi.MarshalPayload
          {| ResponseID := cacheKey (RedisPrefix (config env)) (now x);
             SunriseM := uintValue m 0; SunriseH := uintValue h 0;
             SunsetM := uintValue m' 0; SunsetH := uintValue h' 0 |}
        = (doc, None) ->
        exists (w' : World) (rw' : http.ResponseWriter),
          handleSunPhase env x w http.newResponse req = Ret (w', rw')
          /\ http.status rw' = 200
          /\ http.body rw' = doc)
  /\ (forall sunrise sunset : WUTime,
        allPlain (Hour sunrise) = true -> allPlain (Minute sunrise) = true ->
        allPlain (Hour sunset) = true -> allPlain (Minute sunset) = true ->
        json_Unmarshal (astronomyBody sunrise sunset) WUAstronomy_zero
        = ({| Response := None; MoonPhase := None;
              SunPhase := {| Sunrise := sunrise; Sunset := sunset |} |}, None)).
Proof.
  split; [exact Unmarshal_sunPhaseIn|]. split; [|exact Unmarshal_astronomyBody].
  intros env x w req e0 body top h m h' m' doc Hget He Hup Hparse Hin
    [Hh Hhv] [Hm Hmv] [Hh' Hhv'] [Hm' Hmv'] Hdoc.
  rewrite (handleSunPhase_miss env x w _ req e0 Hget He).
  unfold afterMiss. rewrite Hup, fetched_cases.
  rewrite (Unmarshal_sunPhaseIn body top _ Hparse Hin).
  match goal with
  | |- context [responseObj ?key ?a] =>
      assert (Hrec : responseObj key a
                     = {| ResponseID := key;
                          SunriseM := uintValue m 0; SunriseH := uintValue h 0;
                          SunsetM := uintValue m' 0; SunsetH := uintValue h' 0 |})
        by (unfold responseObj; cbn [SunPhase Sunrise Sunset Hour Minute fst];
            now rewrite !Atoi_string_of_uint by assumption);
      rewrite Hrec
  end.
  rewrite Hdoc. eexists _, _. split; [reflexivity|]. split; reflexivity.
Qed.

(** ** Statuses *)

(** X15. A request that is answered is answered 405 when it is not a GET
    and 200 when it is, but for a GET whose record the serializer refused,
    which is answered 500.  A fetch that failed is never answered 500, and
    an unusable upstream body is answered 200. *)
Theorem answers_are_200_405_or_a_serializer_500 (env : Env) (x : Extern)
    (w w' : World) (rw' : http.ResponseWriter) (req : http.Request) :
  handleSunPhase env x w http.newResponse req = Ret (w', rw') ->
  (http.Method req <> "GET" /\ http.status rw' = 405)
  \/ (http.Method req = "GET" /\ http.status rw' = 200)
  \/ (http.Method req = "GET" /\ http.status rw' = 500
      /\ exists (data doc : string) (e : error),
           upstream x (apiURL (WUndergroundKey (config env)) "astronomy"
                         (WUndergroundLocation (config env))) = http.Body data
           /\ jsonapi.MarshalPayload
                (responseObj (cacheKey (RedisPrefix (config env)) (now x))
                   (json_Unmarshal data WUAstronomy_zero).1) = (doc, Some e)).
Proof.
  intros H.
  apply handler_returns_cases in H
    as [(Hne & -> & ->) | [(Hget & Hread & en & Hen & -> & ->)
                          | (Hget & e0 & data & He & Hup & H)]].
  - now left.
  - right. now left.
  - right. rewrite fetched_cases in H.
    destruct (jsonapi.MarshalPayload _) as [doc [em|]] eqn:Hdoc;
      injection H as _ ->.
    + right. split; [assumption|]. split; [reflexivity|]. now exists data, doc, em.
    + now left.
Qed.

(** X16. A second miss on the same day changes nothing that the first one
    stored: when a request that could not read the cache fetches the same
    upstream body again and writes it, the store is as the first request
    left it, and the two responses are equal. *)
Theorem second_miss_stores_the_same (env : Env) (x1 x2 : Extern) (w w1 w2 : World)
    (rw1 rw2 : http.ResponseWriter) (e1 e2 : error) (data : string) :
  now x2 = now x1 ->
  writeFault x1 = None -> writeFault x2 = None ->
  (redis_Get x1 w (cacheKey (RedisPrefix (config env)) (now x1))).2.2 = Some e1 ->
  readFault x2 = Some e2 ->
  upstream x1 (apiURL (WUndergroundKey (config env)) "astronomy"
                 (WUndergroundLocation (config env))) = http.Body data ->
  upstream x2 (apiURL (WUndergroundKey (config env)) "astronomy"
                 (WUndergroundLocation (config env))) = http.Body data ->
  handleSunPhase env x1 w http.newResponse GET = Ret (w1, rw1) ->
  handleSunPhase env x2 w1 http.newResponse GET = Ret (w2, rw2) ->
  store w2 = store w1 /\ rw2 = rw1.
Proof.
  intros Hnow Hw1 Hw2 He1 Hr2 Hup1 Hup2 Hrun1 Hrun2.
  assert (He2 : (redis_Get x2 w1 (cacheKey (RedisPrefix (config env)) (now x2))).2.2
                = Some e2) by (unfold redis_Get; now rewrite Hr2).
  rewrite (handleSunPhase_miss env x1 w _ GET e1 eq_refl He1) in Hrun1.
  rewrite (handleSunPhase_miss env x2 w1 _ GET e2 eq_refl He2) in Hrun2.
  unfold afterMiss in Hrun1, Hrun2.
  rewrite Hup1, fetched_cases, Hw1 in Hrun1.
  rewrite Hup2, fetched_cases, Hw2, Hnow in Hrun2.
  destruct (jsonapi.MarshalPayload _) as [doc [em|]].
  - injection Hrun1 as <- <-. injection Hrun2 as <- <-.
    split; [|reflexivity].
    destruct (decide (e1 = redis.Nil)), (decide (e2 = redis.Nil)); reflexivity.
  - injection Hrun1 as <- <-. injection Hrun2 as <- <-.
    split; [|reflexivity].
    destruct (decide (e1 = redis.Nil)), (decide (e2 = redis.Nil)); simpl;
      apply insert_insert_eq.
Qed.

End MoreProperties.

(** * More theorems at sample inputs *)

Lemma collectConfig_returns_complete_config_witness :
  exists cfg : Config,
    collectConfig completeEnviron = Ret cfg
    /\ missingFrom completeEnviron = []
    /\ RedisAddr cfg <> "" /\ WUndergroundKey cfg <> "" /\ WUndergroundLocation cfg <> "".
Proof.
  destruct (collectConfig completeEnviron) as [cfg|l] eqn:Hrun.
  - destruct (collectConfig_returns_complete_config completeEnviron cfg Hrun)
      as (Hmissing & _ & Haddr & Hkey & Hloc & _).
    exists cfg. repeat split; assumption.
  - vm_compute in Hrun. discriminate.
Defined.

Lemma unparsable_REDIS_DB_is_fatal_witness :
  os_Getenv badDBEnviron "REDIS_DB" <> ""
  /\ (strconv.Atoi (os_Getenv badDBEnviron "REDIS_DB")).2
     = Some (NumError "Atoi" "abc" ErrSyntax)
  /\ collectConfig badDBEnviron
     = Fatal (log.line ("Error parsing REDIS_DB: " +:+
                        Error (NumError "Atoi" "abc" ErrSyntax))).
Proof.
  assert (Hset : os_Getenv badDBEnviron "REDIS_DB" <> "")
    by (vm_compute; discriminate).
  assert (Herr : (strconv.Atoi (os_Getenv badDBEnviron "REDIS_DB")).2
                 = Some (NumError "Atoi" "abc" ErrSyntax))
    by (vm_compute; reflexivity).
  split; [exact Hset|]. split; [exact Herr|].
  exact (proj1 (unparsable_REDIS_DB_is_fatal (codec := jsonapi.library) badDBEnviron
                  (NumError "Atoi" "abc" ErrSyntax) ("PONG", None) [] emptyWorld
                  Hset Herr)).
Defined.


Lemma handler_is_fatal_only_in_the_fetch_witness :
  handleSunPhase (codec := jsonapi.library) sampleEnv upstreamDown emptyWorld
    http.newResponse GET = Fatal (log.line "dial tcp: connection refused")
  /\ (redis_Get upstreamDown emptyWorld "ph:weather:sun_phase:2024-March-15").2.2 <> None.
Proof.
  assert (Hrun : handleSunPhase (codec := jsonapi.library) sampleEnv upstreamDown
                   emptyWorld http.newResponse GET
                 = Fatal (log.line "dial tcp: connection refused")).
  { apply (proj2 (handler_is_fatal_only_in_the_fetch (codec := jsonapi.library)
                    sampleEnv upstreamDown emptyWorld http.newResponse GET _)).
    split; [reflexivity|]. split; [vm_compute; discriminate|].
    exists (errorString "dial tcp: connection refused").
    split; [left; reflexivity | reflexivity]. }
  split; [exact Hrun|].
  exact (proj1 (proj2 (proj1 (handler_is_fatal_only_in_the_fetch
                                (codec := jsonapi.library) sampleEnv upstreamDown
                                emptyWorld http.newResponse GET _) Hrun))).
Defined.

Lemma handler_effects_are_bounded_witness :
  exists (w' : World) (rw' : http.ResponseWriter),
    handleSunPhase (codec := jsonapi.library) sampleEnv allUp emptyWorld
      http.newResponse GET = Ret (w', rw')
    /\ exists lines : list string,
         logged w' = logged emptyWorld ++ lines /\ (length lines <= 2)%nat.
Proof.
  destruct (handleSunPhase (codec := jsonapi.library) sampleEnv allUp emptyWorld
              http.newResponse GET) as [[w' rw']|l] eqn:Hrun.
  - exists w', rw'. split; [reflexivity|].
    exact (proj2 (handler_effects_are_bounded (codec := jsonapi.library)
                    sampleEnv allUp emptyWorld w' http.newResponse rw' GET Hrun)).
  - vm_compute in Hrun. discriminate.
Defined.

Lemma handler_writes_only_its_key_witness :
  exists (w' : World) (rw' : http.ResponseWriter),
    handleSunPhase (codec := jsonapi.library) sampleEnv allUp cachedWorld
      http.newResponse GET = Ret (w', rw')
    /\ store w' !! "ph:weather:sun_phase:2024-March-14"
       = store cachedWorld !! "ph:weather:sun_phase:2024-March-14".
Proof.
  destruct (handleSunPhase (codec := jsonapi.library) sampleEnv allUp cachedWorld
              http.newResponse GET) as [[w' rw']|l] eqn:Hrun.
  - exists w', rw'. split; [reflexivity|].
    apply (proj1 (handler_writes_only_its_key (codec := jsonapi.library)
                    sampleEnv allUp cachedWorld w' http.newResponse rw' GET Hrun)).
    vm_compute. discriminate.
  - vm_compute in Hrun. discriminate.
Defined.

Lemma cache_write_failure_is_only_logged_witness :
  writeFault writesFail = Some (errorString "EOF")
  /\ exists (w' : World) (rw' : http.ResponseWriter),
       handleSunPhase (codec := jsonapi.library) sampleEnv writesFail emptyWorld
         http.newResponse GET = Ret (w', rw')
       /\ store w' = store emptyWorld
       /\ exists w2 : World,
            handleSunPhase (codec := jsonapi.library) sampleEnv (writesTaken writesFail)
              emptyWorld http.newResponse GET = Ret (w2, rw').
Proof.
  split; [reflexivity|].
  destruct (handleSunPhase (codec := jsonapi.library) sampleEnv writesFail emptyWorld
              http.newResponse GET) as [[w' rw']|l] eqn:Hrun.
  - destruct (cache_write_failure_is_only_logged (codec := jsonapi.library)
                sampleEnv writesFail emptyWorld w' http.newResponse rw' GET
                (errorString "EOF") eq_refl Hrun) as (Hstore & w2 & Hrun2 & _).
    exists w', rw'. split; [reflexivity|]. split; [exact Hstore|].
    exists w2. exact Hrun2.
  - vm_compute in Hrun. discriminate.
Defined.

Lemma serialization_error_is_a_500_witness :
  exists (w' : World) (rw' : http.ResponseWriter),
    handleSunPhase (codec := refusingCodec) sampleEnv allUp emptyWorld
      http.newResponse GET = Ret (w', rw')
    /\ http.status rw' = 500
    /\ commands w' = [redis.GET "ph:weather:sun_phase:2024-March-15"].
Proof.
  destruct (serialization_error_is_a_500 (codec := refusingCodec)
              sampleEnv allUp emptyWorld GET redis.Nil
              (errorString "json: unsupported value") sampleBody "")
    as (w' & rw' & Hrun & Hstatus & _ & _ & Hcommands & _);
    [reflexivity | vm_compute; reflexivity | reflexivity | reflexivity |].
  exists w', rw'. repeat split; assumption.
Defined.

Lemma media_type_is_declared_only_on_200_witness :
  200 <= 405 <= 999 /\ 405 <> 204 /\ 405 <> 304
  /\ http.sentHeader (makeErrorResponse (codec := jsonapi.library)
                        http.newResponse 405 "POST" 0) = ∅
  /\ http.ContentType (makeErrorResponse (codec := jsonapi.library)
                         http.newResponse 405 "POST" 0)
     = http.sniffedType
         (jsonapi.MarshalErrors (Codec := jsonapi.library) [errorObject 405 "POST" 0])
  /\ exists (w' : World) (rw' : http.ResponseWriter),
       handleSunPhase (codec := jsonapi.library) sampleEnv allUp emptyWorld
         http.newResponse POST = Ret (w', rw')
       /\ http.panicked rw' = false
       /\ http.wroteHeader rw' = true.
Proof.
  destruct (media_type_is_declared_only_on_200 (codec := jsonapi.library))
    as (Hbuilder & Hhandler).
  assert (Hrange : 200 <= 405 <= 999) by lia.
  assert (H204 : 405 <> 204) by lia.
  assert (H304 : 405 <> 304) by lia.
  split; [exact Hrange|]. split; [exact H204|]. split; [exact H304|].
  destruct (Hbuilder 405 "POST" 0 Hrange H204 H304) as (_ & Hsent & _ & Htype).
  split; [exact Hsent|]. split; [exact Htype|].
  destruct (handleSunPhase (codec := jsonapi.library) sampleEnv allUp emptyWorld
              http.newResponse POST) as [[w' rw']|l] eqn:Hrun.
  - exists w', rw'. split; [reflexivity|].
    destruct (Hhandler sampleEnv allUp emptyWorld w' rw' POST Hrun)
      as (Hpanic & Hwrote & _).
    split; [exact Hpanic | exact Hwrote].
  - vm_compute in Hrun. discriminate.
Defined.

Lemma failed_fetch_ends_the_service_witness :
  serve (codec := jsonapi.library) sampleEnv
    ([(allUp, POST)] ++ (upstreamDown, GET) :: [(allUp, GET)]) emptyWorld
  = Fatal (log.line "dial tcp: connection refused").
Proof.
  destruct (serve (codec := jsonapi.library) sampleEnv [(allUp, POST)] emptyWorld)
    as [[w1 rs1]|l] eqn:Hrun.
  - apply (failed_fetch_ends_the_service (codec := jsonapi.library) sampleEnv
             [(allUp, POST)] [(allUp, GET)] upstreamDown GET emptyWorld w1 rs1
             redis.Nil (errorString "dial tcp: connection refused") Hrun eq_refl).
    + vm_compute in Hrun. injection Hrun as <- _. vm_compute. reflexivity.
    + left. reflexivity.
  - vm_compute in Hrun. discriminate.
Defined.

Lemma one_fetch_serves_the_day_witness :
  exists (w' : World) (rs : list http.ResponseWriter),
    serve (codec := jsonapi.library) sampleEnv
      ((allUp, GET) :: map (fun x' => (x', GET)) [allUp; upstreamDown]) emptyWorld
    = Ret (w', rs)
    /\ requested w'
       = ["https://api.wunderground.com/api/key/astronomy/q/CA/San_Francisco.json"]
    /\ length rs = 3%nat.
Proof.
  destruct (one_fetch_serves_the_day (codec := jsonapi.library) sampleEnv allUp
              [allUp; upstreamDown] emptyWorld sampleBody
              (jsonapi.encodePayload
                 {| ResponseID := "ph:weather:sun_phase:2024-March-15";
                    SunriseM := 30; SunriseH := 7; SunsetM := 45; SunsetH := 19 |}))
    as (w' & rs & Hrun & Hreq & Hlen & _).
  - reflexivity.
  - reflexivity.
  - vm_compute. reflexivity.
  - reflexivity.
  - vm_compute. reflexivity.
  - repeat constructor.
  - exists w', rs. repeat split; assumption.
Defined.

Lemma cacheKey_tells_dates_apart_witness :
  cacheKey "ph:" sampleDay = cacheKey "ph:" sampleDay /\ sampleDay = sampleDay.
Proof.
  split; [reflexivity|].
  exact (cacheKey_tells_dates_apart "ph:" sampleDay sampleDay eq_refl).
Defined.

Lemma written_numbers_are_read_back_witness :
  - 2 ^ 63 <= 405 < 2 ^ 63
  /\ strconv.Atoi (strconv.Itoa 405) = (405, None)
  /\ strconv.Atoi (jsonapi.Code (errorObject 422 "name" 2201)) = (2201, None).
Proof.
  assert (H405 : - 2 ^ 63 <= 405 < 2 ^ 63) by lia.
  assert (H422 : - 2 ^ 63 <= 422 < 2 ^ 63) by lia.
  assert (H2201 : - 2 ^ 63 <= 2201 < 2 ^ 63) by lia.
  destruct written_numbers_are_read_back as (Hnum & Herr & _).
  split; [exact H405|]. split; [exact (Hnum 405 H405)|].
  apply (proj2 (Herr 422 2201 "name" H422 H2201)). discriminate.
Defined.

Lemma expected_body_reaches_the_response_witness :
  (exists top : list (string * json.value),
     json.parse stationBody = Some (json.Object top)
     /\ sunPhaseIn top
        = Some {| Sunrise := {| Hour := "7"; Minute := "05" |};
                  Sunset := {| Hour := "19"; Minute := "45" |} |})
  /\ exists (w' : World) (rw' : http.ResponseWriter),
       handleSunPhase (codec := jsonapi.library) sampleEnv (answering stationBody)
         emptyWorld http.newResponse GET = Ret (w', rw')
       /\ http.status rw' = 200
       /\ http.body rw'
          = jsonapi.encodePayload
              {| ResponseID := "ph:weather:sun_phase:2024-March-15";
                 SunriseM := 5; SunriseH := 7; SunsetM := 45; SunsetH := 19 |}.
Proof.
  destruct (json.parse stationBody) as [[| | | | |top]|] eqn:Hparse;
    try (vm_compute in Hparse; discriminate).
  assert (Hin : sunPhaseIn top
                = Some {| Sunrise := {| Hour := "7"; Minute := "05" |};
                          Sunset := {| Hour := "19"; Minute := "45" |} |})
    by (vm_compute in Hparse; injection Hparse as <-; vm_compute; reflexivity).
  split; [exists top; split; [reflexivity | exact Hin]|].
  apply (proj1 (proj2 (expected_body_reaches_the_response (codec := jsonapi.library)))
           sampleEnv (answering stationBody) emptyWorld GET redis.Nil stationBody top
           (Decimal.D7 Decimal.Nil) (Decimal.D0 (Decimal.D5 Decimal.Nil))
           (Decimal.D1 (Decimal.D9 Decimal.Nil)) (Decimal.D4 (Decimal.D5 Decimal.Nil)));
    first [ reflexivity | exact Hparse | exact Hin
          | (split; [discriminate | reflexivity])
          | (vm_compute; reflexivity) ].
Defined.

Lemma answers_are_200_405_or_a_serializer_500_witness :
  exists (w' : World) (rw' : http.ResponseWriter),
    handleSunPhase (codec := jsonapi.library) sampleEnv (answering htmlBody) emptyWorld
      http.newResponse GET = Ret (w', rw')
    /\ (http.status rw' = 405 \/ http.status rw' = 200 \/ http.status rw' = 500).
Proof.
  destruct (handleSunPhase (codec := jsonapi.library) sampleEnv (answering htmlBody)
              emptyWorld http.newResponse GET) as [[w' rw']|l] eqn:Hrun.
  - exists w', rw'. split; [reflexivity|].
    destruct (answers_are_200_405_or_a_serializer_500 (codec := jsonapi.library)
                sampleEnv (answering htmlBody) emptyWorld w' rw' GET Hrun)
      as [[_ H] | [[_ H] | (_ & H & _)]]; auto.
  - vm_compute in Hrun. discriminate.
Defined.

Lemma second_miss_stores_the_same_witness :
  exists (w1 w2 : World) (rw1 rw2 : http.ResponseWriter),
    handleSunPhase (codec := jsonapi.library) sampleEnv allUp emptyWorld
      http.newResponse GET = Ret (w1, rw1)
    /\ handleSunPhase (codec := jsonapi.library) sampleEnv readsFail w1
         http.newResponse GET = Ret (w2, rw2)
    /\ store w2 = store w1 /\ rw2 = rw1.
Proof.
  destruct (handleSunPhase (codec := jsonapi.library) sampleEnv allUp emptyWorld
              http.newResponse GET) as [[w1 rw1]|l] eqn:Hrun1;
    [|vm_compute in Hrun1; discriminate].
  destruct (handleSunPhase (codec := jsonapi.library) sampleEnv readsFail w1
              http.newResponse GET) as [[w2 rw2]|l] eqn:Hrun2.
  - exists w1, w2, rw1, rw2. split; [reflexivity|]. split; [exact Hrun2|].
    apply (second_miss_stores_the_same (codec := jsonapi.library) sampleEnv
             allUp readsFail emptyWorld w1 w2 rw1 rw2 redis.Nil (errorString "EOF")
             sampleBody); first [reflexivity | assumption | (vm_compute; reflexivity)].
  - vm_compute in Hrun1. injection Hrun1 as <- _.
    vm_compute in Hrun2. discriminate.
Defined.
